(** * fraim-action: pull-request gate and SARIF feedback

  A shallow embedding of [src/github_utils.py], [src/workflows.py],
  [src/sarif_to_comment.py] and [src/fraim.py], and the properties of the
  gate, the approval check and the renderer proved over it.

  Python code is embedded as functions in a small state-and-exception
  monad: the state holds what the process has written (standard output,
  status checks, comments, the scan it ran) and the pull request's comment
  list; the environment variables, the files and the answers of the GitHub
  host are read from an immutable record. *)

From Stdlib Require Import ZArith DecimalString Ascii String Sorted Permutation.
From stdpp Require Import base strings list gmap.

(** * Python values, strings and exceptions *)
Module Py.

(** The scalar values [json.loads] produces (floats apart): what the
    workflow arguments and the pull request number hold. *)
Inductive pyval : Type :=
| VNone
| VBool (b : bool)
| VInt (z : Z)
| VStr (s : string).

(** [bool(v)]: what [if v], [not v], [a or b] and [a and b] test. *)
Definition truthy (v : pyval) : bool :=
  match v with
  | VNone => false
  | VBool b => b
  | VInt z => negb (z =? 0)%Z
  | VStr s => negb (String.eqb s "")
  end.

Definition as_int (v : pyval) : option Z :=
  match v with
  | VBool b => Some (if b then 1 else 0)%Z
  | VInt z => Some z
  | _ => None
  end.

(** [a == b]. [bool] is a subclass of [int], so [True == 1]. *)
Definition py_eq (a b : pyval) : bool :=
  match a, b with
  | VNone, VNone => true
  | VStr s, VStr t => String.eqb s t
  | _, _ =>
      match as_int a, as_int b with
      | Some x, Some y => (x =? y)%Z
      | _, _ => false
      end
  end.

Definition str_of_Z (z : Z) : string := NilZero.string_of_int (Z.to_int z).
Definition str_of_nat (n : nat) : string := str_of_Z (Z.of_nat n).

(** [str(v)], what an f-string interpolates. *)
Definition py_str (v : pyval) : string :=
  match v with
  | VNone => "None"
  | VBool true => "True"
  | VBool false => "False"
  | VInt z => str_of_Z z
  | VStr s => s
  end.

(** [type(v).__name__] *)
Definition type_name (v : pyval) : string :=
  match v with
  | VNone => "NoneType"
  | VBool _ => "bool"
  | VInt _ => "int"
  | VStr _ => "str"
  end.

(** ** Strings.  A [str] is held as its UTF-8 bytes. *)

(** [needle in hay] *)
Fixpoint contains (needle hay : string) : bool :=
  String.prefix needle hay ||
  match hay with
  | EmptyString => false
  | String _ rest => contains needle rest
  end.

(** [s.startswith(p)] *)
Definition startswith (s p : string) : bool := String.prefix p s.

(** [s.lstrip(c)] for a one-character argument *)
Fixpoint lstrip (c : ascii) (s : string) : string :=
  match s with
  | String a rest => if Ascii.eqb a c then lstrip c rest else s
  | EmptyString => EmptyString
  end.

(** [s.split(c)]: never empty. *)
Fixpoint split (c : ascii) (s : string) : list string :=
  match s with
  | EmptyString => [EmptyString]
  | String a rest =>
      if Ascii.eqb a c then EmptyString :: split c rest
      else match split c rest with
           | seg :: segs => String a seg :: segs
           | [] => [String a EmptyString]
           end
  end.

Definition is_upper (a : ascii) : bool :=
  let n := N_of_ascii a in ((65 <=? n) && (n <=? 90))%N.
Definition is_lower (a : ascii) : bool :=
  let n := N_of_ascii a in ((97 <=? n) && (n <=? 122))%N.
Definition to_lower (a : ascii) : ascii :=
  if is_upper a then ascii_of_N (N_of_ascii a + 32) else a.
Definition to_upper (a : ascii) : ascii :=
  if is_lower a then ascii_of_N (N_of_ascii a - 32) else a.

(** [s.lower()] on the ASCII letters; the bytes of other characters are
    kept as they are. *)
Fixpoint lower (s : string) : string :=
  match s with
  | EmptyString => EmptyString
  | String a rest => String (to_lower a) (lower rest)
  end.

(** [s.title()] on the ASCII letters: a letter that follows a letter is
    lowered, any other letter is raised. *)
Fixpoint title_from (prev_cased : bool) (s : string) : string :=
  match s with
  | EmptyString => EmptyString
  | String a rest =>
      let cased := is_upper a || is_lower a in
      String (if prev_cased then to_lower a else to_upper a)
             (title_from cased rest)
  end.
Definition title (s : string) : string := title_from false s.

(** [sep.join(parts)] *)
Definition join (sep : string) (parts : list string) : string :=
  String.concat sep parts.

(** ** Exceptions *)
Inductive exn : Type :=
| TypeError (msg : string)
| ValueError (msg : string)
| AttributeError (msg : string)
| UnboundLocalError (msg : string)
| JSONDecodeError (msg : string)
| GithubException (status : Z) (msg : string)
| Exception (msg : string)          (* any other subclass of Exception *)
| SystemExit (code : Z).            (* sys.exit(code): not an Exception *)

(** [str(e)] *)
Definition exn_str (e : exn) : string :=
  match e with
  | TypeError m | ValueError m | AttributeError m | UnboundLocalError m
  | JSONDecodeError m | GithubException _ m | Exception m => m
  | SystemExit c => str_of_Z c
  end.

(** [isinstance(e, Exception)]: what [except Exception] catches. *)
Definition is_Exception (e : exn) : bool :=
  match e with SystemExit _ => false | _ => true end.

Definition is_GithubException (e : exn) : bool :=
  match e with GithubException _ _ => true | _ => false end.

Definition no_attribute (v : pyval) (attr : string) : exn :=
  AttributeError ("'" +:+ type_name v +:+ "' object has no attribute '" +:+ attr +:+ "'").

(** The exit status of the process: 0 on return, the code of
    [sys.exit], 1 on an exception nobody caught. *)
Definition exit_status_of_exn (e : exn) : Z :=
  match e with SystemExit c => c | _ => 1%Z end.

End Py.
Export Py.

(** * The process: what it reads and what it writes *)
Module Proc.

Record Review := { review_state : string; review_user_login : string }.
Record Comment := { comment_id : Z; comment_body : string }.

(** What an invocation writes. *)
Inductive event : Type :=
| EPrint (text : string)
| EStatus (repository sha state description context : string)
| ECreateComment (body : string)
| EEditComment (id : Z) (body : string)
| ERun (cmd : list string)
| ESetOutput (name value : string).

Inductive outcome (A : Type) : Type :=
| Ok (a : A)
| Raise (e : exn).
Arguments Ok {A} a.
Arguments Raise {A} e.

(** How a call to the host, to a file or to a library fails: with a
    [GithubException], a [json.JSONDecodeError] or another [Exception]. *)
Inductive failure : Type :=
| GithubFailure (status : Z) (msg : string)
| JSONFailure (msg : string)
| OtherFailure (msg : string).

Definition exn_of (f : failure) : exn :=
  match f with
  | GithubFailure status msg => GithubException status msg
  | JSONFailure msg => JSONDecodeError msg
  | OtherFailure msg => Exception msg
  end.

Inductive answer (A : Type) : Type :=
| Answer (a : A)
| Failure (f : failure).
Arguments Answer {A} a.
Arguments Failure {A} f.

(** The GitHub host as PyGithub shows it: each call answers or fails.
    The comment list of the pull request is state (below); the rest is
    fixed for the invocation. *)
Record Host := {
  get_repo : string -> option failure;
  get_pull : string -> pyval -> option failure;
  get_reviews : string -> pyval -> answer (list Review);
  get_issue_comments_error : option failure;
  create_issue_comment_error : option failure;
  edit_error : option failure;
  get_organization : string -> option failure;
  get_team_by_slug : string -> string -> answer Z;          (* the team's id *)
  get_members : string -> string -> answer (list string);   (* their logins *)
  get_commit : string -> string -> option failure;
  create_status : string -> string -> string -> string -> string -> option failure
}.

Record State := {
  trace : list event;            (* oldest first *)
  comments : list Comment        (* the pull request's issue comments *)
}.

Definition M (A : Type) : Type := State -> outcome A * State.

Definition ret {A} (a : A) : M A := fun s => (Ok a, s).
Definition raise {A} (e : exn) : M A := fun s => (Raise e, s).
Definition bind {A B} (m : M A) (k : A -> M B) : M B :=
  fun s => match m s with
           | (Ok a, s') => k a s'
           | (Raise e, s') => (Raise e, s')
           end.

(** [try: m  except ...: handler]: [handler e] is the clause that catches
    [e], if there is one. *)
Definition try_except {A} (m : M A) (handler : exn -> option (M A)) : M A :=
  fun s => match m s with
           | (Ok a, s') => (Ok a, s')
           | (Raise e, s') =>
               match handler e with
               | Some k => k s'
               | None => (Raise e, s')
               end
           end.

Definition emit (e : event) : M unit :=
  fun s => (Ok tt, {| trace := trace s ++ [e]; comments := comments s |}).
Definition print (text : string) : M unit := emit (EPrint text).
(** [log]: the same in the three files. *)
Definition log (message : string) : M unit := print ("::debug::" +:+ message).

(** A call that returns nothing, and a call that returns a value. *)
Definition call (o : option failure) : M unit :=
  match o with None => ret tt | Some f => raise (exn_of f) end.
Definition ask {A} (o : answer A) : M A :=
  match o with Answer a => ret a | Failure f => raise (exn_of f) end.

Definition get_comments : M (list Comment) := fun s => (Ok (comments s), s).
Definition set_comments (cs : list Comment) : M unit :=
  fun s => (Ok tt, {| trace := trace s; comments := cs |}).

Definition initial (cs : list Comment) : State := {| trace := []; comments := cs |}.

End Proc.
Export Proc.

Declare Scope py_scope.
Delimit Scope py_scope with py.
Notation "x <- m ;; k" := (bind m (fun x => k))
  (at level 100, m at next level, right associativity) : py_scope.
Notation "m ;; k" := (bind m (fun _ => k))
  (at level 100, right associativity) : py_scope.
Local Open Scope py_scope.

(** * src/github_utils.py *)
Module GithubUtils.
Section Process.
Variable environ : gmap string string.
Variable host : Host.

(** [os.environ.get(name)] and [os.environ.get(name, default)] *)
Definition environ_get (name : string) : pyval :=
  match environ !! name with Some s => VStr s | None => VNone end.
Definition environ_get_or (name dflt : string) : string :=
  default dflt (environ !! name).

(** [a or b] *)
Definition py_or (a b : pyval) : pyval := if truthy a then a else b.

Inductive Github : Type := GithubClient (token : pyval).
(** A [Github] object defines neither [__bool__] nor [__len__]. *)
Definition client_truthy (c : Github) : bool := true.

(** [os.environ.get('GH_TOKEN') or os.environ.get('GITHUB_TOKEN')] *)
Definition github_token : pyval :=
  py_or (environ_get "GH_TOKEN") (environ_get "GITHUB_TOKEN").

Definition get_github_client : M Github :=
  if negb (truthy github_token) then
    raise (ValueError "No GitHub token available")
  else ret (GithubClient github_token).

Definition create_status_check
    (state description github_repository context : string) : M unit :=
  try_except
    (github_client <- get_github_client ;;
     let commit_sha := environ_get_or "GITHUB_SHA" "" in
     if negb (truthy (VStr github_repository)) || negb (truthy (VStr commit_sha)) then
       log ("Missing repository (" +:+ github_repository +:+ ") or commit SHA ("
            +:+ commit_sha +:+ ")")
     else
       print ("Creating status check: " +:+ github_repository +:+ " - " +:+ commit_sha
              +:+ " - " +:+ description +:+ " - " +:+ context) ;;
       call (get_repo host github_repository) ;;
       call (get_commit host github_repository commit_sha) ;;
       call (create_status host github_repository commit_sha state description context) ;;
       emit (EStatus github_repository commit_sha state description context) ;;
       log ("Created status check: " +:+ state +:+ " - " +:+ description))
    (fun e =>
       if is_GithubException e then
         Some (log ("Failed to create GitHub status check: " +:+ exn_str e))
       else if is_Exception e then
         Some (log ("Error creating status check: " +:+ exn_str e))
       else None).

End Process.
End GithubUtils.
Export GithubUtils.

(** * src/workflows.py *)
Module Workflows.

(** A value passed in a call: the workflow-argument dictionary, or a
    scalar. *)
Inductive actual : Type :=
| ADict (d : gmap string pyval)
| AVal (v : pyval).

(** [args.get(key)] *)
Definition dict_get (args : gmap string pyval) (key : string) : pyval :=
  default VNone (args !! key).

(** [repr] of a list of logins (a login holds no quote or backslash). *)
Definition repr_logins (logins : list string) : string :=
  "[" +:+ join ", " (map (fun l => "'" +:+ l +:+ "'") logins) +:+ "]".

Definition MARKER : string :=
  "The following security risks have been identified and require review".
Definition COMMENT_MARKER : string := "Security Risk Review Required".

Section Process.
Variable environ : gmap string string.
Variable host : Host.

Local Abbreviation environ_get_or := (GithubUtils.environ_get_or environ).
Local Abbreviation get_github_client := (GithubUtils.get_github_client environ).
Local Abbreviation create_status_check := (GithubUtils.create_status_check environ host).

(** [json.loads] then [json.dumps(.., separators=(',', ':'))] of a string:
    [None] when the string is not JSON. *)
Variable json_minify : string -> option string.

Definition minify_json (json_input : pyval) : M pyval :=
  if negb (truthy json_input) then ret json_input
  else
    match json_input with
    | VStr s =>
        match json_minify s with
        | Some m => ret (VStr m)
        | None => ret json_input          (* except json.JSONDecodeError *)
        end
    | _ => raise (TypeError ("the JSON object must be str, bytes or bytearray, not "
                             +:+ type_name json_input))
    end.

(** [l.extend([flag, value])] when [value] is truthy *)
Definition extend_if (l : list pyval) (flag : string) (value : pyval) : list pyval :=
  if truthy value then l ++ [VStr flag; value] else l.

Definition add_global_args (workflow : string) (args : gmap string pyval)
    (github_repository : string) : M (list pyval) :=
  let global_args :=
    if String.eqb workflow "code" || String.eqb workflow "iac"
    then [VStr "--output"; VStr "fraim_outputs"] else [] in
  let confidence := dict_get args "confidence" in
  let global_args := extend_if global_args "--confidence" confidence in
  let temperature := dict_get args "temperature" in
  let global_args := extend_if global_args "--temperature" temperature in
  let input_model := environ_get_or "INPUT_MODEL" "" in
  let global_args := extend_if global_args "--model" (VStr input_model) in
  let global_args := global_args ++ [VStr "--location"; VStr "./"] in
  let github_event_name := environ_get_or "GITHUB_EVENT_NAME" "" in
  if String.eqb github_event_name "pull_request" then
    print "Scanning PR diff using --diff mode..." ;;
    let github_base_sha := environ_get_or "GITHUB_BASE_SHA" "" in
    let github_sha := environ_get_or "GITHUB_SHA" "" in
    if negb (truthy (VStr github_base_sha)) || negb (truthy (VStr github_sha)) then
      let error_msg :=
        "Missing base or head SHA for PR diff scanning. GITHUB_BASE_SHA: "
        +:+ github_base_sha +:+ ", GITHUB_SHA: " +:+ github_sha in
      print ("ERROR: " +:+ error_msg) ;;
      create_status_check "error" error_msg github_repository ("fraim/" +:+ workflow) ;;
      raise (SystemExit 1)
    else
      print ("Base SHA: " +:+ github_base_sha) ;;
      print ("Head SHA: " +:+ github_sha) ;;
      ret (global_args ++ [VStr "--diff"; VStr "--base"; VStr github_base_sha;
                           VStr "--head"; VStr github_sha])
  else
    print "Scanning entire repository..." ;;
    ret global_args.

Definition add_risk_flagger_args (args : gmap string pyval)
    (workflow_cli_args : list pyval) (github_repository : string)
    (pr_number : pyval) : M (list pyval) :=
  let updated_args := workflow_cli_args in
  let custom_risk_list_json := dict_get args "custom-risk-list-json" in
  print ("Custom risk list JSON: " +:+ py_str custom_risk_list_json) ;;
  updated_args <-
    (if truthy custom_risk_list_json then
       minified_json <- minify_json custom_risk_list_json ;;
       ret (updated_args ++ [VStr "--custom-risk-list-json"; minified_json])
     else ret updated_args) ;;
  let updated_args :=
    extend_if updated_args "--custom-risk-list-filepath" (dict_get args "custom-risk-list-filepath") in
  let updated_args :=
    extend_if updated_args "--custom-risk-list-action" (dict_get args "custom-risk-list-action") in
  let updated_args := extend_if updated_args "--approver" (dict_get args "approver") in
  let slack_webhook_url := dict_get args "slack-webhook-url" in
  updated_args <-
    (if truthy slack_webhook_url then
       log "Adding Slack webhook URL for risk_flagger" ;;
       ret (updated_args ++ [VStr "--slack-webhook-url"; slack_webhook_url])
     else ret updated_args) ;;
  let no_gh_comment := dict_get args "no-gh-comment" in
  updated_args <-
    (if truthy no_gh_comment && String.eqb (lower (py_str no_gh_comment)) "true" then
       log "Adding --no-gh-comment flag for risk_flagger" ;;
       ret (updated_args ++ [VStr "--no-gh-comment"])
     else ret updated_args) ;;
  let github_event_name := environ_get_or "GITHUB_EVENT_NAME" "" in
  if (String.eqb github_event_name "pull_request"
      || String.eqb github_event_name "pull_request_review")
     && truthy pr_number && truthy (VStr github_repository) then
    let pr_url := "https://github.com/" +:+ github_repository +:+ "/pull/"
                  +:+ py_str pr_number in
    log ("Adding PR URL for risk_flagger: " +:+ pr_url) ;;
    ret (updated_args ++ [VStr "--pr-url"; VStr pr_url])
  else ret updated_args.

(** [github_repository.split('/')[0]] *)
Definition org_of (github_repository : string) : string :=
  hd "" (split "/" github_repository).

(** [approver.lstrip('@')], then the part after the last ['/'] *)
Definition clean_team_name (approver : pyval) : M string :=
  match approver with
  | VStr a =>
      let team_name := lstrip "@" a in
      ret (if contains "/" team_name then List.last (split "/" team_name) "" else team_name)
  | _ => raise (no_attribute approver "lstrip")
  end.

Definition get_team_members (github_repository team_name : string) : M (list string) :=
  try_except
    (github_client <- get_github_client ;;
     let org_name := org_of github_repository in
     call (get_organization host org_name) ;;
     _team <- ask (get_team_by_slug host org_name team_name) ;;
     member_logins <- ask (get_members host org_name team_name) ;;
     log ("Team '" +:+ team_name +:+ "' has members: " +:+ repr_logins member_logins) ;;
     ret member_logins)
    (fun e =>
       if is_Exception e then
         Some (log ("Error getting team members for '" +:+ team_name +:+ "': " +:+ exn_str e) ;;
               ret [])
       else None).

Definition is_team_approver (approver : pyval) (github_repository : string) : M bool :=
  if negb (truthy approver) || negb (truthy (VStr github_repository)) then ret false
  else
    try_except
      (github_client <- get_github_client ;;
       let org_name := org_of github_repository in
       team_name <- clean_team_name approver ;;
       call (get_organization host org_name) ;;
       team_id <- ask (get_team_by_slug host org_name team_name) ;;
       log ("'" +:+ py_str approver +:+ "' is a valid team with ID: " +:+ str_of_Z team_id) ;;
       ret true)
      (fun e =>
         match e with
         | GithubException status _ =>
             if (status =? 404)%Z then
               Some (log ("'" +:+ py_str approver
                          +:+ "' is not a team (404), treating as individual user") ;;
                     ret false)
             else
               Some (log ("GitHub API error checking if '" +:+ py_str approver
                          +:+ "' is a team: " +:+ exn_str e) ;;
                     ret false)
         | _ =>
             if is_Exception e then
               Some (log ("Error checking if '" +:+ py_str approver +:+ "' is a team: "
                          +:+ exn_str e) ;;
                     ret false)
             else None
         end).

Definition print_review (review : Review) : M unit :=
  print ("Review: " +:+ review_state review +:+ " - " +:+ review_user_login review).

(** The two [for review in reviews] loops: [true] when the loop returned
    [True], [false] when it ran to its end. *)
Fixpoint team_member_approved (team_members : list string) (reviews : list Review)
    : M bool :=
  match reviews with
  | [] => ret false
  | review :: rest =>
      print_review review ;;
      if String.eqb (review_state review) "APPROVED"
         && existsb (String.eqb (review_user_login review)) team_members then
        log ("PR approved by team member: " +:+ review_user_login review) ;;
        ret true
      else team_member_approved team_members rest
  end.

Fixpoint user_approved (approver : pyval) (reviews : list Review) : M bool :=
  match reviews with
  | [] => ret false
  | review :: rest =>
      print_review review ;;
      if String.eqb (review_state review) "APPROVED"
         && py_eq (VStr (review_user_login review)) approver then
        log ("PR approved by user: " +:+ review_user_login review) ;;
        ret true
      else user_approved approver rest
  end.

Definition check_approver_approval (approver : pyval) (github_repository : string)
    (pr_number : pyval) : M bool :=
  log ("Checking if approver '" +:+ py_str approver +:+ "' has approved PR #"
       +:+ py_str pr_number) ;;
  if negb (truthy approver) then log "No approver specified" ;; ret false
  else if negb (truthy (VStr github_repository)) then
    log "Missing repository information" ;; ret false
  else if negb (truthy pr_number) then log "Missing PR number" ;; ret false
  else
    github_client <- get_github_client ;;
    if negb (client_truthy github_client) then
      log "GitHub client not available, cannot check approvals" ;; ret false
    else
      try_except
        (call (get_repo host github_repository) ;;
         call (get_pull host github_repository pr_number) ;;
         is_team <- is_team_approver approver github_repository ;;
         if is_team then
           log ("'" +:+ py_str approver +:+ "' appears to be a team, checking team members") ;;
           team_name <- clean_team_name approver ;;
           team_members <- get_team_members github_repository team_name ;;
           match team_members with
           | [] => log ("No team members found for team '" +:+ team_name +:+ "'") ;;
                   ret false
           | _ =>
               reviews <- ask (get_reviews host github_repository pr_number) ;;
               approved <- team_member_approved team_members reviews ;;
               if approved then ret true
               else log ("No approvals found from team '" +:+ team_name +:+ "' members") ;;
                    ret false
           end
         else
           log ("'" +:+ py_str approver +:+ "' appears to be an individual user") ;;
           reviews <- ask (get_reviews host github_repository pr_number) ;;
           approved <- user_approved approver reviews ;;
           if approved then ret true
           else log ("No approval found from user '" +:+ py_str approver +:+ "'") ;;
                ret false)
        (fun e =>
           if is_GithubException e then
             Some (log ("GitHub API error checking approver approval: " +:+ exn_str e) ;;
                   ret false)
           else if is_Exception e then
             Some (log ("Error checking approver approval: " +:+ exn_str e) ;; ret false)
           else None).

Definition check_security_risk_comment (github_repository : string) (pr_number : pyval)
    : M bool :=
  let commit_sha := environ_get_or "GITHUB_SHA" "" in
  log ("Checking for security risk comment on commit: " +:+ commit_sha) ;;
  if negb (truthy (VStr commit_sha)) || negb (truthy (VStr github_repository)) then
    log "Missing commit SHA or repository information" ;; ret false
  else
    github_client <- get_github_client ;;
    if negb (client_truthy github_client) then
      log "GitHub client not available, cannot check for security risk comment" ;;
      ret false
    else
      try_except
        (call (get_repo host github_repository) ;;
         call (get_pull host github_repository pr_number) ;;
         call (get_issue_comments_error host) ;;
         comments <- get_comments ;;
         ret (existsb (fun comment => contains COMMENT_MARKER (comment_body comment)) comments))
        (fun e =>
           if is_GithubException e then
             Some (log ("GitHub API error checking security risk comment: " +:+ exn_str e) ;;
                   ret false)
           else if is_Exception e then
             Some (log ("Error checking security risk comment: " +:+ exn_str e) ;; ret false)
           else None).

Definition handle_pull_request_review (args : gmap string pyval) (workflow : string)
    (should_block_pr : pyval) (github_repository : string) (pr_number : pyval) : M unit :=
  let github_event_name := environ_get_or "GITHUB_EVENT_NAME" "" in
  if String.eqb github_event_name "pull_request_review" then
    (if py_eq should_block_pr (VBool true) && String.eqb workflow "risk_flagger" then
       print "Pull request blocking is enabled for risk_flagger workflow" ;;
       risk <- check_security_risk_comment github_repository pr_number ;;
       if risk then
         print "Security risk comment found, checking for approver approval" ;;
         let approver := dict_get args "approver" in
         approved <- (if truthy approver
                      then check_approver_approval approver github_repository pr_number
                      else ret false) ;;
         if approved then
           print ("::notice::Security review completed. PR approved by "
                  +:+ py_str approver +:+ ".") ;;
           create_status_check "success"
             ("Security review completed. PR approved by " +:+ py_str approver +:+ ".")
             github_repository ("fraim/" +:+ workflow)
         else
           let approver_text := if truthy approver then approver else VStr "[not specified]" in
           print ("::error::Security risks detected! Waiting for approval from "
                  +:+ py_str approver_text +:+ ".") ;;
           create_status_check "failure"
             ("Security risks detected! Waiting for approval from "
              +:+ py_str approver_text +:+ ".")
             github_repository ("fraim/" +:+ workflow)
       else print "::notice::No security risks detected in this PR."
     else ret tt) ;;
    raise (SystemExit 0)
  else ret tt.

(** The body of [handle_pull_request_block], its six parameters bound. *)
Definition handle_pull_request_block_body (args : gmap string pyval) (workflow : string)
    (should_block_pr : pyval) (security_findings_found : pyval)
    (github_repository : string) (pr_number : pyval) : M unit :=
  let github_event_name := environ_get_or "GITHUB_EVENT_NAME" "" in
  if String.eqb github_event_name "pull_request" then
    if py_eq should_block_pr (VBool true) && String.eqb workflow "risk_flagger" then
      if truthy security_findings_found then
        let approver := dict_get args "approver" in
        is_approved <- check_approver_approval approver github_repository pr_number ;;
        if is_approved then
          print ("Found security risks, but approver " +:+ py_str approver
                 +:+ " has approved the PR") ;;
          create_status_check "success"
            ("Security review completed. PR approved by " +:+ py_str approver +:+ ".")
            github_repository ("fraim/" +:+ workflow)
        else
          let approver_text := if truthy approver then approver else VStr "[not specified]" in
          print "::error::Security risks detected! This pull request is blocked pending security team approval." ;;
          print ("::notice::@" +:+ py_str approver_text +:+ " must review and approve this PR.") ;;
          create_status_check "failure"
            ("Security risks detected! Waiting for approval from "
             +:+ py_str approver_text +:+ ".")
            github_repository ("fraim/" +:+ workflow)
      else print "No security risks found, allowing PR to proceed"
    else ret tt
  else ret tt.

(** [def handle_pull_request_block(args, workflow, should_block_pr,
    security_findings_found, github_repository, pr_number)]: six
    parameters, none with a default.  A call binds its positional
    arguments to them before the body runs, and raises [TypeError] when
    their number differs.  The second case is a call whose arguments are
    not of the annotated types, which no caller in the repository makes. *)
Definition handle_pull_request_block_params : list string :=
  ["args"; "workflow"; "should_block_pr"; "security_findings_found";
   "github_repository"; "pr_number"].

(** The interpreter's list of names: [a], [a and b], [a, b, and c]. *)
Fixpoint comma_and (names : list string) : string :=
  match names with
  | [] => ""
  | [a] => a
  | [a; b] => a +:+ ", and " +:+ b
  | a :: rest => a +:+ ", " +:+ comma_and rest
  end.

Definition name_list (names : list string) : string :=
  match names with
  | [a; b] => a +:+ " and " +:+ b
  | _ => comma_and names
  end.

Definition missing_arguments (given : nat) : exn :=
  let missing := drop given handle_pull_request_block_params in
  TypeError ("handle_pull_request_block() missing " +:+ str_of_nat (length missing)
             +:+ " required positional argument" +:+ (if (length missing =? 1)%nat then "" else "s")
             +:+ ": " +:+ name_list (map (fun p => "'" +:+ p +:+ "'") missing)).

Definition handle_pull_request_block (actuals : list actual) : M unit :=
  match actuals with
  | [ADict args; AVal (VStr workflow); AVal should_block_pr; AVal security_findings_found;
     AVal (VStr github_repository); AVal pr_number] =>
      handle_pull_request_block_body args workflow should_block_pr
        security_findings_found github_repository pr_number
  | [_; _; _; _; _; _] => raise (TypeError "argument of a type the signature does not declare")
  | _ =>
      if (length actuals <? length handle_pull_request_block_params)%nat then
        raise (missing_arguments (length actuals))
      else
        raise (TypeError ("handle_pull_request_block() takes 6 positional arguments but "
                          +:+ str_of_nat (length actuals) +:+ " were given"))
  end.

Definition check_output_for_risk_findings (output_content : string) : M bool :=
  let security_findings_found := false in
  if contains MARKER output_content then
    log "Security risks detected" ;;
    let security_findings_found := true in
    ret security_findings_found
  else ret security_findings_found.

End Process.
End Workflows.
Export Workflows.

(** * src/sarif_to_comment.py *)
Module SarifToComment.

(** ** The SARIF document as [json.load] returns it.  Every key may be
    missing ([None]); a key that is present holds a value of the type the
    format gives it. *)
Record Region := {
  Region_startLine : option Z;
  Region_endLine : option Z;
  Region_startColumn : option Z;
  Region_endColumn : option Z }.
Record ArtifactLocation := { ArtifactLocation_uri : option string }.
Record PhysicalLocation := {
  PhysicalLocation_artifactLocation : option ArtifactLocation;
  PhysicalLocation_region : option Region }.
Record Location := { Location_physicalLocation : option PhysicalLocation }.
Record Message := { Message_text : option string }.
Record ResultData := {
  Result_ruleName : option string;
  Result_level : option string;
  Result_message : option Message;
  Result_locations : option (list Location) }.
Record Help := { Help_text : option string }.
Record Rule := { Rule_name : option string; Rule_help : option Help }.
Record Driver := {
  Driver_name : option string;
  Driver_version : option string;
  Driver_rules : option (list Rule) }.
Record Tool := { Tool_driver : option Driver }.
Record Run := { Run_tool : option Tool; Run_results : option (list ResultData) }.
Record SarifData := { Sarif_runs : option (list Run) }.

(** The empty dictionary [{}] at each type. *)
Definition no_region : Region := Build_Region None None None None.
Definition no_artifact_location : ArtifactLocation := Build_ArtifactLocation None.
Definition no_physical_location : PhysicalLocation := Build_PhysicalLocation None None.
Definition no_message : Message := Build_Message None.
Definition no_help : Help := Build_Help None.
Definition no_rule : Rule := Build_Rule None None.
Definition no_driver : Driver := Build_Driver None None None.
Definition no_tool : Tool := Build_Tool None.

(** [bool(v)] of an optional string and an optional integer *)
Definition truthy_str (o : option string) : bool :=
  match o with Some s => truthy (VStr s) | None => false end.
Definition truthy_int (o : option Z) : bool :=
  match o with Some z => truthy (VInt z) | None => false end.

(** ** class SarifResult *)
Record SarifResult := { result_data : ResultData; rule_data : Rule }.

(** [SarifResult(result_data, rule_data)]: [self.rule_data = rule_data or {}] *)
Definition SarifResult_init (result_data : ResultData) (rule_data : option Rule) : SarifResult :=
  {| result_data := result_data; rule_data := default no_rule rule_data |}.

Definition message (self : SarifResult) : string :=
  let message := default no_message (Result_message (result_data self)) in
  default "No message available" (Message_text message).

Definition level (self : SarifResult) : string :=
  default "warning" (Result_level (result_data self)).

Definition locations (self : SarifResult) : list Location :=
  default [] (Result_locations (result_data self)).

Definition primary_location (self : SarifResult) : option Location :=
  match locations self with
  | location :: _ => Some location
  | [] => None
  end.

Definition region_of (location : Location) : Region :=
  let physical_location := default no_physical_location (Location_physicalLocation location) in
  default no_region (PhysicalLocation_region physical_location).

Definition file_path (self : SarifResult) : option string :=
  match primary_location self with
  | None => None
  | Some location =>
      let physical_location := default no_physical_location (Location_physicalLocation location) in
      let artifact_location :=
        default no_artifact_location (PhysicalLocation_artifactLocation physical_location) in
      ArtifactLocation_uri artifact_location
  end.

Definition start_line (self : SarifResult) : option Z :=
  match primary_location self with
  | None => None
  | Some location => Region_startLine (region_of location)
  end.

Definition end_line (self : SarifResult) : option Z :=
  match primary_location self with
  | None => None
  | Some location =>
      match Region_endLine (region_of location) with
      | Some l => Some l
      | None => start_line self
      end
  end.

Definition start_column (self : SarifResult) : option Z :=
  match primary_location self with
  | None => None
  | Some location => Region_startColumn (region_of location)
  end.

Definition end_column (self : SarifResult) : option Z :=
  match primary_location self with
  | None => None
  | Some location =>
      match Region_endColumn (region_of location) with
      | Some c => Some c
      | None => start_column self
      end
  end.

Definition help_text (self : SarifResult) : string :=
  let help_info := default no_help (Rule_help (rule_data self)) in
  default "" (Help_text help_info).

Definition rule_name (self : SarifResult) : string :=
  default "unknown-rule" (Rule_name (rule_data self)).

Definition severity_emoji (self : SarifResult) : string :=
  let l := lower (level self) in
  if String.eqb l "error" then "🚨"
  else if String.eqb l "warning" then "⚠️"
  else if String.eqb l "note" then "ℹ️"
  else if String.eqb l "info" then "ℹ️"
  else "⚠️".

(** ** class SarifParser *)

(** The [rules_map] of one run: later rules of a name replace earlier ones. *)
Definition rules_map_of (rules : list Rule) : gmap string Rule :=
  fold_left
    (fun rules_map rule =>
       match Rule_name rule with
       | Some rule_name =>
           if truthy (VStr rule_name) then <[rule_name := rule]> rules_map else rules_map
       | None => rules_map
       end)
    rules ∅.

Definition results_of_run (run : Run) : list SarifResult :=
  let tool := default no_tool (Run_tool run) in
  let driver := default no_driver (Tool_driver tool) in
  let rules := default [] (Driver_rules driver) in
  let rules_map := rules_map_of rules in
  let results := default [] (Run_results run) in
  map (fun result_data =>
         let rule_name := Result_ruleName result_data in
         let rule_data :=
           match rule_name with
           | Some n => if truthy (VStr n) then rules_map !! n else None
           | None => None
           end in
         SarifResult_init result_data rule_data)
      results.

Definition get_results (sarif_data : SarifData) : list SarifResult :=
  concat (map results_of_run (default [] (Sarif_runs sarif_data))).

Definition get_tool_info (sarif_data : SarifData) : string * string :=
  match default [] (Sarif_runs sarif_data) with
  | [] => ("Unknown Tool", "Unknown Version")
  | run0 :: _ =>
      let tool := default no_tool (Run_tool run0) in
      let driver := default no_driver (Tool_driver tool) in
      (default "Unknown Tool" (Driver_name driver),
       default "Unknown Version" (Driver_version driver))
  end.

(** ** class SarifToCommentProcessor *)
Record SarifToCommentProcessor := {
  sarif_file_path : string;
  repository : string;
  pr_number : Z;
  title : string;
  parser : SarifData }.

Definition level_is (l : string) (r : SarifResult) : bool := String.eqb (lower (level r)) l.

(** [files_with_issues]: a dictionary in insertion order. *)
Fixpoint files_add (file_path : string) (result : SarifResult)
    (files : list (string * list SarifResult)) : list (string * list SarifResult) :=
  match files with
  | [] => [(file_path, [result])]
  | (k, rs) :: rest =>
      if String.eqb k file_path then (k, rs ++ [result]) :: rest
      else (k, rs) :: files_add file_path result rest
  end.

Definition file_key (result : SarifResult) : string :=
  match file_path result with
  | Some p => if truthy (VStr p) then p else "Unknown file"
  | None => "Unknown file"
  end.

Definition files_with_issues (results : list SarifResult) : list (string * list SarifResult) :=
  fold_left (fun files result => files_add (file_key result) result files) results [].

(** [sorted(files_with_issues.items())]: the keys differ, so the order is
    that of the paths, by code point, which is the order of their UTF-8
    bytes. *)
Fixpoint insert_sorted (item : string * list SarifResult)
    (items : list (string * list SarifResult)) : list (string * list SarifResult) :=
  match items with
  | [] => [item]
  | i :: rest =>
      if String.leb (fst item) (fst i) then item :: items
      else i :: insert_sorted item rest
  end.

Definition sorted_items (items : list (string * list SarifResult))
    : list (string * list SarifResult) :=
  fold_right insert_sorted [] items.

Definition file_result_lines (result : SarifResult) : list string :=
  let line_info :=
    if truthy_int (start_line result)
    then "Line " +:+ str_of_Z (default 0%Z (start_line result))
    else "Unknown location" in
  ["- " +:+ severity_emoji result +:+ " **" +:+ rule_name result +:+ "** (" +:+ line_info +:+ ")";
   "  " +:+ message result]
  ++ (if truthy (VStr (help_text result)) then ["  💡 " +:+ help_text result] else []).

Definition file_lines (item : string * list SarifResult) : list string :=
  let '(file_path, file_results) := item in
  ["**" +:+ file_path +:+ "** (" +:+ str_of_nat (length file_results) +:+ " issue"
   +:+ (if negb (length file_results =? 1)%nat then "s" else "") +:+ ")"]
  ++ concat (map file_result_lines file_results)
  ++ [""].

Definition detail_lines (i : nat) (result : SarifResult) : list string :=
  ["#### " +:+ str_of_nat i +:+ ". " +:+ severity_emoji result +:+ " " +:+ rule_name result;
   "";
   "**File:** `" +:+ (match file_path result with
                      | Some p => if truthy (VStr p) then p else "Unknown"
                      | None => "Unknown"
                      end) +:+ "`"]
  ++ (match start_line result with
      | Some sl =>
          if truthy (VInt sl) then
            match end_line result with
            | Some el =>
                if truthy (VInt el) && negb (el =? sl)%Z
                then ["**Lines:** " +:+ str_of_Z sl +:+ "-" +:+ str_of_Z el]
                else ["**Line:** " +:+ str_of_Z sl]
            | None => ["**Line:** " +:+ str_of_Z sl]
            end
          else []
      | None => []
      end)
  ++ ["**Severity:** " +:+ Py.title (level result);
      "**Rule Name:** `" +:+ rule_name result +:+ "`";
      "";
      "**Description:** " +:+ message result]
  ++ (if truthy (VStr (help_text result)) then [""; "**Help:** " +:+ help_text result] else [])
  ++ [""; "---"; ""].

(** [enumerate(results, i)] *)
Fixpoint enumerate_from {A} (i : nat) (l : list A) : list (nat * A) :=
  match l with
  | [] => []
  | x :: rest => (i, x) :: enumerate_from (S i) rest
  end.

Definition _build_comment_body (self : SarifToCommentProcessor) (results : list SarifResult)
    : string :=
  let '(tool_name, tool_version) := get_tool_info (parser self) in
  let errors := List.filter (level_is "error") results in
  let warnings := List.filter (level_is "warning") results in
  let notes := List.filter (fun r => level_is "note" r || level_is "info" r) results in
  let lines :=
    ["## " +:+ title self;
     "";
     "**Tool:** " +:+ tool_name +:+ " " +:+ tool_version;
     "**Total Findings:** " +:+ str_of_nat (length results)]
    ++ (match errors with [] => [] | _ => ["🚨 **Errors:** " +:+ str_of_nat (length errors)] end)
    ++ (match warnings with [] => [] | _ => ["⚠️ **Warnings:** " +:+ str_of_nat (length warnings)] end)
    ++ (match notes with [] => [] | _ => ["ℹ️ **Notes:** " +:+ str_of_nat (length notes)] end)
    ++ [""] in
  match results with
  | [] => join (String "010" "") (lines ++ ["✅ No security issues found!"])
  | _ =>
      let lines :=
        lines
        ++ ["### 📁 Files with Issues"; ""]
        ++ concat (map file_lines (sorted_items (files_with_issues results)))
        ++ ["### 🔍 Detailed Findings"; ""]
        ++ concat (map (fun '(i, result) => detail_lines i result) (enumerate_from 1 results)) in
      join (String "010" "") lines
  end.

Definition _map_level_to_annotation (level : string) : string :=
  let l := lower level in
  if String.eqb l "error" then "error"
  else if String.eqb l "warning" then "warning"
  else if String.eqb l "note" then "notice"
  else if String.eqb l "info" then "notice"
  else "notice".

Section Process.
Variable environ : gmap string string.
Variable host : Host.

(** [existing_comment.edit(body)]: the first comment whose body starts with
    the heading gets the new body. *)
Fixpoint edit_first (heading body : string) (comments : list Comment) : list Comment :=
  match comments with
  | [] => []
  | c :: rest =>
      if startswith (comment_body c) heading
      then {| comment_id := comment_id c; comment_body := body |} :: rest
      else c :: edit_first heading body rest
  end.

(** The id the host gives a new comment: one it has not used. *)
Definition fresh_id (comments : list Comment) : Z :=
  (1 + fold_right Z.max 0 (map comment_id comments))%Z.

Definition create_pr_comment (self : SarifToCommentProcessor) (dry_run : bool) : M unit :=
  let results := get_results (parser self) in
  match results with
  | [] => log "No security findings to report"
  | _ =>
      let comment_body_ := _build_comment_body self results in
      if dry_run then
        print "DRY RUN - Would post the following PR comment:" ;;
        print comment_body_
      else
        try_except
          (github_client <- get_github_client environ ;;
           call (get_repo host (repository self)) ;;
           call (get_pull host (repository self) (VInt (pr_number self))) ;;
           call (get_issue_comments_error host) ;;
           comments <- get_comments ;;
           let heading := "## " +:+ title self in
           let existing_comment :=
             List.find (fun comment => startswith (comment_body comment) heading) comments in
           match existing_comment with
           | Some existing =>
               log ("Updating existing PR comment " +:+ str_of_Z (comment_id existing)) ;;
               call (edit_error host) ;;
               set_comments (edit_first heading comment_body_ comments) ;;
               emit (EEditComment (comment_id existing) comment_body_)
           | None =>
               log "Creating new PR comment" ;;
               call (create_issue_comment_error host) ;;
               set_comments (comments ++ [{| comment_id := fresh_id comments;
                                             comment_body := comment_body_ |}]) ;;
               emit (ECreateComment comment_body_)
           end)
          (fun e =>
             if is_GithubException e then
               Some (log ("Failed to create PR comment: " +:+ exn_str e) ;; raise e)
             else if is_Exception e then
               Some (log ("Error creating PR comment: " +:+ exn_str e) ;; raise e)
             else None)
  end.

(** One turn of the loop of [create_annotations]: the annotations it
    created, 0 or 1.  The [try] around the last lines catches nothing:
    formatting a string or an integer does not raise. *)
Definition annotate (dry_run : bool) (result : SarifResult) : M nat :=
  if negb (truthy_str (file_path result)) || negb (truthy_int (start_line result)) then
    log ("Skipping annotation for result without file/line: " +:+ rule_name result) ;;
    ret 0%nat
  else
    let annotation_level := _map_level_to_annotation (level result) in
    let message_ := rule_name result +:+ ": " +:+ message result in
    let file_path_ := default "" (file_path result) in
    let line := default 0%Z (start_line result) in
    if dry_run then
      print "DRY RUN - Would create annotation:" ;;
      print ("  File: " +:+ file_path_) ;;
      print ("  Line: " +:+ str_of_Z line) ;;
      print ("  Level: " +:+ annotation_level) ;;
      print ("  Message: " +:+ message_) ;;
      ret 0%nat
    else
      let col := if truthy_int (start_column result)
                 then default 1%Z (start_column result) else 1%Z in
      let annotation := "::" +:+ annotation_level +:+ " file=" +:+ file_path_ +:+ ",line="
                        +:+ str_of_Z line +:+ ",col=" +:+ str_of_Z col +:+ "::" +:+ message_ in
      print annotation ;;
      ret 1%nat.

Fixpoint annotate_all (dry_run : bool) (results : list SarifResult) (annotations_created : nat)
    : M nat :=
  match results with
  | [] => ret annotations_created
  | result :: rest =>
      n <- annotate dry_run result ;;
      annotate_all dry_run rest (annotations_created + n)
  end.

Definition create_annotations (self : SarifToCommentProcessor) (dry_run : bool) : M unit :=
  let results := get_results (parser self) in
  match results with
  | [] => log "No security findings to annotate"
  | _ =>
      annotations_created <- annotate_all dry_run results 0 ;;
      log ("Created " +:+ str_of_nat annotations_created +:+ " annotations")
  end.

(** The file system: [None] when no file has the path, else what
    [json.load] gives for it. *)
Variable files : string -> option (answer SarifData).

Definition _load_sarif_file (sarif_file_path : string) : M SarifData :=
  try_except
    (ask (default (Failure (OtherFailure "No such file or directory")) (files sarif_file_path)))
    (fun e =>
       if is_Exception e then
         Some (log ("Error loading SARIF file " +:+ sarif_file_path +:+ ": " +:+ exn_str e) ;;
               raise e)
       else None).

Definition process_sarif_file (sarif_file_path repository : string) (pr_number : Z)
    (title : string) (dry_run : bool) : M unit :=
  match files sarif_file_path with
  | None => log ("SARIF file not found: " +:+ sarif_file_path)
  | Some _ =>
      log ("Processing SARIF file: " +:+ sarif_file_path) ;;
      log ("Repository: " +:+ repository) ;;
      log ("PR Number: " +:+ str_of_Z pr_number) ;;
      log ("Dry Run: " +:+ py_str (VBool dry_run)) ;;
      sarif_data <- _load_sarif_file sarif_file_path ;;
      let processor :=
        {| sarif_file_path := sarif_file_path; repository := repository;
           pr_number := pr_number; title := title; parser := sarif_data |} in
      try_except
        (create_pr_comment processor dry_run ;;
         create_annotations processor dry_run ;;
         log "SARIF processing completed successfully")
        (fun e =>
           if is_Exception e then
             Some (log ("Error processing SARIF file: " +:+ exn_str e) ;; raise e)
           else None)
  end.

End Process.
End SarifToComment.

(** * src/fraim.py *)
Module Fraim.
Import SarifToComment.

(** What one invocation reads. *)
Record World := {
  environ : gmap string string;
  host : Host;
  (** [json.loads] of the workflow arguments (a JSON object of scalars) *)
  json_loads : string -> answer (gmap string pyval);
  json_minify : string -> option string;
  (** the event file: [None] when the path names no file, else the value of
      [event_data.get('pull_request', {}).get('number')] or the exception
      reading it raises *)
  event_files : string -> option (answer pyval);
  (** [subprocess.run(cmd, ...)]: exit code and combined output *)
  run : list string -> answer (Z * string);
  (** [glob.glob('fraim_outputs/*.sarif')] *)
  sarif_glob : list string;
  files : string -> option (answer SarifData) }.

(** The local variables of [main] that outlive the scan. *)
Record Locals := {
  args : gmap string pyval;
  workflow : string;
  should_block_pr : pyval;
  github_repository : string;
  pr_number : pyval;
  cmd : list string }.

(** [sep.join(items)]: every item must be a [str]. *)
Fixpoint join_items (i : nat) (items : list pyval) : M (list string) :=
  match items with
  | [] => ret []
  | VStr s :: rest => l <- join_items (S i) rest ;; ret (s :: l)
  | v :: _ => raise (TypeError ("sequence item " +:+ str_of_nat i +:+ ": expected str instance, "
                                +:+ type_name v +:+ " found"))
  end.

Section Invocation.
Variable w : World.

Definition set_output (name value : string) : M unit :=
  let github_output := environ_get (environ w) "GITHUB_OUTPUT" in
  if truthy github_output then emit (ESetOutput name value) else ret tt.

Definition parse_workflow_args : M (gmap string pyval) :=
  let workflow_args := environ_get_or (environ w) "WORKFLOW_ARGS" "" in
  try_except
    (ask (json_loads w workflow_args))
    (fun e =>
       match e with
       | JSONDecodeError _ => Some (log ("JSON parsing error: " +:+ exn_str e) ;; raise e)
       | _ => None
       end).

Definition get_github_context : M (string * pyval) :=
  let github_repository := environ_get_or (environ w) "GITHUB_REPOSITORY" "" in
  let github_event_path := environ_get (environ w) "GITHUB_EVENT_PATH" in
  (* [pr_number] is bound only by a successful read *)
  pr_number <-
    (if truthy github_event_path then
       match event_files w (py_str github_event_path) with
       | Some read =>
           try_except
             (n <- ask read ;; ret (Some n))
             (fun e =>
                if is_Exception e then
                  Some (log ("Error reading GitHub event: " +:+ exn_str e) ;; ret None)
                else None)
       | None => ret None
       end
     else ret None) ;;
  match pr_number with
  | Some n => ret (github_repository, n)
  | None => raise (UnboundLocalError
                     "cannot access local variable 'pr_number' where it is not associated with a value")
  end.

(** [main] up to the command line of the scan (lines 93 to 135).  The lines
    that follow, up to the scan, print the working directory, which
    variables are set and what two probes of the tool answer, catching what
    the probes raise: they are left out, and so is the line that prints the
    parsed arguments. *)
Definition main_until_scan : M Locals :=
  log "Starting Fraim Security Scan" ;;
  let workflow_args_raw := environ_get_or (environ w) "WORKFLOW_ARGS" "" in
  print ("Workflow args: " +:+ workflow_args_raw) ;;
  args <- parse_workflow_args ;;
  context <- get_github_context ;;
  let '(github_repository, pr_number) := context in
  log ("GitHub context: repo=" +:+ github_repository +:+ ", pr=" +:+ py_str pr_number) ;;
  let should_block_pr := dict_get args "should-block-pull-request" in
  let workflow := environ_get_or (environ w) "INPUT_WORKFLOW" "" in
  if negb (truthy (VStr workflow)) then
    print "::error::No workflow specified" ;;
    raise (SystemExit 1)
  else
    handle_pull_request_review (environ w) (host w) args workflow should_block_pr
      github_repository pr_number ;;
    global_args <- add_global_args (environ w) (host w) workflow args github_repository ;;
    let workflow_cli_args := [] in
    workflow_cli_args <-
      (if String.eqb workflow "risk_flagger" then
         add_risk_flagger_args (environ w) (json_minify w) args workflow_cli_args
           github_repository pr_number
       else ret workflow_cli_args) ;;
    print ("Running workflow: " +:+ workflow) ;;
    let cmd := [VStr "uv"; VStr "run"; VStr "fraim"; VStr "run"; VStr workflow]
               ++ global_args ++ workflow_cli_args in
    cmd <- join_items 0 cmd ;;
    print ("Running: " +:+ join " " cmd) ;;
    ret {| args := args; workflow := workflow; should_block_pr := should_block_pr;
           github_repository := github_repository; pr_number := pr_number; cmd := cmd |}.

(** Lines 182 to 214: the scan, its output shown, a failure raised. *)
Definition run_scan (l : Locals) : M string :=
  try_except
    (print "Executing fraim command..." ;;
     emit (ERun (cmd l)) ;;
     result <- ask (run w (cmd l)) ;;
     let '(fraim_exit_code, output_content) := result in
     print ("Fraim command completed with exit code: " +:+ str_of_Z fraim_exit_code) ;;
     print "=== Fraim Command Output ===" ;;
     print output_content ;;
     print "=== End Fraim Output ===" ;;
     if negb (fraim_exit_code =? 0)%Z then
       print ("::error::Fraim workflow '" +:+ workflow l +:+ "' failed with exit code "
              +:+ str_of_Z fraim_exit_code) ;;
       print ("Command that failed: " +:+ join " " (cmd l)) ;;
       print ("Output was: " +:+ substring 0 500 output_content
              +:+ (if (500 <? String.length output_content)%nat then "..." else "")) ;;
       raise (Exception ("Fraim workflow '" +:+ workflow l +:+ "' failed with exit code "
                         +:+ str_of_Z fraim_exit_code))
     else ret output_content)
    (fun e =>
       if is_Exception e then
         Some (print ("::error::Error running Fraim command: " +:+ exn_str e) ;; raise e)
       else None).

(** The arguments of the call of line 217, in their order. *)
Definition gate_actuals (l : Locals) (security_findings_found : bool) : list actual :=
  [ADict (args l); AVal (VStr (workflow l)); AVal (should_block_pr l);
   AVal (VBool security_findings_found); AVal (VStr (github_repository l))].

(** [sum(len(run.get('results', [])) for run in data.get('runs', []))] *)
Definition count_results (data : SarifData) : Z :=
  fold_right Z.add 0%Z
    (map (fun run => Z.of_nat (length (default [] (Run_results run))))
         (default [] (Sarif_runs data))).

(** Lines 219 to 240: the results file and its count. *)
Definition find_results : M Z :=
  let sarif_file := match sarif_glob w with f :: _ => VStr f | [] => VNone end in
  match (if truthy sarif_file then files w (py_str sarif_file) else None) with
  | Some read =>
      print ("Found SARIF file: " +:+ py_str sarif_file) ;;
      let results_count :=
        match read with
        | Answer data => count_results data
        | Failure _ => 0%Z
        end in
      set_output "sarif-file" (py_str sarif_file) ;;
      set_output "results-count" (str_of_Z results_count) ;;
      print ("Found " +:+ str_of_Z results_count +:+ " security findings") ;;
      ret results_count
  | None =>
      set_output "sarif-file" "" ;;
      set_output "results-count" "0" ;;
      ret 0%Z
  end.

(** Line 243 *)
Definition findings_detected (results_count : Z) (security_findings_found : bool) : bool :=
  (0 <? results_count)%Z || security_findings_found.

(** Lines 219 to 252 *)
Definition report (security_findings_found : bool) : M unit :=
  results_count <- find_results ;;
  (if findings_detected results_count security_findings_found then
     (if (0 <? results_count)%Z then
        print ("::error::Security findings detected! Found " +:+ str_of_Z results_count
               +:+ " security issue(s) in SARIF results.")
      else ret tt) ;;
     (if security_findings_found then
        print "::error::Security findings detected! The scan identified security risks that require review."
      else ret tt)
   else ret tt) ;;
  log "Fraim Security Scan completed".

(** Lines 216 and 217 *)
Definition gate (l : Locals) (output_content : string) : M bool :=
  security_findings_found <- check_output_for_risk_findings output_content ;;
  handle_pull_request_block (environ w) (host w) (gate_actuals l security_findings_found) ;;
  ret security_findings_found.

Definition main : M unit :=
  l <- main_until_scan ;;
  output_content <- run_scan l ;;
  security_findings_found <- gate l output_content ;;
  report security_findings_found.

End Invocation.

(** The exit status of the process that ran [m] from [s]. *)
Definition exit_status {A} (m : M A) (s : State) : Z :=
  match fst (m s) with
  | Ok _ => 0%Z
  | Raise e => exit_status_of_exn e
  end.

(** The status checks among the events. *)
Definition is_status (e : event) : bool :=
  match e with EStatus _ _ _ _ _ => true | _ => false end.
Definition is_run (e : event) : bool :=
  match e with ERun _ => true | _ => false end.
Definition status_checks (tr : list event) : list event := List.filter is_status tr.
Definition scans (tr : list event) : list event := List.filter is_run tr.

End Fraim.

(** * Observations *)
Module Observe.
Import Fraim.

(** [writes P R m]: from any state [m] only appends events that satisfy
    [P], leaves the comment list as it is, and raises only exceptions that
    satisfy [R]. *)
Definition writes {A} (P : event -> Prop) (R : exn -> Prop) (m : M A) : Prop :=
  forall s, exists tr,
    trace (snd (m s)) = trace s ++ tr /\ Forall P tr /\
    comments (snd (m s)) = comments s /\
    forall e, fst (m s) = Raise e -> R e.

(** The events a gate may write: any line of output, a scan when [run_ok],
    a status check whose commit and state satisfy [status_ok], no comment. *)
Definition event_ok (status_ok : string -> string -> Prop) (run_ok : Prop) (e : event) : Prop :=
  match e with
  | EPrint _ | ESetOutput _ _ => True
  | ERun _ => run_ok
  | EStatus _ sha state _ _ => status_ok sha state
  | ECreateComment _ | EEditComment _ _ => False
  end.

(** Only lines of output. *)
Definition quiet : event -> Prop := event_ok (fun _ _ => False) False.

(** No token in the environment. *)
Definition no_token : exn := ValueError "No GitHub token available".

(** [s] with [tr] appended to its trace *)
Definition wrote (s : State) (tr : list event) : State :=
  {| trace := trace s ++ tr; comments := comments s |}.

(** [s'] is [s] after some lines of output. *)
Definition silent_step (s s' : State) : Prop :=
  exists tr, s' = wrote s tr /\ Forall quiet tr.


End Observe.
Export Observe.

(** * Sample invocations *)
Module Samples.
Import SarifToComment Fraim.

(** A host that answers every call, knows no team and lists [reviews]. *)
Definition host_with (reviews : list Review) : Host := {|
  get_repo := fun _ => None;
  get_pull := fun _ _ => None;
  get_reviews := fun _ _ => Answer reviews;
  get_issue_comments_error := None;
  create_issue_comment_error := None;
  edit_error := None;
  get_organization := fun _ => None;
  get_team_by_slug := fun _ _ => Failure (GithubFailure 404 "404 Not Found");
  get_members := fun _ _ => Answer [];
  get_commit := fun _ _ => None;
  create_status := fun _ _ _ _ _ => None |}.

Definition approved_by (login : string) : Review :=
  {| review_state := "APPROVED"; review_user_login := login |}.

(** The environment of a pull_request event of the risk_flagger workflow. *)
Definition environ_pr (base head : string) : gmap string string :=
  list_to_map
    [("GITHUB_EVENT_NAME", "pull_request"); ("GITHUB_BASE_SHA", base); ("GITHUB_SHA", head);
     ("INPUT_WORKFLOW", "risk_flagger"); ("GITHUB_REPOSITORY", "octo/app");
     ("GITHUB_EVENT_PATH", "/github/event.json"); ("GH_TOKEN", "ghs_token")].

(** The same without a token. *)
Definition environ_no_token : gmap string string :=
  list_to_map
    [("GITHUB_EVENT_NAME", "pull_request"); ("GITHUB_BASE_SHA", "base"); ("GITHUB_SHA", "head");
     ("INPUT_WORKFLOW", "risk_flagger"); ("GITHUB_REPOSITORY", "octo/app");
     ("GITHUB_EVENT_PATH", "/github/event.json")].

(** A result at [path], lines [first] to [last], with a level and a rule. *)
Definition result_at (rule level : option string) (path : string) (first last : Z)
    (column : option Z) : ResultData :=
  {| Result_ruleName := rule;
     Result_level := level;
     Result_message := Some {| Message_text := Some "query built from user input" |};
     Result_locations :=
       Some [{| Location_physicalLocation :=
                  Some {| PhysicalLocation_artifactLocation :=
                            Some {| ArtifactLocation_uri := Some path |};
                          PhysicalLocation_region :=
                            Some {| Region_startLine := Some first;
                                    Region_endLine := Some last;
                                    Region_startColumn := column;
                                    Region_endColumn := None |} |} |}] |}.

(** One run of the tool [tool] with one rule and the given results. *)
Definition document (tool : string) (results : list ResultData) : SarifData :=
  {| Sarif_runs :=
       Some [{| Run_tool :=
                  Some {| Tool_driver :=
                            Some {| Driver_name := Some tool;
                                    Driver_version := Some "1.0";
                                    Driver_rules :=
                                      Some [{| Rule_name := Some "sql-injection";
                                               Rule_help :=
                                                 Some {| Help_text :=
                                                           Some "Use parameterized queries" |} |}] |} |};
                Run_results := Some results |}] |}.

Definition no_runs : SarifData := {| Sarif_runs := Some [] |}.

Definition processor (data : SarifData) : SarifToCommentProcessor :=
  {| sarif_file_path := "fraim_outputs/results.sarif"; repository := "octo/app";
     SarifToComment.pr_number := 7; title := "Security Findings"; parser := data |}.


(** Scenario B of the specification: a pull_request event, blocking
    enabled, the scan exits 0 without the marker in its output, no results
    document. *)
Definition scenario_B : World := {|
  environ := environ_pr "base" "head";
  host := host_with [];
  json_loads := fun _ => Answer (list_to_map [("should-block-pull-request", VBool true);
                                              ("approver", VStr "alice")]);
  json_minify := fun _ => None;
  event_files := fun _ => Some (Answer (VInt 7));
  run := fun _ => Answer (0%Z, "No risks identified.");
  sarif_glob := [];
  files := fun _ => None |}.


(** A pull_request event whose head revision is missing. *)
Definition scenario_no_head : World := {|
  environ := environ_pr "base" "";
  host := host_with [];
  json_loads := fun _ => Answer (list_to_map [("should-block-pull-request", VBool true);
                                              ("approver", VStr "alice")]);
  json_minify := fun _ => None;
  event_files := fun _ => Some (Answer (VInt 7));
  run := fun _ => Answer (0%Z, "No risks identified.");
  sarif_glob := [];
  files := fun _ => None |}.

(** A pull_request event whose base revision is missing. *)
Definition scenario_no_base : World := {|
  environ := environ_pr "" "head";
  host := host_with [];
  json_loads := fun _ => Answer (list_to_map [("should-block-pull-request", VBool true);
                                              ("approver", VStr "alice")]);
  json_minify := fun _ => None;
  event_files := fun _ => Some (Answer (VInt 7));
  run := fun _ => Answer (0%Z, "No risks identified.");
  sarif_glob := [];
  files := fun _ => None |}.

End Samples.
Export Samples.

(** * Further observations and samples *)
Module Cases.
Import SarifToComment Fraim.

(** The team slug [is_team_approver] and [check_approver_approval] look
    up: [approver.lstrip('@')], then its part after the last ['/']. *)
Definition team_slug (approver : string) : string :=
  let team_name := lstrip "@" approver in
  if contains "/" team_name then List.last (split "/" team_name) "" else team_name.

(** [o] is no failure. *)
Definition succeeded (o : option failure) : bool :=
  match o with None => true | Some _ => false end.
Definition answered {A} (o : answer A) : bool :=
  match o with Answer _ => true | Failure _ => false end.

(** A host that answers every call and knows the team [security-team] of
    the organization [octo], with the given members. *)
Definition host_with_team (members : list string) (reviews : list Review) : Host := {|
  get_repo := fun _ => None;
  get_pull := fun _ _ => None;
  get_reviews := fun _ _ => Answer reviews;
  get_issue_comments_error := None;
  create_issue_comment_error := None;
  edit_error := None;
  get_organization := fun _ => None;
  get_team_by_slug := fun org slug =>
    if String.eqb org "octo" && String.eqb slug "security-team"
    then Answer 42%Z else Failure (GithubFailure 404 "404 Not Found");
  get_members := fun _ _ => Answer members;
  get_commit := fun _ _ => None;
  create_status := fun _ _ _ _ _ => None |}.

(** A host on which every call fails with a server error. *)
Definition host_down : Host := {|
  get_repo := fun _ => Some (GithubFailure 500 "500 Server Error");
  get_pull := fun _ _ => Some (GithubFailure 500 "500 Server Error");
  get_reviews := fun _ _ => Failure (GithubFailure 500 "500 Server Error");
  get_issue_comments_error := Some (GithubFailure 500 "500 Server Error");
  create_issue_comment_error := Some (GithubFailure 500 "500 Server Error");
  edit_error := Some (GithubFailure 500 "500 Server Error");
  get_organization := fun _ => Some (GithubFailure 500 "500 Server Error");
  get_team_by_slug := fun _ _ => Failure (GithubFailure 500 "500 Server Error");
  get_members := fun _ _ => Failure (GithubFailure 500 "500 Server Error");
  get_commit := fun _ _ => Some (GithubFailure 500 "500 Server Error");
  create_status := fun _ _ _ _ _ => Some (GithubFailure 500 "500 Server Error") |}.

(** The environment of a pull_request_review event of the risk_flagger
    workflow. *)
Definition environ_review : gmap string string :=
  list_to_map
    [("GITHUB_EVENT_NAME", "pull_request_review"); ("GITHUB_SHA", "head");
     ("INPUT_WORKFLOW", "risk_flagger"); ("GITHUB_REPOSITORY", "octo/app");
     ("GITHUB_EVENT_PATH", "/github/event.json"); ("GH_TOKEN", "ghs_token")].

(** The same without a token. *)
Definition environ_review_no_token : gmap string string :=
  list_to_map
    [("GITHUB_EVENT_NAME", "pull_request_review"); ("GITHUB_SHA", "head");
     ("INPUT_WORKFLOW", "risk_flagger"); ("GITHUB_REPOSITORY", "octo/app");
     ("GITHUB_EVENT_PATH", "/github/event.json")].

(** The comment the risk_flagger workflow leaves on a pull request. *)
Definition risk_comment : Comment :=
  {| comment_id := 1;
     comment_body := "## Security Risk Review Required" +:+ String "010" ""
                     +:+ "The change touches authentication." |}.

(** The local variables of [main] when it reaches the scan in scenario B. *)
Definition scenario_B_locals : Locals := {|
  args := list_to_map [("should-block-pull-request", VBool true); ("approver", VStr "alice")];
  workflow := "risk_flagger";
  should_block_pr := VBool true;
  github_repository := "octo/app";
  Fraim.pr_number := VInt 7;
  cmd := ["uv"; "run"; "fraim"; "run"; "risk_flagger"; "--location"; "./"; "--diff";
          "--base"; "base"; "--head"; "head"; "--approver"; "alice"; "--pr-url";
          "https://github.com/octo/app/pull/7"] |}.

(** Scenario B with a scan that exits with status 2. *)
Definition scenario_scan_fails : World := {|
  environ := environ_pr "base" "head";
  host := host_with [];
  json_loads := fun _ => Answer (list_to_map [("should-block-pull-request", VBool true);
                                              ("approver", VStr "alice")]);
  json_minify := fun _ => None;
  event_files := fun _ => Some (Answer (VInt 7));
  run := fun _ => Answer (2%Z, "error: no API key");
  sarif_glob := [];
  files := fun _ => None |}.

(** Scenario B with the confidence given as a JSON number. *)
Definition scenario_numeric_confidence : World := {|
  environ := environ_pr "base" "head";
  host := host_with [];
  json_loads := fun _ => Answer (list_to_map [("confidence", VInt 8)]);
  json_minify := fun _ => None;
  event_files := fun _ => Some (Answer (VInt 7));
  run := fun _ => Answer (0%Z, "No risks identified.");
  sarif_glob := [];
  files := fun _ => None |}.

(** Scenario B without a workflow name. *)
Definition scenario_no_workflow : World := {|
  environ := list_to_map
    [("GITHUB_EVENT_NAME", "pull_request"); ("GITHUB_BASE_SHA", "base"); ("GITHUB_SHA", "head");
     ("GITHUB_REPOSITORY", "octo/app"); ("GITHUB_EVENT_PATH", "/github/event.json");
     ("GH_TOKEN", "ghs_token")];
  host := host_with [];
  json_loads := fun _ => Answer (list_to_map [("should-block-pull-request", VBool true);
                                              ("approver", VStr "alice")]);
  json_minify := fun _ => None;
  event_files := fun _ => Some (Answer (VInt 7));
  run := fun _ => Answer (0%Z, "No risks identified.");
  sarif_glob := [];
  files := fun _ => None |}.

(** A pull_request_review event. *)
Definition scenario_review : World := {|
  environ := environ_review;
  host := host_with [approved_by "alice"];
  json_loads := fun _ => Answer (list_to_map [("should-block-pull-request", VBool true);
                                              ("approver", VStr "alice")]);
  json_minify := fun _ => None;
  event_files := fun _ => Some (Answer (VInt 7));
  run := fun _ => Answer (0%Z, "No risks identified.");
  sarif_glob := [];
  files := fun _ => None |}.

(** [m] reads nothing of the state: from every state it has the outcome
    [o] and appends the events [tr], which satisfy [P]. *)
Definition uniform {A} (P : event -> Prop) (m : M A) : Prop :=
  exists o tr, Forall P tr /\ forall s, m s = (o, wrote s tr).

(** The call returned [True]. *)
Definition returned_true (o : outcome bool) : bool :=
  match o with Ok true => true | _ => false end.

End Cases.
Export Cases.

(** * Properties *)
Import SarifToComment Fraim.

(** ** Strings *)

Lemma prefix_app (p rest : string) : String.prefix p (p +:+ rest) = true.
Proof.
  induction p as [|a p IH]; simpl.
  - now destruct rest.
  - destruct (ascii_dec a a) as [_|ne]; [exact IH | now destruct ne].
Qed.

Lemma prefix_inv (p s : string) :
  String.prefix p s = true -> exists rest, s = p +:+ rest.
Proof.
  revert s. induction p as [|a p IH]; intros s H.
  - now exists s.
  - destruct s as [|b s]; simpl in H; [discriminate|].
    destruct (ascii_dec a b) as [->|]; [|discriminate].
    destruct (IH s H) as [rest ->]. now exists rest.
Qed.


Lemma contains_eq (needle hay : string) :
  contains needle hay =
  String.prefix needle hay ||
  match hay with "" => false | String _ rest => contains needle rest end.
Proof. now destruct hay. Qed.

Lemma contains_spec (needle hay : string) :
  contains needle hay = true <-> exists pre post, hay = pre +:+ needle +:+ post.
Proof.
  split.
  - induction hay as [|a hay IH]; rewrite contains_eq; intros H.
    + rewrite orb_false_r in H. destruct (prefix_inv _ _ H) as [post ->].
      now exists "", post.
    + apply orb_true_iff in H as [H|H].
      * destruct (prefix_inv _ _ H) as [post ->]. now exists "", post.
      * destruct (IH H) as (pre & post & ->). now exists (String a pre), post.
  - intros (pre & post & ->). induction pre as [|a pre IH].
    + change (contains needle (needle +:+ post) = true).
      now rewrite contains_eq, prefix_app.
    + change (contains needle (String a (pre +:+ needle +:+ post)) = true).
      rewrite contains_eq, IH. apply orb_true_r.
Qed.

Lemma eqb_false_of_ne (a b : string) : a <> b -> String.eqb a b = false.
Proof. intros H. now apply String.eqb_neq. Qed.

Lemma truthy_VStr (s : string) : s <> "" -> truthy (VStr s) = true.
Proof. intros H. simpl. now rewrite (eqb_false_of_ne _ _ H). Qed.

Lemma truthy_VStr_inv (s : string) : truthy (VStr s) = true -> s <> "".
Proof. simpl. intros H ->. discriminate. Qed.


(** ** The results document *)

Lemma get_results_no_results (data : SarifData) :
  Forall (fun run => default [] (Run_results run) = []) (default [] (Sarif_runs data)) ->
  get_results data = [].
Proof.
  unfold get_results. induction 1 as [|run runs Hrun _ IH]; simpl; [reflexivity|].
  unfold results_of_run at 1. rewrite Hrun. simpl. exact IH.
Qed.

(** ** What the computations write *)

Lemma writes_ret {A} P R (a : A) : writes P R (ret a).
Proof. intros s. exists []. simpl. rewrite app_nil_r. repeat split; auto. discriminate. Qed.

Lemma writes_raise {A} (P : event -> Prop) (R : exn -> Prop) e : R e -> writes P R (@raise A e).
Proof.
  intros HR s. exists []. simpl. rewrite app_nil_r. repeat split; auto.
  intros e' [= <-]. exact HR.
Qed.

Lemma writes_emit (P : event -> Prop) R ev : P ev -> writes P R (emit ev).
Proof. intros HP s. exists [ev]. simpl. repeat split; auto. discriminate. Qed.

Lemma writes_print P R text : P (EPrint text) -> writes P R (print text).
Proof. apply writes_emit. Qed.

Lemma writes_log P R message : P (EPrint ("::debug::" +:+ message)) -> writes P R (log message).
Proof. apply writes_emit. Qed.

Lemma writes_call P (R : exn -> Prop) o : (forall f, R (exn_of f)) -> writes P R (call o).
Proof. intros HR. destruct o; [apply writes_raise, HR | apply writes_ret]. Qed.

Lemma writes_ask {A} P (R : exn -> Prop) (o : answer A) :
  (forall f, R (exn_of f)) -> writes P R (ask o).
Proof. intros HR. destruct o; [apply writes_ret | apply writes_raise, HR]. Qed.

Lemma writes_get_comments P R : writes P R get_comments.
Proof. intros s. exists []. simpl. rewrite app_nil_r. repeat split; auto. discriminate. Qed.

Lemma writes_bind {A B} P R (m : M A) (k : A -> M B) :
  writes P R m -> (forall a, writes P R (k a)) -> writes P R (bind m k).
Proof.
  intros Hm Hk s. unfold bind. destruct (Hm s) as (tr1 & Ht1 & HP1 & Hc1 & HR1).
  destruct (m s) as [[a|e] s1]; simpl in *.
  - destruct (Hk a s1) as (tr2 & Ht2 & HP2 & Hc2 & HR2).
    exists (tr1 ++ tr2). rewrite Ht2, Ht1, Hc2, Hc1, app_assoc.
    repeat split; auto. now apply Forall_app.
  - exists tr1. repeat split; auto. intros e' [= <-]. now apply HR1.
Qed.

Lemma writes_try_except {A} P R R1 (m : M A) handler :
  writes P R1 m ->
  (forall e, R1 e -> match handler e with Some k => writes P R k | None => R e end) ->
  writes P R (try_except m handler).
Proof.
  intros Hm Hh s. unfold try_except. destruct (Hm s) as (tr1 & Ht1 & HP1 & Hc1 & HR1).
  destruct (m s) as [[a|e] s1]; simpl in *.
  - exists tr1. repeat split; auto. discriminate.
  - specialize (Hh e (HR1 e eq_refl)). destruct (handler e) as [k|].
    + destruct (Hh s1) as (tr2 & Ht2 & HP2 & Hc2 & HR2).
      exists (tr1 ++ tr2). rewrite Ht2, Ht1, Hc2, Hc1, app_assoc.
      repeat split; auto. now apply Forall_app.
    + exists tr1. repeat split; auto. intros e' [= <-]. exact Hh.
Qed.

Lemma writes_weaken {A} (P Q : event -> Prop) (R S : exn -> Prop) (m : M A) :
  (forall e, P e -> Q e) -> (forall e, R e -> S e) -> writes P R m -> writes Q S m.
Proof.
  intros HPQ HRS Hm s. destruct (Hm s) as (tr & Ht & HP & Hc & HR).
  exists tr. repeat split; auto. eapply Forall_impl; eauto.
Qed.

(** What [writes] says of one run. *)
Lemma writes_run {A} P R (m : M A) s o s' :
  writes P R m -> m s = (o, s') ->
  exists tr, s' = wrote s tr /\ Forall P tr /\ (forall e, o = Raise e -> R e).
Proof.
  intros Hm E. destruct (Hm s) as (tr & Ht & HP & Hc & HR). rewrite E in *. simpl in *.
  exists tr. repeat split; auto. destruct s'. unfold wrote. simpl in *. congruence.
Qed.

Ltac writes_step :=
  match goal with
  | |- writes _ _ (bind _ _) => apply writes_bind; [ | intros ? ]
  | |- writes _ _ (ret _) => apply writes_ret
  | |- writes _ _ (raise _) => apply writes_raise
  | |- writes _ _ (print _) => apply writes_print
  | |- writes _ _ (log _) => apply writes_log
  | |- writes _ _ (emit _) => apply writes_emit
  | |- writes _ _ (call _) => apply writes_call; intros []
  | |- writes _ _ (ask _) => apply writes_ask; intros []
  | |- writes _ _ get_comments => apply writes_get_comments
  | |- writes _ _ (if ?b then _ else _) => destruct b eqn:?
  | |- writes _ _ (match ?x with _ => _ end) => destruct x eqn:?
  | |- writes _ _ (let '(_, _) := ?x in _) => destruct x eqn:?
  end.

Lemma get_github_client_writes environ P (R : exn -> Prop) :
  (truthy (github_token environ) = false -> R no_token) ->
  writes P R (get_github_client environ).
Proof.
  intros HR. unfold get_github_client.
  destruct (truthy (github_token environ)); simpl; [apply writes_ret|].
  apply writes_raise. now apply HR.
Qed.

(** [create_status_check] never raises; the one status check it may write
    is on the commit [GITHUB_SHA], which is then not empty. *)
Lemma create_status_check_writes environ host state description github_repository context :
  writes (event_ok (fun sha st => st = state /\ sha = environ_get_or environ "GITHUB_SHA" ""
                                  /\ sha <> "") False)
         (fun _ => False)
         (create_status_check environ host state description github_repository context).
Proof.
  unfold create_status_check.
  eapply writes_try_except with (R1 := fun e => is_Exception e = true).
  - apply writes_bind; [now apply get_github_client_writes|intros _].
    destruct (negb (truthy (VStr github_repository)) ||
              negb (truthy (VStr (environ_get_or environ "GITHUB_SHA" "")))) eqn:E.
    + now writes_step.
    + apply orb_false_iff in E as [_ E]. apply negb_false_iff in E. simpl in E.
      apply negb_true_iff, String.eqb_neq in E.
      repeat writes_step; simpl; auto.
  - intros e He. destruct (is_GithubException e); [now writes_step|].
    rewrite He. now writes_step.
Qed.

Ltac writes_auto :=
  repeat first [ writes_step | apply get_github_client_writes ];
  simpl; auto.

Lemma clean_team_name_writes P approver :
  writes P (fun e => is_Exception e = true) (clean_team_name approver).
Proof. unfold clean_team_name. writes_auto. Qed.

Lemma get_team_members_writes environ host github_repository team_name :
  writes quiet (fun _ => False) (get_team_members environ host github_repository team_name).
Proof.
  unfold get_team_members.
  eapply writes_try_except with (R1 := fun e => is_Exception e = true).
  - writes_auto.
  - intros e He. rewrite He. writes_auto.
Qed.

Lemma is_team_approver_writes environ host approver github_repository :
  writes quiet (fun _ => False) (is_team_approver environ host approver github_repository).
Proof.
  unfold is_team_approver. writes_step; [now writes_step|].
  eapply writes_try_except with (R1 := fun e => is_Exception e = true).
  - repeat first [ writes_step | apply get_github_client_writes
                 | apply clean_team_name_writes ];
      simpl; auto.
  - intros e He. destruct e as [| | | | |status ?| |]; try discriminate; simpl;
      try destruct (status =? 404)%Z; writes_auto.
Qed.

Lemma team_member_approved_writes team_members reviews :
  writes quiet (fun _ => False) (team_member_approved team_members reviews).
Proof.
  induction reviews as [|review rest IH]; simpl; [apply writes_ret|].
  unfold print_review. writes_auto.
Qed.

Lemma user_approved_writes approver reviews :
  writes quiet (fun _ => False) (user_approved approver reviews).
Proof.
  induction reviews as [|review rest IH]; simpl; [apply writes_ret|].
  unfold print_review. writes_auto.
Qed.

(** The part of [check_approver_approval] inside [try]. *)
Lemma check_approver_approval_writes environ host approver github_repository pr_number :
  writes quiet (fun e => e = no_token /\ truthy (github_token environ) = false)
    (check_approver_approval environ host approver github_repository pr_number).
Proof.
  unfold check_approver_approval.
  writes_step; [writes_auto|].
  writes_step; [writes_auto|].
  writes_step; [writes_auto|].
  writes_step; [writes_auto|].
  writes_step; [now apply get_github_client_writes|].
  writes_step; [writes_auto|].
  eapply writes_try_except with (R1 := fun e => is_Exception e = true).
  - repeat first
      [ writes_step
      | apply clean_team_name_writes
      | eapply writes_weaken; [| |apply is_team_approver_writes]
      | eapply writes_weaken; [| |apply get_team_members_writes]
      | eapply writes_weaken; [| |apply team_member_approved_writes]
      | eapply writes_weaken; [| |apply user_approved_writes] ];
      simpl; auto; try (intros; contradiction).
  - intros e He. destruct (is_GithubException e); [writes_auto|].
    rewrite He. writes_auto.
Qed.

(** ** Running a computation step by step *)

Lemma bind_ret {A B} (a : A) (k : A -> M B) s : bind (ret a) k s = k a s.
Proof. reflexivity. Qed.

Lemma bind_raise {A B} e (k : A -> M B) s : bind (raise e) k s = (Raise e, s).
Proof. reflexivity. Qed.

Lemma bind_emit {B} ev (k : unit -> M B) s : bind (emit ev) k s = k tt (wrote s [ev]).
Proof. reflexivity. Qed.

Lemma bind_print {B} text (k : unit -> M B) s :
  bind (print text) k s = k tt (wrote s [EPrint text]).
Proof. reflexivity. Qed.

Lemma bind_log {B} message (k : unit -> M B) s :
  bind (log message) k s = k tt (wrote s [EPrint ("::debug::" +:+ message)]).
Proof. reflexivity. Qed.

Lemma bind_bind {A B C} (m : M A) (f : A -> M B) (g : B -> M C) s :
  bind (bind m f) g s = bind m (fun a => bind (f a) g) s.
Proof. unfold bind. now destruct (m s) as [[a|e] s1]. Qed.

Lemma bind_run {A B} (m : M A) (k : A -> M B) s a s1 :
  m s = (Ok a, s1) -> bind m k s = k a s1.
Proof. intros E. unfold bind. now rewrite E. Qed.

Lemma wrote_wrote s tr1 tr2 : wrote (wrote s tr1) tr2 = wrote s (tr1 ++ tr2).
Proof. unfold wrote. simpl. now rewrite app_assoc. Qed.

Lemma wrote_nil s : wrote s [] = s.
Proof. destruct s. unfold wrote. simpl. now rewrite app_nil_r. Qed.

Lemma get_github_client_run environ s :
  truthy (github_token environ) = true ->
  get_github_client environ s = (Ok (GithubClient (github_token environ)), s).
Proof. intros H. unfold get_github_client. now rewrite H. Qed.

(** ** The approval check *)

(** The test of the loop over the reviews of an individual approver. *)
Lemma user_approved_result approver reviews s :
  fst (user_approved approver reviews s) =
  Ok (existsb (fun review => String.eqb (review_state review) "APPROVED"
                             && py_eq (VStr (review_user_login review)) approver) reviews).
Proof.
  revert s. induction reviews as [|review rest IH]; intros s; [reflexivity|].
  cbn [user_approved existsb]. unfold print_review. rewrite bind_print.
  destruct (String.eqb (review_state review) "APPROVED"
            && py_eq (VStr (review_user_login review)) approver).
  - reflexivity.
  - apply IH.
Qed.

Lemma try_except_Ok {A} (m : M A) handler s a s1 :
  m s = (Ok a, s1) -> try_except m handler s = (Ok a, s1).
Proof. intros E. unfold try_except. now rewrite E. Qed.

(** C6: for an approver that is no team, with the pull request and its
    reviews at hand, [check_approver_approval] returns [True] exactly when
    some review has state APPROVED and an author login equal to the
    approver string, character for character. *)
Theorem individual_approver_approved_iff
    (environ : gmap string string) (host : Host) (approver github_repository : string)
    (pr_number : pyval) (reviews : list Review) (s : State) :
  approver <> "" ->
  github_repository <> "" ->
  truthy pr_number = true ->
  truthy (github_token environ) = true ->
  get_repo host github_repository = None ->
  get_pull host github_repository pr_number = None ->
  (forall s0, fst (is_team_approver environ host (VStr approver) github_repository s0)
              = Ok false) ->
  get_reviews host github_repository pr_number = Answer reviews ->
  exists b s',
    check_approver_approval environ host (VStr approver) github_repository pr_number s
    = (Ok b, s') /\
    (b = true <->
     exists review, In review reviews /\ review_state review = "APPROVED"
                    /\ review_user_login review = approver).
Proof.
  intros Happrover Hrepo Hpr Htoken Hget_repo Hget_pull Hteam Hreviews.
  exists (existsb (fun review => String.eqb (review_state review) "APPROVED"
                                 && py_eq (VStr (review_user_login review)) (VStr approver))
                  reviews).
  unfold check_approver_approval. rewrite bind_log.
  rewrite (truthy_VStr _ Happrover), (truthy_VStr _ Hrepo), Hpr.
  cbn [negb client_truthy].
  erewrite bind_run by (now apply get_github_client_run).
  cbn [negb client_truthy].
  rewrite Hget_repo, Hget_pull.
  match goal with |- context [try_except ?m ?h ?st] => set (body := m); set (s1 := st) end.
  assert (Hbody : exists s2, body s1 =
            (Ok (existsb (fun review => String.eqb (review_state review) "APPROVED"
                                        && py_eq (VStr (review_user_login review)) (VStr approver))
                         reviews), s2)).
  { subst body. cbn [call]. rewrite !bind_ret.
    specialize (Hteam s1).
    destruct (is_team_approver environ host (VStr approver) github_repository s1)
      as [o s2] eqn:E.
    simpl in Hteam. subst o. erewrite bind_run by exact E. cbv iota.
    rewrite bind_log, Hreviews. simpl ask. rewrite bind_ret.
    match goal with |- context [bind (user_approved ?a ?r) ?k ?st] =>
      pose proof (user_approved_result a r st) as Hres;
      destruct (user_approved a r st) as [o s3] eqn:E3
    end.
    simpl in Hres. subst o. erewrite bind_run by exact E3.
    destruct (existsb _ reviews).
    - now exists s3.
    - rewrite bind_log. eexists. reflexivity. }
  destruct Hbody as [s2 Hbody]. exists s2. split.
  - now apply try_except_Ok.
  - rewrite existsb_exists. split.
    + intros (review & Hin & Hok). exists review. apply andb_true_iff in Hok as [Hst Hlogin].
      apply String.eqb_eq in Hst. simpl in Hlogin. apply String.eqb_eq in Hlogin. auto.
    + intros (review & Hin & Hst & Hlogin). exists review. split; [exact Hin|].
      rewrite Hst, Hlogin. simpl. now rewrite String.eqb_refl.
Qed.

Lemma individual_approver_approved_iff_witness :
  exists b s',
    check_approver_approval (environ_pr "base" "head") (host_with [approved_by "alice"])
      (VStr "alice") "octo/app" (VInt 7) (initial [])
    = (Ok b, s') /\
    (b = true <->
     exists review, In review [approved_by "alice"] /\ review_state review = "APPROVED"
                    /\ review_user_login review = "alice").
Proof.
  apply (individual_approver_approved_iff (environ_pr "base" "head")
           (host_with [approved_by "alice"]) "alice" "octo/app" (VInt 7)
           [approved_by "alice"] (initial []));
    try discriminate; try reflexivity.
Defined.

(** With a token in the environment the check returns a boolean; the only
    exception it lets out is the [ValueError] of [get_github_client], which
    is called before the [try]. *)
Lemma check_approver_approval_raises_only_without_token
    environ host approver github_repository pr_number s e :
  fst (check_approver_approval environ host approver github_repository pr_number s) = Raise e ->
  e = no_token /\ truthy (github_token environ) = false.
Proof.
  intros H.
  destruct (check_approver_approval_writes environ host approver github_repository pr_number s)
    as (tr & _ & _ & _ & HR).
  now apply HR.
Qed.

(** A missing approver, repository or pull request number gives [False]
    after two debug lines and no call to the host. *)
Lemma check_approver_approval_missing_input environ host approver github_repository pr_number s :
  truthy approver = false \/ github_repository = "" \/ truthy pr_number = false ->
  exists reason,
    check_approver_approval environ host approver github_repository pr_number s
    = (Ok false,
       wrote s [EPrint ("::debug::Checking if approver '" +:+ py_str approver
                        +:+ "' has approved PR #" +:+ py_str pr_number);
                EPrint ("::debug::" +:+ reason)]).
Proof.
  intros H. unfold check_approver_approval. rewrite bind_log.
  destruct (truthy approver) eqn:Ea; cbn [negb].
  - change (truthy (VStr github_repository)) with (negb (String.eqb github_repository "")).
    destruct (String.eqb github_repository "") eqn:Er; cbn [negb].
    + exists "Missing repository information".
      rewrite bind_log, wrote_wrote. reflexivity.
    + destruct (truthy pr_number) eqn:Ep; cbn [negb].
      * apply String.eqb_neq in Er. destruct H as [H|[H|H]]; congruence.
      * exists "Missing PR number". rewrite bind_log, wrote_wrote. reflexivity.
  - exists "No approver specified". rewrite bind_log, wrote_wrote. reflexivity.
Qed.

(** C7 at the input where the code departs from it: approver, repository
    and pull request number given, no token in the environment.  The check
    raises [ValueError] instead of returning [False]. *)
Lemma check_approver_approval_raises_without_token :
  check_approver_approval environ_no_token (host_with [approved_by "alice"])
    (VStr "alice") "octo/app" (VInt 7) (initial [])
  = (Raise (ValueError "No GitHub token available"),
     wrote (initial []) [EPrint "::debug::Checking if approver 'alice' has approved PR #7"]).
Proof. vm_compute. reflexivity. Qed.

(** ** Annotations *)

Lemma truthy_int_zero (o : option Z) : o = None \/ o = Some 0%Z -> truthy_int o = false.
Proof. now intros [-> | ->]. Qed.

(** A run of [create_annotations] writes what the turns of its loop write,
    in the order of the document, then the count. *)
Lemma annotate_wrote dry_run result s :
  exists n, annotate dry_run result s
            = (Ok n, wrote s (trace (snd (annotate dry_run result (initial []))))).
Proof.
  unfold annotate.
  destruct (negb (truthy_str (file_path result)) || negb (truthy_int (start_line result))).
  - exists 0%nat. reflexivity.
  - destruct dry_run.
    + exists 0%nat. rewrite !bind_print, !wrote_wrote. reflexivity.
    + exists 1%nat. reflexivity.
Qed.

Lemma annotate_all_wrote dry_run results annotations_created s :
  exists n, annotate_all dry_run results annotations_created s
            = (Ok n, wrote s (concat (map (fun result =>
                                             trace (snd (annotate dry_run result (initial []))))
                                          results))).
Proof.
  revert annotations_created s.
  induction results as [|result rest IH]; intros annotations_created s; simpl.
  - exists annotations_created. now rewrite wrote_nil.
  - destruct (annotate_wrote dry_run result s) as [n Hn].
    erewrite bind_run by exact Hn.
    destruct (IH (annotations_created + n)%nat
                 (wrote s (trace (snd (annotate dry_run result (initial [])))))) as [k Hk].
    exists k. now rewrite Hk, wrote_wrote.
Qed.

Lemma create_annotations_run self dry_run s :
  get_results (parser self) <> [] ->
  exists n,
    create_annotations self dry_run s
    = (Ok tt,
       wrote s (concat (map (fun result => trace (snd (annotate dry_run result (initial []))))
                            (get_results (parser self)))
                ++ [EPrint ("::debug::Created " +:+ str_of_nat n +:+ " annotations")])).
Proof.
  intros Hresults. unfold create_annotations.
  destruct (get_results (parser self)) as [|result rest] eqn:E; [contradiction|].
  destruct (annotate_all_wrote dry_run (result :: rest) 0 s) as [n Hn].
  exists n. erewrite bind_run by exact Hn. now rewrite <- wrote_wrote.
Qed.

(** C10: a result whose primary region starts at line 0 is skipped like
    one without a line, with a debug line and no annotation; an annotation
    whose result has start column 0, or none, is written with [col=1].
    [annotate] is one turn of the loop of [create_annotations], whose run
    writes what its turns write. *)
Theorem zero_location_fields_are_absent (result : SarifResult) (s : State) :
  (start_line result = Some 0%Z ->
   forall dry_run,
     annotate dry_run result s
     = (Ok 0%nat,
        wrote s [EPrint ("::debug::Skipping annotation for result without file/line: "
                         +:+ rule_name result)])) /\
  (forall path line,
     file_path result = Some path -> path <> "" ->
     start_line result = Some line -> line <> 0%Z ->
     start_column result = None \/ start_column result = Some 0%Z ->
     annotate false result s
     = (Ok 1%nat,
        wrote s [EPrint ("::" +:+ _map_level_to_annotation (level result)
                         +:+ " file=" +:+ path +:+ ",line=" +:+ str_of_Z line
                         +:+ ",col=1::" +:+ rule_name result +:+ ": " +:+ message result)])) /\
  (forall self dry_run,
     get_results (parser self) <> [] ->
     exists n,
       create_annotations self dry_run s
       = (Ok tt,
          wrote s (concat (map (fun r => trace (snd (annotate dry_run r (initial []))))
                               (get_results (parser self)))
                   ++ [EPrint ("::debug::Created " +:+ str_of_nat n +:+ " annotations")]))).
Proof.
  split; [|split; [|intros self dry_run; apply create_annotations_run]].
  - intros Hline dry_run. unfold annotate. rewrite Hline.
    change (truthy_int (Some 0%Z)) with false. cbn [negb]. rewrite orb_true_r.
    now rewrite bind_log.
  - intros path line Hpath Hne Hline Hnz Hcol. unfold annotate.
    rewrite Hpath, Hline, (truthy_int_zero _ Hcol).
    unfold truthy_str, truthy_int. rewrite (truthy_VStr _ Hne).
    simpl. destruct (Z.eqb_spec line 0); [contradiction|]. reflexivity.
Qed.

Lemma zero_location_fields_are_absent_witness :
  annotate true
    (SarifResult_init (result_at (Some "sql-injection") (Some "error") "app.py" 0 0 None) None)
    (initial [])
  = (Ok 0%nat,
     wrote (initial [])
       [EPrint "::debug::Skipping annotation for result without file/line: unknown-rule"]) /\
  annotate false
    (SarifResult_init (result_at None (Some "error") "app.py" 10 12 (Some 0%Z)) None)
    (initial [])
  = (Ok 1%nat,
     wrote (initial [])
       [EPrint "::error file=app.py,line=10,col=1::unknown-rule: query built from user input"]).
Proof.
  split.
  - apply (proj1 (zero_location_fields_are_absent
             (SarifResult_init (result_at (Some "sql-injection") (Some "error") "app.py" 0 0 None)
                None) (initial []))).
    reflexivity.
  - apply (proj1 (proj2 (zero_location_fields_are_absent
             (SarifResult_init (result_at None (Some "error") "app.py" 10 12 (Some 0%Z)) None)
             (initial []))) "app.py" 10%Z); try reflexivity; try discriminate.
    now right.
Defined.

(** ** Levels *)




(** ** The comment *)

(** C4, as the code has it: when no run of the document has a result,
    [create_pr_comment] posts and prints no comment and
    [create_annotations] no annotation; each writes one debug line.  The
    no-issues text is what [_build_comment_body] returns for an empty
    list, after the title and the name and version of the first run's
    tool. *)
Theorem no_findings_no_comment (environ : gmap string string) (host : Host)
    (self : SarifToCommentProcessor) (dry_run : bool) (s : State) :
  Forall (fun run => default [] (Run_results run) = [])
         (default [] (Sarif_runs (parser self))) ->
  create_pr_comment environ host self dry_run s
  = (Ok tt, wrote s [EPrint "::debug::No security findings to report"]) /\
  create_annotations self dry_run s
  = (Ok tt, wrote s [EPrint "::debug::No security findings to annotate"]) /\
  _build_comment_body self []
  = join (String "010" "")
      ["## " +:+ title self;
       "";
       "**Tool:** " +:+ fst (get_tool_info (parser self)) +:+ " "
       +:+ snd (get_tool_info (parser self));
       "**Total Findings:** 0";
       "";
       "✅ No security issues found!"].
Proof.
  intros Hnone. apply get_results_no_results in Hnone.
  unfold create_pr_comment, create_annotations, _build_comment_body.
  rewrite Hnone. destruct (get_tool_info (parser self)) as [tool_name tool_version].
  repeat split.
Qed.

Lemma no_findings_no_comment_witness :
  create_pr_comment (environ_pr "base" "head") (host_with []) (processor no_runs) false
    (initial [])
  = (Ok tt, wrote (initial []) [EPrint "::debug::No security findings to report"]) /\
  create_annotations (processor no_runs) false (initial [])
  = (Ok tt, wrote (initial []) [EPrint "::debug::No security findings to annotate"]) /\
  _build_comment_body (processor no_runs) []
  = join (String "010" "")
      ["## " +:+ title (processor no_runs);
       "";
       "**Tool:** " +:+ fst (get_tool_info (parser (processor no_runs))) +:+ " "
       +:+ snd (get_tool_info (parser (processor no_runs)));
       "**Total Findings:** 0";
       "";
       "✅ No security issues found!"].
Proof.
  apply (no_findings_no_comment (environ_pr "base" "head") (host_with [])
           (processor no_runs) false (initial [])).
  simpl. constructor.
Defined.

(** C4 as the specification words it fails on the document without runs
    and on a document with a run and no result: no comment is posted or
    printed, and the no-issues text the two would get differs. *)
Lemma empty_document_renders_no_comment :
  create_pr_comment (environ_pr "base" "head") (host_with []) (processor no_runs) false
    (initial [])
  = (Ok tt, {| trace := [EPrint "::debug::No security findings to report"]; comments := [] |}) /\
  create_pr_comment (environ_pr "base" "head") (host_with []) (processor no_runs) true
    (initial [])
  = (Ok tt, {| trace := [EPrint "::debug::No security findings to report"]; comments := [] |}) /\
  _build_comment_body (processor no_runs) []
  <> _build_comment_body (processor (document "fraim" [])) [].
Proof.
  repeat split. apply String.eqb_neq. vm_compute. reflexivity.
Qed.











(** ** The gate *)

Lemma event_ok_impl (P Q : string -> string -> Prop) (p q : Prop) e :
  (forall sha state, P sha state -> Q sha state) -> (p -> q) ->
  event_ok P p e -> event_ok Q q e.
Proof. destruct e; simpl; auto. Qed.

Lemma quiet_event_ok P p e : quiet e -> event_ok P p e.
Proof. apply event_ok_impl; [intros ? ? []|intros []]. Qed.

Lemma is_Exception_exit_status e : is_Exception e = true -> exit_status_of_exn e = 1%Z.
Proof. now destruct e. Qed.

Lemma check_security_risk_comment_writes environ host github_repository pr_number :
  writes quiet (fun e => e = no_token)
    (check_security_risk_comment environ host github_repository pr_number).
Proof.
  unfold check_security_risk_comment.
  writes_step; [writes_auto|].
  writes_step; [writes_auto|].
  writes_step; [now apply get_github_client_writes|].
  writes_step; [writes_auto|].
  eapply writes_try_except with (R1 := fun e => is_Exception e = true).
  - writes_auto.
  - intros e He. destruct (is_GithubException e); [writes_auto|].
    rewrite He. writes_auto.
Qed.

(** The status checks of [handle_pull_request_review] are written on a
    pull_request_review event, and so is its [sys.exit(0)]. *)
Lemma handle_pull_request_review_writes
    environ host args workflow should_block_pr github_repository pr_number :
  writes
    (event_ok (fun sha _ => environ_get_or environ "GITHUB_EVENT_NAME" "" = "pull_request_review"
                            /\ sha = environ_get_or environ "GITHUB_SHA" "" /\ sha <> "") False)
    (fun e => environ_get_or environ "GITHUB_EVENT_NAME" "" = "pull_request_review"
              /\ (e = SystemExit 0 \/ e = no_token))
    (handle_pull_request_review environ host args workflow should_block_pr
       github_repository pr_number).
Proof.
  unfold handle_pull_request_review.
  destruct (String.eqb (environ_get_or environ "GITHUB_EVENT_NAME" "") "pull_request_review")
    eqn:E; [|apply writes_ret].
  apply String.eqb_eq in E.
  repeat first
    [ writes_step
    | eapply writes_weaken; [| |apply check_security_risk_comment_writes]
    | eapply writes_weaken; [| |apply check_approver_approval_writes]
    | eapply writes_weaken; [| |apply create_status_check_writes] ];
    simpl; auto;
    try (intros e; apply event_ok_impl; tauto);
    try (intros e He; tauto).
Qed.

(** [add_global_args] writes a status check, of state error, and exits
    with status 1 only on a pull_request event with a revision missing. *)
Lemma add_global_args_writes environ host workflow args github_repository :
  writes
    (event_ok (fun sha state => state = "error"
                                /\ sha = environ_get_or environ "GITHUB_SHA" "" /\ sha <> "") False)
    (fun e => e = SystemExit 1)
    (add_global_args environ host workflow args github_repository).
Proof.
  unfold add_global_args.
  repeat first
    [ writes_step
    | eapply writes_weaken; [| |apply create_status_check_writes] ];
    simpl; auto;
    try (intros e; apply event_ok_impl; tauto);
    try (intros e He; tauto).
Qed.

Lemma minify_json_writes json_minify P json_input :
  writes P (fun e => is_Exception e = true) (minify_json json_minify json_input).
Proof. unfold minify_json. writes_auto. Qed.

Lemma add_risk_flagger_args_writes
    environ json_minify args workflow_cli_args github_repository pr_number :
  writes quiet (fun e => is_Exception e = true)
    (add_risk_flagger_args environ json_minify args workflow_cli_args github_repository
       pr_number).
Proof.
  unfold add_risk_flagger_args.
  repeat first [ writes_step | apply minify_json_writes ]; simpl; auto.
Qed.

Lemma parse_workflow_args_writes w :
  writes quiet (fun e => is_Exception e = true) (parse_workflow_args w).
Proof.
  unfold parse_workflow_args.
  eapply writes_try_except with (R1 := fun e => is_Exception e = true).
  - writes_auto.
  - intros e He. destruct e; try exact He; writes_auto.
Qed.

Lemma get_github_context_writes w :
  writes quiet (fun e => is_Exception e = true) (get_github_context w).
Proof.
  unfold get_github_context. writes_step.
  - writes_step; [|apply writes_ret].
    writes_step; [|apply writes_ret].
    eapply writes_try_except with (R1 := fun e => is_Exception e = true).
    + writes_auto.
    + intros e He. rewrite He. writes_auto.
  - writes_auto.
Qed.

Lemma join_items_writes P i items :
  writes P (fun e => is_Exception e = true) (join_items i items).
Proof.
  revert i. induction items as [|v rest IH]; intros i; simpl; [apply writes_ret|].
  destruct v; writes_auto.
Qed.

Lemma silent_step_refl s : silent_step s s.
Proof. exists []. split; [now rewrite wrote_nil | constructor]. Qed.

Lemma silent_step_trans s1 s2 s3 : silent_step s1 s2 -> silent_step s2 s3 -> silent_step s1 s3.
Proof.
  intros (tr1 & -> & H1) (tr2 & -> & H2). exists (tr1 ++ tr2).
  split; [apply wrote_wrote | now apply Forall_app].
Qed.

Lemma silent_step_wrote s tr : Forall quiet tr -> silent_step s (wrote s tr).
Proof. intros H. now exists tr. Qed.

Lemma silent_step_then s s' tr : Forall quiet tr -> silent_step s s' -> silent_step s (wrote s' tr).
Proof. intros H Hs. eapply silent_step_trans; [exact Hs | now apply silent_step_wrote]. Qed.

Lemma silent_step_run {A} R (m : M A) s o s' :
  writes quiet R m -> m s = (o, s') -> silent_step s s'.
Proof.
  intros Hm E. destruct (writes_run _ _ _ _ _ _ Hm E) as (tr & -> & HP & _). now exists tr.
Qed.

Lemma status_checks_app tr1 tr2 :
  status_checks (tr1 ++ tr2) = status_checks tr1 ++ status_checks tr2.
Proof. apply List.filter_app. Qed.

Lemma scans_app tr1 tr2 : scans (tr1 ++ tr2) = scans tr1 ++ scans tr2.
Proof. apply List.filter_app. Qed.

Lemma status_checks_ok P p tr :
  Forall (event_ok P p) tr ->
  Forall (fun ev => match ev with EStatus _ sha state _ _ => P sha state | _ => False end)
         (status_checks tr).
Proof.
  induction 1 as [|ev tr Hev _ IH]; simpl; [constructor|].
  destruct ev; simpl; auto.
Qed.

Lemma quiet_no_status tr : Forall quiet tr -> status_checks tr = [].
Proof.
  intros H. apply status_checks_ok in H. destruct (status_checks tr) as [|ev rest]; [reflexivity|].
  inversion H as [|? ? Hev _]. now destruct ev.
Qed.

Lemma event_ok_no_scan P tr : Forall (event_ok P False) tr -> scans tr = [].
Proof.
  induction 1 as [|ev tr Hev _ IH]; simpl; [reflexivity|].
  destruct ev; simpl in *; auto. contradiction.
Qed.

Lemma silent_step_status_checks s s' :
  silent_step s s' -> status_checks (trace s') = status_checks (trace s).
Proof.
  intros (tr & -> & H). simpl. rewrite status_checks_app, (quiet_no_status _ H).
  apply app_nil_r.
Qed.

Lemma bind_Ok_inv {A B} (m : M A) (k : A -> M B) s b s2 :
  bind m k s = (Ok b, s2) -> exists a s1, m s = (Ok a, s1) /\ k a s1 = (Ok b, s2).
Proof.
  unfold bind. destruct (m s) as [[a|e] s1]; [|discriminate]. intros H. now exists a, s1.
Qed.

(** When [handle_pull_request_review] returns, it has done nothing: on a
    pull_request_review event it ends in [sys.exit(0)]. *)
Lemma handle_pull_request_review_Ok
    environ host args workflow should_block_pr github_repository pr_number s a s' :
  handle_pull_request_review environ host args workflow should_block_pr github_repository
    pr_number s = (Ok a, s') ->
  s' = s /\ environ_get_or environ "GITHUB_EVENT_NAME" "" <> "pull_request_review".
Proof.
  unfold handle_pull_request_review.
  destruct (String.eqb (environ_get_or environ "GITHUB_EVENT_NAME" "") "pull_request_review")
    eqn:E.
  - intros H. apply bind_Ok_inv in H as (? & ? & _ & H). discriminate.
  - intros [= <- <-]. split; [reflexivity | now apply String.eqb_neq].
Qed.

(** When [add_global_args] returns, it has written lines of output only,
    and on a pull_request event both revisions are there. *)
Lemma add_global_args_Ok environ host workflow args github_repository s g s' :
  add_global_args environ host workflow args github_repository s = (Ok g, s') ->
  silent_step s s' /\
  (environ_get_or environ "GITHUB_EVENT_NAME" "" = "pull_request" ->
   environ_get_or environ "GITHUB_BASE_SHA" "" <> "" /\
   environ_get_or environ "GITHUB_SHA" "" <> "").
Proof.
  unfold add_global_args.
  destruct (String.eqb (environ_get_or environ "GITHUB_EVENT_NAME" "") "pull_request") eqn:E.
  - rewrite bind_print.
    destruct (negb (truthy (VStr (environ_get_or environ "GITHUB_BASE_SHA" "")))
              || negb (truthy (VStr (environ_get_or environ "GITHUB_SHA" "")))) eqn:Esha.
    + rewrite bind_print. intros H.
      apply bind_Ok_inv in H as (? & ? & _ & H). discriminate.
    + rewrite !bind_print, !wrote_wrote. intros [= <- <-]. split.
      * apply silent_step_wrote. repeat constructor.
      * intros _. apply orb_false_iff in Esha as [Hb Hh].
        apply negb_false_iff in Hb, Hh. split; now apply truthy_VStr_inv.
  - rewrite bind_print. intros [= <- <-]. split.
    + apply silent_step_wrote. repeat constructor.
    + intros Hev. rewrite Hev in E. discriminate.
Qed.

(** When [main] reaches the scan, it has written lines of output only; the
    event is no pull_request_review, and on a pull_request event both
    revisions are there. *)
Lemma main_until_scan_Ok w s l s1 :
  main_until_scan w s = (Ok l, s1) ->
  silent_step s s1 /\
  environ_get_or (environ w) "GITHUB_EVENT_NAME" "" <> "pull_request_review" /\
  (environ_get_or (environ w) "GITHUB_EVENT_NAME" "" = "pull_request" ->
   environ_get_or (environ w) "GITHUB_BASE_SHA" "" <> "" /\
   environ_get_or (environ w) "GITHUB_SHA" "" <> "").
Proof.
  unfold main_until_scan. rewrite bind_log, bind_print, wrote_wrote. intros H.
  apply bind_Ok_inv in H as (args & s2 & Hargs & H).
  apply bind_Ok_inv in H as ([github_repository pr_number] & s3 & Hcontext & H).
  rewrite bind_log in H.
  destruct (negb (truthy (VStr (environ_get_or (environ w) "INPUT_WORKFLOW" "")))).
  { rewrite bind_print in H. discriminate. }
  apply bind_Ok_inv in H as (? & s4 & Hreview & H).
  apply handle_pull_request_review_Ok in Hreview as [-> Hevent].
  apply bind_Ok_inv in H as (global_args & s5 & Hglobal & H).
  apply add_global_args_Ok in Hglobal as [Hglobal Hsha].
  apply bind_Ok_inv in H as (workflow_cli_args & s6 & Hcli & H).
  rewrite bind_print in H.
  apply bind_Ok_inv in H as (cmd & s7 & Hcmd & H).
  rewrite bind_print in H. injection H as <- <-.
  split; [|split; assumption].
  assert (Hcli' : silent_step s5 s6).
  { destruct (String.eqb (environ_get_or (environ w) "INPUT_WORKFLOW" "") "risk_flagger").
    - eapply silent_step_run; [apply add_risk_flagger_args_writes | exact Hcli].
    - injection Hcli as <- <-. apply silent_step_refl. }
  apply silent_step_then; [repeat constructor|].
  eapply silent_step_trans;
    [|eapply silent_step_run; [apply join_items_writes with (P := quiet) | exact Hcmd]].
  apply silent_step_then; [repeat constructor|].
  eapply silent_step_trans; [|exact Hcli'].
  eapply silent_step_trans; [|exact Hglobal].
  apply silent_step_then; [repeat constructor|].
  eapply silent_step_trans;
    [|eapply silent_step_run; [apply get_github_context_writes | exact Hcontext]].
  eapply silent_step_trans;
    [|eapply silent_step_run; [apply parse_workflow_args_writes | exact Hargs]].
  apply silent_step_wrote. simpl. repeat constructor.
Qed.

Lemma main_until_scan_writes w :
  writes
    (event_ok (fun sha state =>
                 sha = environ_get_or (environ w) "GITHUB_SHA" "" /\ sha <> "" /\
                 (state = "error" \/
                  environ_get_or (environ w) "GITHUB_EVENT_NAME" "" = "pull_request_review"))
              False)
    (fun e => is_Exception e = true \/ e = SystemExit 1 \/
              (e = SystemExit 0 /\
               environ_get_or (environ w) "GITHUB_EVENT_NAME" "" = "pull_request_review"))
    (main_until_scan w).
Proof.
  unfold main_until_scan.
  repeat first
    [ writes_step
    | eapply writes_weaken; [| |apply parse_workflow_args_writes]
    | eapply writes_weaken; [| |apply get_github_context_writes]
    | eapply writes_weaken; [| |apply handle_pull_request_review_writes]
    | eapply writes_weaken; [| |apply add_global_args_writes]
    | eapply writes_weaken; [| |apply add_risk_flagger_args_writes]
    | eapply writes_weaken; [| |apply join_items_writes with (P := quiet)] ];
    simpl; auto;
    try (intros e; apply event_ok_impl; tauto);
    try (intros e He; tauto).
  intros e [Hev [-> | ->]]; auto.
Qed.

(** The scan that exits 0: its output is shown and returned. *)
Lemma run_scan_exit_0 w l output_content s :
  run w (cmd l) = Answer (0%Z, output_content) ->
  run_scan w l s
  = (Ok output_content,
     wrote s [EPrint "Executing fraim command..."; ERun (cmd l);
              EPrint "Fraim command completed with exit code: 0";
              EPrint "=== Fraim Command Output ==="; EPrint output_content;
              EPrint "=== End Fraim Output ==="]).
Proof.
  intros Hrun. unfold run_scan. apply try_except_Ok.
  rewrite bind_print, bind_emit, Hrun. cbn [ask]. rewrite bind_ret.
  rewrite !bind_print, !wrote_wrote. reflexivity.
Qed.

Lemma run_scan_writes w l :
  writes (event_ok (fun _ _ => False) True) (fun e => is_Exception e = true) (run_scan w l).
Proof.
  unfold run_scan. eapply writes_try_except with (R1 := fun e => is_Exception e = true).
  - writes_auto.
  - intros e He. rewrite He. writes_auto.
Qed.

(** Line 217: main passes five arguments to a function of six parameters,
    so the call raises before the body of the function runs. *)
Lemma handle_pull_request_block_five_arguments
    environ host (l : Locals) (security_findings_found : bool) s :
  handle_pull_request_block environ host (gate_actuals l security_findings_found) s
  = (Raise (TypeError
       "handle_pull_request_block() missing 1 required positional argument: 'pr_number'"), s).
Proof. reflexivity. Qed.

Lemma check_output_for_risk_findings_run output_content s :
  check_output_for_risk_findings output_content s
  = (Ok (contains MARKER output_content),
     wrote s (if contains MARKER output_content
              then [EPrint "::debug::Security risks detected"] else [])).
Proof.
  unfold check_output_for_risk_findings. destruct (contains MARKER output_content).
  - now rewrite bind_log.
  - now rewrite wrote_nil.
Qed.

Lemma gate_run w l output_content s :
  gate w l output_content s
  = (Raise (TypeError
       "handle_pull_request_block() missing 1 required positional argument: 'pr_number'"),
     wrote s (if contains MARKER output_content
              then [EPrint "::debug::Security risks detected"] else [])).
Proof.
  unfold gate. erewrite bind_run by apply check_output_for_risk_findings_run.
  unfold bind. now rewrite handle_pull_request_block_five_arguments.
Qed.

Lemma gate_writes w l output_content :
  writes quiet (fun e => is_Exception e = true) (gate w l output_content).
Proof.
  intros s. rewrite gate_run. eexists. repeat split; simpl; eauto.
  - destruct (contains MARKER output_content); repeat constructor.
  - now intros e [= <-].
Qed.

Lemma set_output_writes w name value : writes quiet (fun _ => False) (set_output w name value).
Proof. unfold set_output. writes_auto. Qed.

Lemma report_writes w security_findings_found :
  writes quiet (fun _ => False) (report w security_findings_found).
Proof.
  unfold report, find_results.
  repeat first [ writes_step | apply set_output_writes ]; simpl; auto.
Qed.

(** Every status check [main] writes is on the commit [GITHUB_SHA], and is
    of state error unless the event is a pull_request_review. *)
Lemma main_writes w :
  writes
    (event_ok (fun sha state =>
                 sha = environ_get_or (environ w) "GITHUB_SHA" "" /\ sha <> "" /\
                 (state = "error" \/
                  environ_get_or (environ w) "GITHUB_EVENT_NAME" "" = "pull_request_review"))
              True)
    (fun e => is_Exception e = true \/ e = SystemExit 1 \/
              (e = SystemExit 0 /\
               environ_get_or (environ w) "GITHUB_EVENT_NAME" "" = "pull_request_review"))
    (main w).
Proof.
  unfold main.
  repeat first
    [ writes_step
    | eapply writes_weaken; [| |apply main_until_scan_writes]
    | eapply writes_weaken; [| |apply run_scan_writes]
    | eapply writes_weaken; [| |apply gate_writes]
    | eapply writes_weaken; [| |apply report_writes] ];
    simpl; auto;
    try (intros e; apply event_ok_impl; tauto);
    try (intros e He; tauto).
Qed.

(** C2: [main] calls [handle_pull_request_block] with five arguments, and
    the function has six parameters without defaults.  Whenever [main]
    reaches the scan and the scan exits 0 (on a pull_request event and on
    any other), the call raises [TypeError] where it stands, [main] ends
    with it and has written no status check; and whatever the invocation,
    a status check [main] writes is of state error unless the event is a
    pull_request_review: the success and failure checks of
    [handle_pull_request_block] are never written. *)
Theorem gate_call_raises_TypeError (w : World) (s : State) :
  (forall l security_findings_found s0,
     handle_pull_request_block (environ w) (host w) (gate_actuals l security_findings_found) s0
     = (Raise (TypeError
          "handle_pull_request_block() missing 1 required positional argument: 'pr_number'"),
        s0)) /\
  (forall l s1 output_content,
     main_until_scan w s = (Ok l, s1) ->
     run w (cmd l) = Answer (0%Z, output_content) ->
     exists tr,
       main w s
       = (Raise (TypeError
            "handle_pull_request_block() missing 1 required positional argument: 'pr_number'"),
          wrote s tr) /\
       status_checks tr = []) /\
  (exists o tr,
     main w s = (o, wrote s tr) /\
     Forall (fun ev => match ev with
                       | EStatus _ _ state _ _ =>
                           state = "error" \/
                           environ_get_or (environ w) "GITHUB_EVENT_NAME" ""
                           = "pull_request_review"
                       | _ => True
                       end) tr).
Proof.
  split; [intros; apply handle_pull_request_block_five_arguments|]. split.
  - intros l s1 output_content Hmain Hrun.
    destruct (main_until_scan_Ok _ _ _ _ Hmain) as ((tr1 & -> & Hquiet) & _).
    unfold main. erewrite bind_run by exact Hmain.
    erewrite bind_run by (apply run_scan_exit_0; exact Hrun).
    unfold bind at 1. rewrite gate_run, !wrote_wrote.
    eexists. split; [reflexivity|].
    rewrite !status_checks_app, (quiet_no_status _ Hquiet).
    now destruct (contains MARKER output_content).
  - destruct (main w s) as [o s'] eqn:E.
    destruct (writes_run _ _ _ _ _ _ (main_writes w) E) as (tr & -> & Hok & _).
    exists o, tr. split; [reflexivity|].
    eapply Forall_impl; [exact Hok|]. intros [] H; simpl in *; tauto.
Qed.

Lemma gate_call_raises_TypeError_witness :
  exists tr,
    main scenario_B (initial [])
    = (Raise (TypeError
         "handle_pull_request_block() missing 1 required positional argument: 'pr_number'"),
       wrote (initial []) tr) /\
    status_checks tr = [].
Proof.
  eapply (proj1 (proj2 (gate_call_raises_TypeError scenario_B (initial [])))).
  - vm_compute. reflexivity.
  - reflexivity.
Defined.

(** C3 at scenario B, where the code departs from it: the invocation ends
    with [TypeError] and exit status 1 instead of passing.  No status
    check is written; and the gate itself, called with the sixth argument
    [main] leaves out, takes the branch of the claim. *)
Lemma scenario_B_raises_TypeError :
  fst (main scenario_B (initial []))
  = Raise (TypeError
      "handle_pull_request_block() missing 1 required positional argument: 'pr_number'") /\
  exit_status (main scenario_B) (initial []) = 1%Z /\
  status_checks (trace (snd (main scenario_B (initial [])))) = [] /\
  handle_pull_request_block (environ scenario_B) (host scenario_B)
    [ADict (list_to_map [("should-block-pull-request", VBool true); ("approver", VStr "alice")]);
     AVal (VStr "risk_flagger"); AVal (VBool true); AVal (VBool false);
     AVal (VStr "octo/app"); AVal (VInt 7)]
    (initial [])
  = (Ok tt, wrote (initial []) [EPrint "No security risks found, allowing PR to proceed"]).
Proof. repeat split; vm_compute; reflexivity. Qed.




(** ** Missing revisions *)

(** The status check is written when the token, the repository and the
    head revision are there and the host takes the three calls. *)
Lemma create_status_check_run environ host state description github_repository context s :
  truthy (github_token environ) = true ->
  github_repository <> "" ->
  environ_get_or environ "GITHUB_SHA" "" <> "" ->
  get_repo host github_repository = None ->
  get_commit host github_repository (environ_get_or environ "GITHUB_SHA" "") = None ->
  create_status host github_repository (environ_get_or environ "GITHUB_SHA" "") state
    description context = None ->
  create_status_check environ host state description github_repository context s
  = (Ok tt,
     wrote s [EPrint ("Creating status check: " +:+ github_repository +:+ " - "
                      +:+ environ_get_or environ "GITHUB_SHA" "" +:+ " - " +:+ description
                      +:+ " - " +:+ context);
              EStatus github_repository (environ_get_or environ "GITHUB_SHA" "") state
                description context;
              EPrint ("::debug::Created status check: " +:+ state +:+ " - " +:+ description)]).
Proof.
  intros Htoken Hrepo Hhead Hget_repo Hget_commit Hcreate.
  unfold create_status_check. apply try_except_Ok.
  erewrite bind_run by (now apply get_github_client_run).
  rewrite (truthy_VStr _ Hrepo), (truthy_VStr _ Hhead). cbn [negb orb].
  rewrite bind_print, Hget_repo, Hget_commit, Hcreate. cbn [call].
  rewrite !bind_ret, bind_emit. unfold log, print, emit. simpl.
  unfold wrote. simpl. now rewrite <- !app_assoc.
Qed.

(** C9, as the code has it: on a pull_request event with the base or the
    head revision missing, the invocation ends with a non-zero exit status
    and runs no scan; a status check it writes is of state error and on
    the head revision, so none is written when the head revision is the
    one missing.  When [add_global_args] is reached with the head revision,
    the repository and a token there and the host takes the calls, it
    writes the error-state status check and exits with status 1. *)
Theorem missing_revision_aborts_before_scan (w : World) (s : State) :
  environ_get_or (environ w) "GITHUB_EVENT_NAME" "" = "pull_request" ->
  environ_get_or (environ w) "GITHUB_BASE_SHA" "" = "" \/
  environ_get_or (environ w) "GITHUB_SHA" "" = "" ->
  (exists e tr,
     main w s = (Raise e, wrote s tr) /\
     exit_status (main w) s <> 0%Z /\
     scans tr = [] /\
     Forall (fun ev => match ev with
                       | EStatus _ sha state _ _ =>
                           state = "error" /\
                           sha = environ_get_or (environ w) "GITHUB_SHA" "" /\ sha <> ""
                       | _ => False
                       end) (status_checks tr) /\
     (environ_get_or (environ w) "GITHUB_SHA" "" = "" -> status_checks tr = [])) /\
  (forall workflow args github_repository s0,
     let head := environ_get_or (environ w) "GITHUB_SHA" "" in
     let error_msg :=
       "Missing base or head SHA for PR diff scanning. GITHUB_BASE_SHA: "
       +:+ environ_get_or (environ w) "GITHUB_BASE_SHA" "" +:+ ", GITHUB_SHA: " +:+ head in
     head <> "" ->
     github_repository <> "" ->
     truthy (github_token (environ w)) = true ->
     get_repo (host w) github_repository = None ->
     get_commit (host w) github_repository head = None ->
     create_status (host w) github_repository head "error" error_msg ("fraim/" +:+ workflow)
     = None ->
     add_global_args (environ w) (host w) workflow args github_repository s0
     = (Raise (SystemExit 1),
        wrote s0 [EPrint "Scanning PR diff using --diff mode...";
                  EPrint ("ERROR: " +:+ error_msg);
                  EPrint ("Creating status check: " +:+ github_repository +:+ " - " +:+ head
                          +:+ " - " +:+ error_msg +:+ " - " +:+ "fraim/" +:+ workflow);
                  EStatus github_repository head "error" error_msg ("fraim/" +:+ workflow);
                  EPrint ("::debug::Created status check: error - " +:+ error_msg)])).
Proof.
  intros Hevent Hmissing. split.
  - destruct (main_until_scan w s) as [[l|e] s1] eqn:E.
    { destruct (main_until_scan_Ok _ _ _ _ E) as (_ & _ & Hsha).
      destruct (Hsha Hevent) as [Hbase Hhead]. destruct Hmissing; contradiction. }
    destruct (writes_run _ _ _ _ _ _ (main_until_scan_writes w) E) as (tr & -> & Hok & HR).
    assert (Hmain : main w s = (Raise e, wrote s tr))
      by (unfold main, bind at 1; now rewrite E).
    exists e, tr. split; [exact Hmain|]. split; [|split; [|split]].
    + unfold exit_status. rewrite Hmain. simpl.
      destruct (HR e eq_refl) as [He | [-> | [_ Hreview]]].
      * now rewrite (is_Exception_exit_status _ He).
      * discriminate.
      * rewrite Hevent in Hreview. discriminate.
    + exact (event_ok_no_scan _ _ Hok).
    + eapply Forall_impl; [exact (status_checks_ok _ _ _ Hok)|].
      intros [] H; simpl in *; try contradiction.
      destruct H as (Hsha & Hne & [Hstate | Hreview]); [auto|].
      rewrite Hevent in Hreview. discriminate.
    + intros Hhead. pose proof (status_checks_ok _ _ _ Hok) as Hst.
      destruct (status_checks tr) as [|ev rest]; [reflexivity|].
      inversion Hst as [|? ? Hev _]. destruct ev; try contradiction.
      destruct Hev as (-> & Hne & _). contradiction.
  - intros workflow args github_repository s0 head error_msg
      Hhead Hrepo Htoken Hget_repo Hget_commit Hcreate.
    unfold add_global_args. rewrite Hevent. cbn [String.eqb Ascii.eqb Bool.eqb andb].
    rewrite bind_print.
    assert (Hbase : environ_get_or (environ w) "GITHUB_BASE_SHA" "" = "")
      by (destruct Hmissing; [assumption | contradiction]).
    assert (Htest : negb (truthy (VStr (environ_get_or (environ w) "GITHUB_BASE_SHA" "")))
                    || negb (truthy (VStr (environ_get_or (environ w) "GITHUB_SHA" ""))) = true)
      by (now rewrite Hbase).
    rewrite Htest. fold head error_msg. rewrite bind_print.
    erewrite bind_run by (apply create_status_check_run; assumption).
    rewrite !wrote_wrote. reflexivity.
Qed.

Lemma missing_revision_aborts_before_scan_witness :
  exists e tr,
    main scenario_no_head (initial []) = (Raise e, wrote (initial []) tr) /\
    exit_status (main scenario_no_head) (initial []) <> 0%Z /\
    scans tr = [] /\
    Forall (fun ev => match ev with
                      | EStatus _ sha state _ _ =>
                          state = "error" /\
                          sha = environ_get_or (environ scenario_no_head) "GITHUB_SHA" ""
                          /\ sha <> ""
                      | _ => False
                      end) (status_checks tr) /\
    (environ_get_or (environ scenario_no_head) "GITHUB_SHA" "" = "" -> status_checks tr = []).
Proof.
  apply (proj1 (missing_revision_aborts_before_scan scenario_no_head (initial [])
                  eq_refl (or_intror eq_refl))).
Defined.

(** C9 as the specification words it fails where the head revision is the
    one missing: the invocation exits with status 1 before the scan and
    has written no status check.  With the base revision missing it
    writes one. *)
Lemma missing_head_revision_writes_no_status_check :
  fst (main scenario_no_head (initial [])) = Raise (SystemExit 1) /\
  exit_status (main scenario_no_head) (initial []) = 1%Z /\
  scans (trace (snd (main scenario_no_head (initial [])))) = [] /\
  status_checks (trace (snd (main scenario_no_head (initial [])))) = [] /\
  status_checks (trace (snd (main scenario_no_base (initial []))))
  = [EStatus "octo/app" "head" "error"
       "Missing base or head SHA for PR diff scanning. GITHUB_BASE_SHA: , GITHUB_SHA: head"
       "fraim/risk_flagger"].
Proof. repeat split; vm_compute; reflexivity. Qed.

(** ** The embedding on small inputs *)

Example split_org_team : split "/" "octo/security-team" = ["octo"; "security-team"].
Proof. reflexivity. Qed.

Example split_trailing_slash : split "/" "octo/" = ["octo"; ""].
Proof. reflexivity. Qed.

Example clean_team_name_of_handle :
  fst (clean_team_name (VStr "@octo/security-team") (initial [])) = Ok "security-team".
Proof. reflexivity. Qed.

Example title_of_level : Py.title "eRROR" = "Error" /\ Py.title "not-a-level" = "Not-A-Level".
Proof. split; reflexivity. Qed.

Example true_equals_one : py_eq (VInt 1) (VBool true) = true /\ py_eq (VStr "true") (VBool true) = false.
Proof. split; reflexivity. Qed.

Example missing_two_arguments :
  missing_arguments 4
  = TypeError ("handle_pull_request_block() missing 2 required positional arguments: "
               +:+ "'github_repository' and 'pr_number'").
Proof. reflexivity. Qed.

(** Scenario A of the specification: one run, rule sql-injection with its
    help text, one result of level error at app.py, lines 10 to 12. *)
Example scenario_A_annotation :
  create_annotations
    (processor (document "fraim" [result_at (Some "sql-injection") (Some "error")
                                    "app.py" 10 12 None]))
    false (initial [])
  = (Ok tt,
     wrote (initial [])
       [EPrint "::error file=app.py,line=10,col=1::sql-injection: query built from user input";
        EPrint "::debug::Created 1 annotations"]).
Proof. reflexivity. Qed.

Example scenario_A_comment :
  let body :=
    _build_comment_body
      (processor (document "fraim" [result_at (Some "sql-injection") (Some "error")
                                      "app.py" 10 12 None]))
      (get_results (document "fraim" [result_at (Some "sql-injection") (Some "error")
                                        "app.py" 10 12 None])) in
  contains "🚨 **Errors:** 1" body = true /\
  contains "**app.py** (1 issue)" body = true /\
  contains "**Lines:** 10-12" body = true /\
  contains "**Help:** Use parameterized queries" body = true.
Proof. repeat split; vm_compute; reflexivity. Qed.

(** A rule of one run is not seen from another run. *)
Example rules_are_per_run :
  map rule_name
    (get_results
       {| Sarif_runs :=
            Some [{| Run_tool :=
                       Some {| Tool_driver :=
                                 Some {| Driver_name := None; Driver_version := None;
                                         Driver_rules :=
                                           Some [{| Rule_name := Some "sql-injection";
                                                    Rule_help := None |}] |} |};
                     Run_results := None |};
                  {| Run_tool := None;
                     Run_results :=
                       Some [result_at (Some "sql-injection") None "app.py" 1 1 None] |}] |})
  = ["unknown-rule"].
Proof. reflexivity. Qed.

(** A group approver: one member's approval is enough. *)
Example team_member_approval :
  fst (check_approver_approval (environ_pr "base" "head")
         {| get_repo := fun _ => None;
            get_pull := fun _ _ => None;
            get_reviews := fun _ _ => Answer [approved_by "bob"];
            get_issue_comments_error := None;
            create_issue_comment_error := None;
            edit_error := None;
            get_organization := fun _ => None;
            get_team_by_slug := fun _ _ => Answer 42%Z;
            get_members := fun _ _ => Answer ["alice"; "bob"];
            get_commit := fun _ _ => None;
            create_status := fun _ _ _ _ _ => None |}
         (VStr "@security-team") "octo/app" (VInt 7) (initial []))
  = Ok true.
Proof. reflexivity. Qed.

(** * Further properties *)

Lemma try_except_Raise {A} (m : M A) handler s e s1 :
  m s = (Raise e, s1) ->
  try_except m handler s
  = match handler e with Some k => k s1 | None => (Raise e, s1) end.
Proof. intros E. unfold try_except. now rewrite E. Qed.

Lemma bind_fail {A B} (m : M A) (k : A -> M B) s e s1 :
  m s = (Raise e, s1) -> bind m k s = (Raise e, s1).
Proof. intros E. unfold bind. now rewrite E. Qed.

Lemma get_github_client_fail environ s :
  truthy (github_token environ) = false ->
  get_github_client environ s = (Raise no_token, s).
Proof. intros H. unfold get_github_client. now rewrite H. Qed.

Lemma log_run message s : log message s = (Ok tt, wrote s [EPrint ("::debug::" +:+ message)]).
Proof. reflexivity. Qed.

Lemma print_run text s : print text s = (Ok tt, wrote s [EPrint text]).
Proof. reflexivity. Qed.

Lemma status_checks_wrote s tr : status_checks (trace (wrote s tr)) = status_checks (trace s) ++ status_checks tr.
Proof. apply status_checks_app. Qed.

(** ** src/github_utils.py *)

Lemma try_except_bind_run {A B} (m : M A) (k : A -> M B) handler s a s1 :
  m s = (Ok a, s1) -> try_except (bind m k) handler s = try_except (k a) handler s1.
Proof. intros E. unfold try_except. now rewrite (bind_run _ _ _ _ _ E). Qed.

Lemma bind_call_None {B} (k : unit -> M B) s : bind (call None) k s = k tt s.
Proof. reflexivity. Qed.

Lemma bind_call_Some {B} f (k : unit -> M B) s : bind (call (Some f)) k s = (Raise (exn_of f), s).
Proof. reflexivity. Qed.

Lemma bind_ask_Answer {A B} (a : A) (k : A -> M B) s : bind (ask (Answer a)) k s = k a s.
Proof. reflexivity. Qed.

Lemma bind_ask_Failure {A B} f (k : A -> M B) s :
  bind (ask (Failure f)) k s = (Raise (exn_of f), s).
Proof. reflexivity. Qed.

Lemma create_status_check_posts
    (environ : gmap string string) (host : Host)
    (state description github_repository context : string) (s : State) :
  let sha := environ_get_or environ "GITHUB_SHA" "" in
  exists tr,
    create_status_check environ host state description github_repository context s
    = (Ok tt, wrote s tr) /\
    status_checks tr
    = if truthy (github_token environ)
         && negb (String.eqb github_repository "") && negb (String.eqb sha "")
         && match get_repo host github_repository, get_commit host github_repository sha,
                  create_status host github_repository sha state description context with
            | None, None, None => true
            | _, _, _ => false
            end
      then [EStatus github_repository sha state description context]
      else [].
Proof.
  intros sha. unfold create_status_check.
  destruct (truthy (github_token environ)) eqn:Htoken; cbn [andb].
  2:{ erewrite try_except_Raise by (apply bind_fail, get_github_client_fail, Htoken).
      cbn. eexists. split; [apply log_run|reflexivity]. }
  erewrite try_except_bind_run by (apply get_github_client_run, Htoken).
  change (truthy (VStr github_repository)) with (negb (String.eqb github_repository "")).
  change (truthy (VStr (environ_get_or environ "GITHUB_SHA" "")))
    with (negb (String.eqb sha "")).
  fold sha.
  destruct (String.eqb github_repository ""); cbn [negb orb andb].
  { eexists. split; [apply try_except_Ok, log_run | reflexivity]. }
  destruct (String.eqb sha ""); cbn [negb orb andb].
  { eexists. split; [apply try_except_Ok, log_run | reflexivity]. }
  destruct (get_repo host github_repository) as [f|].
  { erewrite try_except_Raise by (rewrite bind_print, bind_call_Some; reflexivity).
    destruct f; cbn [exn_of is_GithubException is_Exception];
      rewrite log_run, wrote_wrote; eexists; (split; reflexivity). }
  destruct (get_commit host github_repository sha) as [f|].
  { erewrite try_except_Raise
      by (rewrite bind_print, bind_call_None, bind_call_Some; reflexivity).
    destruct f; cbn [exn_of is_GithubException is_Exception];
      rewrite log_run, wrote_wrote; eexists; (split; reflexivity). }
  destruct (create_status host github_repository sha state description context) as [f|].
  { erewrite try_except_Raise
      by (rewrite bind_print, !bind_call_None, bind_call_Some; reflexivity).
    destruct f; cbn [exn_of is_GithubException is_Exception];
      rewrite log_run, wrote_wrote; eexists; (split; reflexivity). }
  erewrite try_except_Ok
    by (rewrite bind_print, !bind_call_None, bind_emit, log_run, !wrote_wrote; reflexivity).
  eexists. split; reflexivity.
Qed.

(** [create_status_check] always returns.  It writes the status check, on
    the commit [GITHUB_SHA] and with the state, description and context it
    was given, exactly when a token, the repository and [GITHUB_SHA] are
    there and the host takes the three calls; in every other case it writes
    lines of output only. *)
Theorem create_status_check_one_or_none
    (environ : gmap string string) (host : Host)
    (state description github_repository context : string) (s : State) :
  let sha := environ_get_or environ "GITHUB_SHA" "" in
  exists tr,
    create_status_check environ host state description github_repository context s
    = (Ok tt, wrote s tr) /\
    status_checks tr
    = if truthy (github_token environ)
         && negb (String.eqb github_repository "") && negb (String.eqb sha "")
         && match get_repo host github_repository, get_commit host github_repository sha,
                  create_status host github_repository sha state description context with
            | None, None, None => true
            | _, _, _ => false
            end
      then [EStatus github_repository sha state description context]
      else [].
Proof. apply create_status_check_posts. Qed.

(** The token of the client is [GH_TOKEN] when it is set and not empty,
    else [GITHUB_TOKEN] when that is set and not empty; with neither the
    call raises [ValueError]. *)
Theorem get_github_client_token (environ : gmap string string) (s : State) :
  get_github_client environ s
  = match environ !! "GH_TOKEN", environ !! "GITHUB_TOKEN" with
    | Some gh, other =>
        if negb (String.eqb gh "") then (Ok (GithubClient (VStr gh)), s)
        else match other with
             | Some t => if negb (String.eqb t "") then (Ok (GithubClient (VStr t)), s)
                         else (Raise (ValueError "No GitHub token available"), s)
             | None => (Raise (ValueError "No GitHub token available"), s)
             end
    | None, Some t =>
        if negb (String.eqb t "") then (Ok (GithubClient (VStr t)), s)
        else (Raise (ValueError "No GitHub token available"), s)
    | None, None => (Raise (ValueError "No GitHub token available"), s)
    end.
Proof.
  unfold get_github_client, github_token, py_or, environ_get.
  destruct (environ !! "GH_TOKEN") as [gh|], (environ !! "GITHUB_TOKEN") as [t|];
    cbn [truthy];
    try destruct (String.eqb gh "") eqn:Egh; try destruct (String.eqb t "") eqn:Et;
    repeat (progress (cbn [negb truthy]; rewrite ?Egh, ?Et)); reflexivity.
Qed.

(** ** Team approvers *)

Lemma contains_char_eq (c : ascii) (s : string) :
  contains (String c "") s
  = match s with
    | EmptyString => false
    | String a rest => Ascii.eqb c a || contains (String c "") rest
    end.
Proof.
  destruct s as [|a rest]; [reflexivity|]. rewrite contains_eq. f_equal.
  simpl. destruct (ascii_dec c a) as [->|n].
  - rewrite Ascii.eqb_refl. now destruct rest.
  - symmetry. now apply Ascii.eqb_neq.
Qed.

Lemma split_nonempty c s : split c s <> [].
Proof.
  destruct s as [|a rest]; simpl; [discriminate|].
  destruct (Ascii.eqb a c); [discriminate|]. destruct (split c rest); discriminate.
Qed.

Lemma split_no_separator c s : contains (String c "") s = false -> split c s = [s].
Proof.
  induction s as [|a rest IH]; [reflexivity|]. rewrite contains_char_eq. intros H.
  apply orb_false_iff in H as [Hc Hrest]. simpl. rewrite Ascii.eqb_sym, Hc, (IH Hrest).
  reflexivity.
Qed.

Lemma split_segments c s : Forall (fun seg => contains (String c "") seg = false) (split c s).
Proof.
  induction s as [|a rest IH]; simpl; [repeat constructor|].
  destruct (Ascii.eqb a c) eqn:E.
  - constructor; [reflexivity | exact IH].
  - destruct (split c rest) as [|seg segs]; [repeat constructor; rewrite contains_char_eq|].
    + rewrite Ascii.eqb_sym, E. reflexivity.
    + inversion IH as [|? ? Hseg Hsegs]. constructor; [|exact Hsegs].
      rewrite contains_char_eq, Ascii.eqb_sym, E. exact Hseg.
Qed.

Lemma last_cons_nonempty {A} (a d : A) l : l <> [] -> List.last (a :: l) d = List.last l d.
Proof. destruct l; [contradiction | reflexivity]. Qed.

Lemma split_last_segment c pre rest :
  exists seg segs,
    split c (pre +:+ String c rest) = seg :: segs /\ segs <> [] /\
    List.last segs "" = List.last (split c rest) "".
Proof.
  induction pre as [|a pre IH].
  - change ("" +:+ String c rest) with (String c rest). simpl. rewrite Ascii.eqb_refl.
    exists "", (split c rest). repeat split. apply split_nonempty.
  - change (String a pre +:+ String c rest) with (String a (pre +:+ String c rest)).
    destruct IH as (seg & segs & E & Hne & Hlast). simpl. rewrite E.
    destruct (Ascii.eqb a c).
    + exists "", (seg :: segs). repeat split; [discriminate|].
      now rewrite last_cons_nonempty.
    + exists (String a seg), segs. repeat split; assumption.
Qed.

Lemma last_in {A} (l : list A) d : l <> [] -> In (List.last l d) l.
Proof.
  induction l as [|a l IH]; [contradiction|]. intros _.
  destruct l as [|b l]; [now left|]. right. apply IH. discriminate.
Qed.

(** The slug looked up for an approver holds no ['/']: of [org/team], with
    or without a leading ['@'], it is [team]; of a name without ['/'] it is
    the name less its leading ['@']s. *)
Theorem clean_team_name_is_last_segment (approver : string) (s : State) :
  clean_team_name (VStr approver) s = (Ok (team_slug approver), s) /\
  contains "/" (team_slug approver) = false /\
  (forall org team,
      contains "/" team = false ->
      team_slug (org +:+ "/" +:+ team) = team /\
      team_slug ("@" +:+ org +:+ "/" +:+ team) = team) /\
  (contains "/" approver = false -> team_slug approver = lstrip "@" approver).
Proof.
  split; [reflexivity|]. split; [|split].
  - unfold team_slug. destruct (contains "/" (lstrip "@" approver)) eqn:E; [|exact E].
    pose proof (split_segments "/" (lstrip "@" approver)) as H.
    rewrite Forall_forall in H. apply H. apply list_elem_of_In, last_in, split_nonempty.
  - assert (Hslug : forall a team, contains "/" team = false ->
                      exists pre, lstrip "@" (a +:+ "/" +:+ team) = pre +:+ "/" +:+ team).
    { intros a team _. induction a as [|c a IH].
      - now exists "".
      - change (String c a +:+ "/" +:+ team) with (String c (a +:+ "/" +:+ team)). simpl.
        destruct (Ascii.eqb c "@"); [exact IH|]. now exists (String c a). }
    assert (Hteam : forall a team, contains "/" team = false ->
                      team_slug (a +:+ "/" +:+ team) = team).
    { intros a team Hno. unfold team_slug. destruct (Hslug a team Hno) as [pre ->].
      assert (Hc : contains "/" (pre +:+ "/" +:+ team) = true)
        by (apply contains_spec; now exists pre, team).
      rewrite Hc.
      destruct (split_last_segment "/" pre team) as (seg & segs & E & Hne & Hlast).
      change (pre +:+ "/" +:+ team) with (pre +:+ String "/" team).
      rewrite E, last_cons_nonempty, Hlast, (split_no_separator _ _ Hno) by exact Hne.
      reflexivity. }
    intros org team Hno. split; [now apply Hteam|].
    change ("@" +:+ org +:+ "/" +:+ team) with (String "@" org +:+ "/" +:+ team).
    now apply Hteam.
  - intros Hno. unfold team_slug.
    assert (H : contains "/" (lstrip "@" approver) = false).
    { clear s. induction approver as [|c a IH]; [reflexivity|]. simpl.
      rewrite contains_char_eq in Hno. apply orb_false_iff in Hno as [Hc Ha].
      destruct (Ascii.eqb c "@"); [now apply IH|].
      rewrite contains_char_eq, Hc. exact Ha. }
    now rewrite H.
Qed.

Ltac wrote_done := rewrite ?wrote_wrote; eexists; split; [reflexivity | repeat constructor].

Lemma is_team_approver_run
    (environ : gmap string string) (host : Host) (approver : pyval)
    (github_repository : string) (s : State) :
  exists tr,
    is_team_approver environ host approver github_repository s
    = (Ok match approver with
          | VStr a =>
              negb (String.eqb a "") && negb (String.eqb github_repository "")
              && truthy (github_token environ)
              && succeeded (get_organization host (org_of github_repository))
              && answered (get_team_by_slug host (org_of github_repository) (team_slug a))
          | _ => false
          end,
       wrote s tr) /\
    Forall quiet tr.
Proof.
  unfold is_team_approver.
  destruct (negb (truthy approver) || negb (truthy (VStr github_repository))) eqn:Hin.
  { exists []. rewrite wrote_nil. split; [|constructor]. unfold ret. do 2 f_equal.
    destruct approver as [|b|z|a]; try reflexivity.
    simpl in Hin. destruct (String.eqb a ""); [reflexivity|].
    destruct (String.eqb github_repository ""); [reflexivity | discriminate]. }
  apply orb_false_iff in Hin as [Ha Hr]. apply negb_false_iff in Ha, Hr. simpl in Hr.
  apply negb_true_iff in Hr. rewrite Hr. cbn [negb].
  destruct (truthy (github_token environ)) eqn:Htoken.
  2:{ erewrite try_except_Raise by (apply bind_fail, get_github_client_fail, Htoken).
      cbn [no_token is_Exception]. rewrite bind_log.
      destruct approver; rewrite ?andb_false_r; cbn [andb]; wrote_done. }
  erewrite try_except_bind_run by (apply get_github_client_run, Htoken).
  destruct approver as [|b|z|a]; try discriminate.
  - erewrite try_except_Raise by reflexivity.
    cbn [no_attribute is_Exception]. rewrite bind_log. wrote_done.
  - erewrite try_except_Raise by reflexivity.
    cbn [no_attribute is_Exception]. rewrite bind_log. wrote_done.
  - simpl in Ha. apply negb_true_iff in Ha. rewrite Ha. cbn [negb andb].
    change (clean_team_name (VStr a)) with (@ret string (team_slug a)).
    erewrite try_except_bind_run by reflexivity.
    destruct (get_organization host (org_of github_repository)) as [f|]; cbn [succeeded andb].
    { erewrite try_except_Raise by reflexivity.
      destruct f as [status msg|msg|msg]; cbn [exn_of is_Exception];
        try destruct (status =? 404)%Z; rewrite bind_log; wrote_done. }
    erewrite try_except_bind_run by reflexivity.
    destruct (get_team_by_slug host (org_of github_repository) (team_slug a)) as [id|f];
      cbn [answered].
    + erewrite try_except_Ok by (rewrite bind_ask_Answer, bind_log; reflexivity). wrote_done.
    + erewrite try_except_Raise by reflexivity.
      destruct f as [status msg|msg|msg]; cbn [exn_of is_Exception];
        try destruct (status =? 404)%Z; rewrite bind_log; wrote_done.
Qed.

Lemma get_team_members_run
    (environ : gmap string string) (host : Host) (github_repository team_name : string)
    (s : State) :
  exists tr,
    get_team_members environ host github_repository team_name s
    = (Ok (if truthy (github_token environ)
           then match get_organization host (org_of github_repository),
                      get_team_by_slug host (org_of github_repository) team_name,
                      get_members host (org_of github_repository) team_name with
                | None, Answer _, Answer member_logins => member_logins
                | _, _, _ => []
                end
           else []),
       wrote s tr) /\
    Forall quiet tr.
Proof.
  unfold get_team_members.
  destruct (truthy (github_token environ)) eqn:Htoken.
  2:{ erewrite try_except_Raise by (apply bind_fail, get_github_client_fail, Htoken).
      cbn [no_token is_Exception]. rewrite bind_log. wrote_done. }
  erewrite try_except_bind_run by (apply get_github_client_run, Htoken).
  destruct (get_organization host (org_of github_repository)) as [f|].
  { erewrite try_except_Raise by reflexivity.
    destruct f; cbn [exn_of is_Exception]; rewrite bind_log; wrote_done. }
  erewrite try_except_bind_run by reflexivity.
  destruct (get_team_by_slug host (org_of github_repository) team_name) as [id|f].
  2:{ erewrite try_except_Raise by reflexivity.
      destruct f; cbn [exn_of is_Exception]; rewrite bind_log; wrote_done. }
  erewrite try_except_bind_run by reflexivity.
  destruct (get_members host (org_of github_repository) team_name) as [member_logins|f].
  2:{ erewrite try_except_Raise by reflexivity.
      destruct f; cbn [exn_of is_Exception]; rewrite bind_log; wrote_done. }
  erewrite try_except_Ok by (rewrite bind_ask_Answer, bind_log; reflexivity). wrote_done.
Qed.

(** [is_team_approver] always returns, after lines of output only.  It
    answers [True] exactly when the approver is a string that is not empty,
    the repository is named, a token is there and the host finds both the
    organization of the repository and, in it, the team of the approver's
    slug; a team the host does not find, a failing host and a missing token
    all answer [False]. *)
Theorem is_team_approver_exactly
    (environ : gmap string string) (host : Host) (approver : pyval)
    (github_repository : string) (s : State) :
  exists tr,
    is_team_approver environ host approver github_repository s
    = (Ok match approver with
          | VStr a =>
              negb (String.eqb a "") && negb (String.eqb github_repository "")
              && truthy (github_token environ)
              && succeeded (get_organization host (org_of github_repository))
              && answered (get_team_by_slug host (org_of github_repository) (team_slug a))
          | _ => false
          end,
       wrote s tr) /\
    Forall quiet tr.
Proof. apply is_team_approver_run. Qed.

(** [get_team_members] always returns, after lines of output only: the
    logins the host lists for the team when a token is there and the host
    answers the three calls, and the empty list in every other case. *)
Theorem get_team_members_or_nothing
    (environ : gmap string string) (host : Host) (github_repository team_name : string)
    (s : State) :
  exists tr,
    get_team_members environ host github_repository team_name s
    = (Ok (if truthy (github_token environ)
           then match get_organization host (org_of github_repository),
                      get_team_by_slug host (org_of github_repository) team_name,
                      get_members host (org_of github_repository) team_name with
                | None, Answer _, Answer member_logins => member_logins
                | _, _, _ => []
                end
           else []),
       wrote s tr) /\
    Forall quiet tr.
Proof. apply get_team_members_run. Qed.

(** With a token in the environment [check_approver_approval] returns a
    boolean whatever the host does, having written lines of output only:
    no status check, no comment. *)
Theorem check_approver_approval_returns
    (environ : gmap string string) (host : Host) (approver : pyval)
    (github_repository : string) (pr_number : pyval) (s : State) :
  truthy (github_token environ) = true ->
  exists b tr,
    check_approver_approval environ host approver github_repository pr_number s
    = (Ok b, wrote s tr) /\
    Forall quiet tr.
Proof.
  intros Htoken.
  destruct (check_approver_approval environ host approver github_repository pr_number s)
    as [[b|e] s'] eqn:E.
  - destruct (writes_run _ _ _ _ _ _
                (check_approver_approval_writes environ host approver github_repository pr_number)
                E) as (tr & -> & Hquiet & _).
    now exists b, tr.
  - destruct (check_approver_approval_raises_only_without_token
                environ host approver github_repository pr_number s e) as [_ Hno].
    + now rewrite E.
    + congruence.
Qed.

Lemma check_approver_approval_returns_witness :
  exists b tr,
    check_approver_approval (environ_pr "base" "head") host_down (VStr "alice") "octo/app"
      (VInt 7) (initial [])
    = (Ok b, wrote (initial []) tr) /\
    Forall quiet tr.
Proof.
  apply (check_approver_approval_returns (environ_pr "base" "head") host_down (VStr "alice")
           "octo/app" (VInt 7) (initial [])).
  reflexivity.
Defined.

(** The test of the loop over the reviews for a team. *)
Lemma team_member_approved_result team_members reviews s :
  fst (team_member_approved team_members reviews s) =
  Ok (existsb (fun review => String.eqb (review_state review) "APPROVED"
                             && existsb (String.eqb (review_user_login review)) team_members)
              reviews).
Proof.
  revert s. induction reviews as [|review rest IH]; intros s; [reflexivity|].
  cbn [team_member_approved existsb]. unfold print_review. rewrite bind_print.
  destruct (String.eqb (review_state review) "APPROVED"
            && existsb (String.eqb (review_user_login review)) team_members).
  - reflexivity.
  - apply IH.
Qed.

Ltac run_team_approver :=
  match goal with
  | |- context [try_except (bind (is_team_approver ?e ?h ?a ?r) _) _ ?st] =>
      let tr := fresh "tr" in
      let H := fresh "Hteam" in
      destruct (is_team_approver_run e h a r st) as (tr & H & _);
      erewrite try_except_bind_run by exact H
  end.

Ltac run_team_members :=
  match goal with
  | |- context [try_except (bind (get_team_members ?e ?h ?r ?t) _) _ ?st] =>
      let tr := fresh "tr" in
      let H := fresh "Hmembers" in
      destruct (get_team_members_run e h r t st) as (tr & H & _);
      erewrite try_except_bind_run by exact H
  end.

(** A team approver whose member list comes back empty, or does not come
    back, never approves: the check answers [False] whatever the reviews
    of the pull request are. *)
Theorem team_without_members_never_approves
    (environ : gmap string string) (host : Host) (approver github_repository : string)
    (pr_number : pyval) (s : State) :
  approver <> "" ->
  github_repository <> "" ->
  truthy (github_token environ) = true ->
  get_organization host (org_of github_repository) = None ->
  answered (get_team_by_slug host (org_of github_repository) (team_slug approver)) = true ->
  match get_members host (org_of github_repository) (team_slug approver) with
  | Answer (_ :: _) => False
  | _ => True
  end ->
  fst (check_approver_approval environ host (VStr approver) github_repository pr_number s)
  = Ok false.
Proof.
  intros Ha Hr Htoken Horg Hteam Hmembers.
  unfold check_approver_approval. rewrite bind_log.
  rewrite (truthy_VStr _ Ha), (truthy_VStr _ Hr). cbn [negb].
  destruct (truthy pr_number); cbn [negb]; [|reflexivity].
  erewrite bind_run by (now apply get_github_client_run). cbn [negb client_truthy].
  destruct (get_repo host github_repository) as [f|] eqn:Hrepo.
  { erewrite try_except_Raise by reflexivity. now destruct f. }
  erewrite try_except_bind_run by reflexivity.
  destruct (get_pull host github_repository pr_number) as [f|] eqn:Hpull.
  { erewrite try_except_Raise by reflexivity. now destruct f. }
  erewrite try_except_bind_run by reflexivity.
  run_team_approver.
  rewrite Horg, Hteam, Htoken, (eqb_false_of_ne _ _ Ha), (eqb_false_of_ne _ _ Hr).
  cbn [negb andb succeeded].
  erewrite try_except_bind_run by reflexivity.
  change (clean_team_name (VStr approver)) with (@ret string (team_slug approver)).
  erewrite try_except_bind_run by reflexivity.
  run_team_members.
  rewrite Horg, Htoken.
  destruct (get_team_by_slug host (org_of github_repository) (team_slug approver));
    [|discriminate].
  destruct (get_members host (org_of github_repository) (team_slug approver))
    as [[|member rest]|f]; try contradiction; reflexivity.
Qed.

Lemma team_without_members_never_approves_witness :
  fst (check_approver_approval (environ_pr "base" "head")
         (host_with_team [] [approved_by "alice"]) (VStr "@octo/security-team") "octo/app"
         (VInt 7) (initial []))
  = Ok false.
Proof.
  apply (team_without_members_never_approves (environ_pr "base" "head")
           (host_with_team [] [approved_by "alice"]) "@octo/security-team" "octo/app"
           (VInt 7) (initial [])).
  - discriminate.
  - discriminate.
  - reflexivity.
  - reflexivity.
  - reflexivity.
  - exact I.
Defined.

(** For an approver that names a team of the repository's organization,
    with the pull request, the team's members and the reviews at hand,
    [check_approver_approval] returns [True] exactly when some review has
    state APPROVED and an author who is a member of the team. *)
Theorem team_approver_approved_iff
    (environ : gmap string string) (host : Host) (approver github_repository : string)
    (pr_number : pyval) (members : list string) (reviews : list Review) (s : State) :
  approver <> "" ->
  github_repository <> "" ->
  truthy pr_number = true ->
  truthy (github_token environ) = true ->
  get_repo host github_repository = None ->
  get_pull host github_repository pr_number = None ->
  get_organization host (org_of github_repository) = None ->
  answered (get_team_by_slug host (org_of github_repository) (team_slug approver)) = true ->
  get_members host (org_of github_repository) (team_slug approver) = Answer members ->
  get_reviews host github_repository pr_number = Answer reviews ->
  exists b,
    fst (check_approver_approval environ host (VStr approver) github_repository pr_number s)
    = Ok b /\
    (b = true <->
     exists review, In review reviews /\ review_state review = "APPROVED"
                    /\ In (review_user_login review) members).
Proof.
  intros Ha Hr Hpr Htoken Hrepo Hpull Horg Hteam Hmembers Hreviews.
  exists (existsb (fun review => String.eqb (review_state review) "APPROVED"
                                 && existsb (String.eqb (review_user_login review)) members)
                  reviews).
  split.
  - unfold check_approver_approval. rewrite bind_log.
    rewrite (truthy_VStr _ Ha), (truthy_VStr _ Hr), Hpr. cbn [negb].
    erewrite bind_run by (now apply get_github_client_run). cbn [negb client_truthy].
    rewrite Hrepo, Hpull.
    erewrite try_except_bind_run by reflexivity.
    erewrite try_except_bind_run by reflexivity.
    run_team_approver.
    rewrite Horg, Hteam, Htoken, (eqb_false_of_ne _ _ Ha), (eqb_false_of_ne _ _ Hr).
    cbn [negb andb succeeded].
    erewrite try_except_bind_run by reflexivity.
    change (clean_team_name (VStr approver)) with (@ret string (team_slug approver)).
    erewrite try_except_bind_run by reflexivity.
    run_team_members.
    rewrite Horg, Htoken, Hmembers.
    destruct (get_team_by_slug host (org_of github_repository) (team_slug approver));
      [|discriminate].
    cbn [negb andb succeeded answered].
    destruct members as [|member rest].
    + replace (existsb _ reviews) with false; [reflexivity|].
      symmetry. clear. induction reviews as [|r l IH]; [reflexivity|].
      cbn [existsb]. now rewrite andb_false_r.
    + rewrite Hreviews.
      erewrite try_except_bind_run by reflexivity.
      match goal with |- context [bind (team_member_approved ?m ?r) _] =>
        set (loop := team_member_approved m r) end.
      match goal with |- fst (try_except (bind loop ?k) ?h ?st) = _ =>
        pose proof (team_member_approved_result (member :: rest) reviews st) as Hres;
        fold loop in Hres; destruct (loop st) as [o s3] eqn:E3
      end.
      cbn [fst] in Hres. subst o.
      erewrite try_except_bind_run by exact E3.
      destruct (existsb _ reviews); reflexivity.
  - rewrite existsb_exists. split.
    + intros (review & Hin & Htest). apply andb_true_iff in Htest as [Hstate Hlogin].
      apply String.eqb_eq in Hstate. apply existsb_exists in Hlogin as (m & Hm & Heq).
      apply String.eqb_eq in Heq. exists review. now subst m.
    + intros (review & Hin & Hstate & Hlogin). exists review. split; [exact Hin|].
      apply andb_true_iff. split; [now apply String.eqb_eq|].
      apply existsb_exists. exists (review_user_login review). split; [exact Hlogin|].
      apply String.eqb_refl.
Qed.

Lemma team_approver_approved_iff_witness :
  exists b,
    fst (check_approver_approval (environ_pr "base" "head")
           (host_with_team ["bob"; "carol"]
              [{| review_state := "COMMENTED"; review_user_login := "bob" |};
               approved_by "dave"; approved_by "carol"])
           (VStr "@octo/security-team") "octo/app" (VInt 7) (initial []))
    = Ok b /\
    (b = true <->
     exists review,
       In review [{| review_state := "COMMENTED"; review_user_login := "bob" |};
                  approved_by "dave"; approved_by "carol"]
       /\ review_state review = "APPROVED"
       /\ In (review_user_login review) ["bob"; "carol"]).
Proof.
  apply (team_approver_approved_iff (environ_pr "base" "head")
           (host_with_team ["bob"; "carol"]
              [{| review_state := "COMMENTED"; review_user_login := "bob" |};
               approved_by "dave"; approved_by "carol"])
           "@octo/security-team" "octo/app" (VInt 7) ["bob"; "carol"]
           [{| review_state := "COMMENTED"; review_user_login := "bob" |};
            approved_by "dave"; approved_by "carol"] (initial []));
    first [discriminate | reflexivity].
Defined.

(** ** Computations that do not read the state *)

Lemma uniform_ret {A} P (a : A) : uniform P (ret a).
Proof. exists (Ok a), []. split; [constructor|]. intros s. now rewrite wrote_nil. Qed.

Lemma uniform_raise {A} P e : uniform P (@raise A e).
Proof. exists (Raise e), []. split; [constructor|]. intros s. now rewrite wrote_nil. Qed.

Lemma uniform_emit (P : event -> Prop) ev : P ev -> uniform P (emit ev).
Proof. intros HP. exists (Ok tt), [ev]. split; [now repeat constructor|reflexivity]. Qed.

Lemma uniform_print (P : event -> Prop) text : P (EPrint text) -> uniform P (print text).
Proof. apply uniform_emit. Qed.

Lemma uniform_log (P : event -> Prop) message :
  P (EPrint ("::debug::" +:+ message)) -> uniform P (log message).
Proof. apply uniform_emit. Qed.

Lemma uniform_call P o : uniform P (call o).
Proof. destruct o; [apply uniform_raise | apply uniform_ret]. Qed.

Lemma uniform_ask {A} P (o : answer A) : uniform P (ask o).
Proof. destruct o; [apply uniform_ret | apply uniform_raise]. Qed.

Lemma uniform_bind {A B} P (m : M A) (k : A -> M B) :
  uniform P m -> (forall a, uniform P (k a)) -> uniform P (bind m k).
Proof.
  intros ([a|e] & tr1 & HP1 & Hm) Hk.
  - destruct (Hk a) as (o & tr2 & HP2 & Hka). exists o, (tr1 ++ tr2).
    split; [now apply Forall_app|]. intros s. unfold bind. now rewrite Hm, Hka, wrote_wrote.
  - exists (Raise e), tr1. split; [exact HP1|]. intros s. unfold bind. now rewrite Hm.
Qed.

Lemma uniform_try_except {A} P (m : M A) handler :
  uniform P m ->
  (forall e, match handler e with Some k => uniform P k | None => True end) ->
  uniform P (try_except m handler).
Proof.
  intros ([a|e] & tr1 & HP1 & Hm) Hh.
  - exists (Ok a), tr1. split; [exact HP1|]. intros s. unfold try_except. now rewrite Hm.
  - specialize (Hh e). destruct (handler e) as [k|] eqn:Ek.
    + destruct Hh as (o & tr2 & HP2 & Hk). exists o, (tr1 ++ tr2).
      split; [now apply Forall_app|]. intros s. unfold try_except.
      now rewrite Hm, Ek, Hk, wrote_wrote.
    + exists (Raise e), tr1. split; [exact HP1|]. intros s. unfold try_except.
      now rewrite Hm, Ek.
Qed.

Lemma get_github_client_uniform P environ : uniform P (get_github_client environ).
Proof.
  unfold get_github_client. destruct (negb (truthy (github_token environ)));
    [apply uniform_raise | apply uniform_ret].
Qed.

Ltac uniform_step :=
  match goal with
  | |- uniform _ (bind _ _) => apply uniform_bind; [ | intros ? ]
  | |- uniform _ (ret _) => apply uniform_ret
  | |- uniform _ (raise _) => apply uniform_raise
  | |- uniform _ (print _) => apply uniform_print
  | |- uniform _ (log _) => apply uniform_log
  | |- uniform _ (emit _) => apply uniform_emit
  | |- uniform _ (call _) => apply uniform_call
  | |- uniform _ (ask _) => apply uniform_ask
  | |- uniform _ (get_github_client _) => apply get_github_client_uniform
  | |- uniform _ (try_except _ _) => apply uniform_try_except; [ | intros ? ]
  | |- uniform _ (if ?b then _ else _) => destruct b
  | |- uniform _ (match ?x with _ => _ end) => destruct x
  | |- match (if ?b then _ else _) with _ => _ end => destruct b
  | |- match (match ?x with _ => _ end) with _ => _ end => destruct x
  end.

Ltac uniform_auto := repeat uniform_step; simpl; auto.

Lemma clean_team_name_uniform P approver : uniform P (clean_team_name approver).
Proof. unfold clean_team_name. uniform_auto. Qed.

Lemma get_team_members_uniform environ host github_repository team_name :
  uniform quiet (get_team_members environ host github_repository team_name).
Proof. unfold get_team_members. uniform_auto. Qed.

Lemma is_team_approver_uniform environ host approver github_repository :
  uniform quiet (is_team_approver environ host approver github_repository).
Proof.
  unfold is_team_approver.
  repeat first [ apply clean_team_name_uniform | uniform_step ]; simpl; auto.
Qed.

Lemma team_member_approved_uniform team_members reviews :
  uniform quiet (team_member_approved team_members reviews).
Proof.
  induction reviews as [|review rest IH]; simpl; [apply uniform_ret|].
  unfold print_review. uniform_auto.
Qed.

Lemma user_approved_uniform approver reviews : uniform quiet (user_approved approver reviews).
Proof.
  induction reviews as [|review rest IH]; simpl; [apply uniform_ret|].
  unfold print_review. uniform_auto.
Qed.

Lemma check_approver_approval_uniform environ host approver github_repository pr_number :
  uniform quiet (check_approver_approval environ host approver github_repository pr_number).
Proof.
  unfold check_approver_approval.
  repeat first
    [ apply clean_team_name_uniform
    | apply is_team_approver_uniform
    | apply get_team_members_uniform
    | apply team_member_approved_uniform
    | apply user_approved_uniform
    | uniform_step ];
    simpl; auto.
Qed.

(** ** The review handler and the blocking gate *)

Lemma check_security_risk_comment_run environ host github_repository pr_number s :
  let sha := environ_get_or environ "GITHUB_SHA" "" in
  exists tr,
    check_security_risk_comment environ host github_repository pr_number s
    = (if String.eqb sha "" || String.eqb github_repository "" then Ok false
       else if negb (truthy (github_token environ)) then
              Raise (ValueError "No GitHub token available")
       else Ok (succeeded (get_repo host github_repository)
                && succeeded (get_pull host github_repository pr_number)
                && succeeded (get_issue_comments_error host)
                && existsb (fun comment => contains COMMENT_MARKER (comment_body comment))
                           (comments s)),
       wrote s tr) /\
    Forall quiet tr.
Proof.
  intros sha. unfold check_security_risk_comment. rewrite bind_log.
  change (truthy (VStr (environ_get_or environ "GITHUB_SHA" "")))
    with (negb (String.eqb sha "")).
  change (truthy (VStr github_repository)) with (negb (String.eqb github_repository "")).
  destruct (String.eqb sha ""); cbn [negb orb]; [rewrite bind_log; wrote_done|].
  destruct (String.eqb github_repository ""); cbn [negb orb]; [rewrite bind_log; wrote_done|].
  destruct (truthy (github_token environ)) eqn:Htoken; cbn [negb].
  2:{ erewrite bind_fail by (apply get_github_client_fail, Htoken). wrote_done. }
  erewrite bind_run by (apply get_github_client_run, Htoken). cbn [negb client_truthy].
  destruct (get_repo host github_repository) as [f|].
  { erewrite try_except_Raise by reflexivity.
    destruct f; cbn [exn_of is_GithubException is_Exception]; rewrite bind_log; wrote_done. }
  destruct (get_pull host github_repository pr_number) as [f|].
  { erewrite try_except_Raise by reflexivity.
    destruct f; cbn [exn_of is_GithubException is_Exception]; rewrite bind_log; wrote_done. }
  destruct (get_issue_comments_error host) as [f|].
  { erewrite try_except_Raise by reflexivity.
    destruct f; cbn [exn_of is_GithubException is_Exception]; rewrite bind_log; wrote_done. }
  erewrite try_except_Ok by reflexivity. cbn [succeeded andb comments wrote]. wrote_done.
Qed.

(** [check_security_risk_comment] answers [False] at once when
    [GITHUB_SHA] or the repository is missing; else it raises [ValueError]
    when no token is set; else it answers whether some comment of the pull
    request contains the words Security Risk Review Required, and [False]
    when the host refuses one of the three calls.  It writes lines of
    output only. *)
Theorem check_security_risk_comment_exactly
    (environ : gmap string string) (host : Host) (github_repository : string)
    (pr_number : pyval) (s : State) :
  let sha := environ_get_or environ "GITHUB_SHA" "" in
  exists tr,
    check_security_risk_comment environ host github_repository pr_number s
    = (if String.eqb sha "" || String.eqb github_repository "" then Ok false
       else if negb (truthy (github_token environ)) then
              Raise (ValueError "No GitHub token available")
       else Ok (succeeded (get_repo host github_repository)
                && succeeded (get_pull host github_repository pr_number)
                && succeeded (get_issue_comments_error host)
                && existsb (fun comment => contains COMMENT_MARKER (comment_body comment))
                           (comments s)),
       wrote s tr) /\
    Forall quiet tr.
Proof. apply check_security_risk_comment_run. Qed.

Lemma returned_true_Ok (b : bool) : returned_true (Ok b) = b.
Proof. now destruct b. Qed.

(** The status check a call of [create_status_check] leaves does not
    depend on the state it is called from. *)
Lemma create_status_check_same_status
    environ host state description github_repository context s :
  exists tr,
    create_status_check environ host state description github_repository context s
    = (Ok tt, wrote s tr) /\
    status_checks tr
    = status_checks (trace (snd (create_status_check environ host state description
                                   github_repository context (initial [])))).
Proof.
  destruct (create_status_check_posts environ host state description github_repository
              context s) as (tr & E & H).
  destruct (create_status_check_posts environ host state description github_repository
              context (initial [])) as (tr0 & E0 & H0).
  exists tr. split; [exact E|]. rewrite E0. cbn [snd trace wrote initial app].
  now rewrite H, H0.
Qed.

Lemma check_approver_approval_at environ host approver github_repository pr_number s s1 :
  truthy (github_token environ) = true ->
  exists tr,
    check_approver_approval environ host approver github_repository pr_number s1
    = (Ok (returned_true
             (fst (check_approver_approval environ host approver github_repository
                     pr_number s))),
       wrote s1 tr) /\
    Forall quiet tr.
Proof.
  intros Htoken.
  destruct (check_approver_approval_uniform environ host approver github_repository pr_number)
    as ([b|e] & tr & Hquiet & H).
  - exists tr. rewrite (H s), (H s1). cbn [fst]. now rewrite returned_true_Ok.
  - destruct (check_approver_approval_raises_only_without_token
                environ host approver github_repository pr_number s e) as [_ Hno].
    + now rewrite (H s).
    + congruence.
Qed.

Lemma check_security_risk_comment_at environ host github_repository pr_number s s1 :
  truthy (github_token environ) = true ->
  comments s1 = comments s ->
  exists tr,
    check_security_risk_comment environ host github_repository pr_number s1
    = (Ok (returned_true
             (fst (check_security_risk_comment environ host github_repository pr_number s))),
       wrote s1 tr) /\
    Forall quiet tr.
Proof.
  intros Htoken Hcomments.
  destruct (check_security_risk_comment_run environ host github_repository pr_number s)
    as (tr & E & _).
  destruct (check_security_risk_comment_run environ host github_repository pr_number s1)
    as (tr1 & E1 & Hquiet).
  cbv zeta in E, E1. rewrite Htoken in E, E1. cbn [negb] in E, E1.
  rewrite Hcomments in E1. rewrite E. cbn [fst].
  exists tr1. split; [|exact Hquiet]. rewrite E1.
  destruct (String.eqb (environ_get_or environ "GITHUB_SHA" "") ""
            || String.eqb github_repository ""); [reflexivity|].
  now rewrite returned_true_Ok.
Qed.

(** On a pull_request_review event, with a token, [handle_pull_request_review]
    always ends the invocation with exit status 0.  It writes a status
    check only when blocking is enabled for the risk_flagger workflow and
    the risk comment is found on the pull request: the one
    [create_status_check] writes, with state success when an approver is
    configured and [check_approver_approval] answers [True], else with
    state failure. *)
Theorem review_event_status_check
    (environ : gmap string string) (host : Host) (args : gmap string pyval)
    (workflow : string) (should_block_pr : pyval) (github_repository : string)
    (pr_number : pyval) (s : State) :
  environ_get_or environ "GITHUB_EVENT_NAME" "" = "pull_request_review" ->
  truthy (github_token environ) = true ->
  let approver := dict_get args "approver" in
  let risk :=
    returned_true (fst (check_security_risk_comment environ host github_repository
                          pr_number s)) in
  let approved :=
    truthy approver
    && returned_true (fst (check_approver_approval environ host approver github_repository
                             pr_number s)) in
  let state := if approved then "success" else "failure" in
  let description :=
    if approved then "Security review completed. PR approved by " +:+ py_str approver +:+ "."
    else "Security risks detected! Waiting for approval from "
         +:+ py_str (if truthy approver then approver else VStr "[not specified]") +:+ "." in
  exists tr,
    handle_pull_request_review environ host args workflow should_block_pr github_repository
      pr_number s
    = (Raise (SystemExit 0), wrote s tr) /\
    status_checks tr
    = if py_eq should_block_pr (VBool true) && String.eqb workflow "risk_flagger" && risk
      then status_checks
             (trace (snd (create_status_check environ host state description
                            github_repository ("fraim/" +:+ workflow) (initial []))))
      else [].
Proof.
  intros Hevent Htoken approver risk approved state description.
  unfold handle_pull_request_review. rewrite Hevent, String.eqb_refl.
  destruct (py_eq should_block_pr (VBool true) && String.eqb workflow "risk_flagger");
    cbn [andb].
  2:{ exists []. rewrite wrote_nil. split; reflexivity. }
  rewrite bind_bind, bind_print, bind_bind.
  match goal with |- context [bind (check_security_risk_comment _ _ _ _) _ ?st] =>
    destruct (check_security_risk_comment_at environ host github_repository pr_number s st
                Htoken eq_refl) as (tr1 & E1 & Q1)
  end.
  erewrite bind_run by exact E1. fold risk. destruct risk.
  2:{ rewrite bind_print. rewrite !wrote_wrote. eexists. split; [reflexivity|].
      rewrite !status_checks_app, (quiet_no_status _ Q1). reflexivity. }
  rewrite bind_bind, bind_print, bind_bind. fold approver.
  assert (Happroved : exists tr2,
             (if truthy approver
              then check_approver_approval environ host approver github_repository pr_number
              else ret false)
               (wrote (wrote (wrote s
                  [EPrint "Pull request blocking is enabled for risk_flagger workflow"]) tr1)
                  [EPrint "Security risk comment found, checking for approver approval"])
             = (Ok approved,
                wrote (wrote (wrote (wrote s
                  [EPrint "Pull request blocking is enabled for risk_flagger workflow"]) tr1)
                  [EPrint "Security risk comment found, checking for approver approval"]) tr2)
             /\ Forall quiet tr2).
  { subst approved. destruct (truthy approver); cbn [andb].
    - eapply check_approver_approval_at, Htoken.
    - exists []. rewrite wrote_nil. split; [reflexivity|constructor]. }
  destruct Happroved as (tr2 & E2 & Q2). erewrite bind_run by exact E2.
  subst state description. destruct approved.
  - rewrite bind_bind, bind_print.
    match goal with |- context [bind (create_status_check _ _ ?st ?d ?r ?c) _ ?s0] =>
      destruct (create_status_check_same_status environ host st d r c s0)
        as (tr3 & E3 & H3)
    end.
    erewrite bind_run by exact E3. rewrite !wrote_wrote. eexists. split; [reflexivity|].
    rewrite !status_checks_app, (quiet_no_status _ Q1), (quiet_no_status _ Q2). exact H3.
  - rewrite bind_bind, bind_print.
    match goal with |- context [bind (create_status_check _ _ ?st ?d ?r ?c) _ ?s0] =>
      destruct (create_status_check_same_status environ host st d r c s0)
        as (tr3 & E3 & H3)
    end.
    erewrite bind_run by exact E3. rewrite !wrote_wrote. eexists. split; [reflexivity|].
    rewrite !status_checks_app, (quiet_no_status _ Q1), (quiet_no_status _ Q2). exact H3.
Qed.

Lemma review_event_status_check_witness :
  exists tr,
    handle_pull_request_review environ_review (host_with [approved_by "alice"])
      (list_to_map [("approver", VStr "alice")]) "risk_flagger" (VBool true) "octo/app"
      (VInt 7) (initial [risk_comment])
    = (Raise (SystemExit 0), wrote (initial [risk_comment]) tr) /\
    status_checks tr
    = [EStatus "octo/app" "head" "success" "Security review completed. PR approved by alice."
         "fraim/risk_flagger"].
Proof.
  destruct (review_event_status_check environ_review (host_with [approved_by "alice"])
              (list_to_map [("approver", VStr "alice")]) "risk_flagger" (VBool true)
              "octo/app" (VInt 7) (initial [risk_comment]))
    as (tr & E & H); [reflexivity | reflexivity |].
  exists tr. split; [exact E|]. rewrite H. reflexivity.
Defined.

Lemma check_security_risk_comment_no_token environ host github_repository pr_number s :
  environ_get_or environ "GITHUB_SHA" "" <> "" ->
  github_repository <> "" ->
  truthy (github_token environ) = false ->
  check_security_risk_comment environ host github_repository pr_number s
  = (Raise no_token,
     wrote s [EPrint ("::debug::Checking for security risk comment on commit: "
                      +:+ environ_get_or environ "GITHUB_SHA" "")]).
Proof.
  intros Hsha Hrepo Htoken. unfold check_security_risk_comment. rewrite bind_log.
  rewrite (truthy_VStr _ Hsha), (truthy_VStr _ Hrepo). cbn [negb orb].
  apply bind_fail, get_github_client_fail, Htoken.
Qed.

(** On a pull_request_review event with blocking enabled for the
    risk_flagger workflow, the head revision and the repository known but
    no token set, [handle_pull_request_review] does not end the invocation
    with exit status 0: the look-up of the risk comment raises
    [ValueError] after two lines of output, and no status check is
    written. *)
Theorem review_event_without_token
    (environ : gmap string string) (host : Host) (args : gmap string pyval)
    (should_block_pr : pyval) (github_repository : string) (pr_number : pyval) (s : State) :
  environ_get_or environ "GITHUB_EVENT_NAME" "" = "pull_request_review" ->
  py_eq should_block_pr (VBool true) = true ->
  environ_get_or environ "GITHUB_SHA" "" <> "" ->
  github_repository <> "" ->
  truthy (github_token environ) = false ->
  handle_pull_request_review environ host args "risk_flagger" should_block_pr
    github_repository pr_number s
  = (Raise (ValueError "No GitHub token available"),
     wrote s [EPrint "Pull request blocking is enabled for risk_flagger workflow";
              EPrint ("::debug::Checking for security risk comment on commit: "
                      +:+ environ_get_or environ "GITHUB_SHA" "")]).
Proof.
  intros Hevent Hblock Hsha Hrepo Htoken.
  unfold handle_pull_request_review. rewrite Hevent, String.eqb_refl, Hblock.
  cbn [andb String.eqb Ascii.eqb Bool.eqb]. rewrite bind_bind, bind_print.
  pose proof (check_security_risk_comment_no_token environ host github_repository pr_number
                (wrote s [EPrint "Pull request blocking is enabled for risk_flagger workflow"])
                Hsha Hrepo Htoken) as E.
  erewrite bind_fail by (apply bind_fail; exact E).
  now rewrite wrote_wrote.
Qed.

Lemma review_event_without_token_witness :
  handle_pull_request_review environ_review_no_token (host_with [approved_by "alice"])
    (list_to_map [("approver", VStr "alice")]) "risk_flagger" (VBool true) "octo/app"
    (VInt 7) (initial [risk_comment])
  = (Raise (ValueError "No GitHub token available"),
     wrote (initial [risk_comment])
       [EPrint "Pull request blocking is enabled for risk_flagger workflow";
        EPrint ("::debug::Checking for security risk comment on commit: "
                +:+ environ_get_or environ_review_no_token "GITHUB_SHA" "")]).
Proof.
  apply (review_event_without_token environ_review_no_token (host_with [approved_by "alice"])
           (list_to_map [("approver", VStr "alice")]) (VBool true) "octo/app" (VInt 7)
           (initial [risk_comment])).
  - reflexivity.
  - reflexivity.
  - discriminate.
  - discriminate.
  - reflexivity.
Defined.

(** Called with its six arguments and a token set, [handle_pull_request_block]
    always returns.  It writes a status check only on a pull_request event,
    with blocking enabled for the risk_flagger workflow and findings
    reported: the one [create_status_check] writes, with state success
    when [check_approver_approval] answers [True] and failure otherwise. *)
Theorem block_gate_status_check
    (environ : gmap string string) (host : Host) (args : gmap string pyval)
    (workflow : string) (should_block_pr security_findings_found : pyval)
    (github_repository : string) (pr_number : pyval) (s : State) :
  truthy (github_token environ) = true ->
  let approver := dict_get args "approver" in
  let approved :=
    returned_true (fst (check_approver_approval environ host approver github_repository
                          pr_number s)) in
  let state := if approved then "success" else "failure" in
  let description :=
    if approved then "Security review completed. PR approved by " +:+ py_str approver +:+ "."
    else "Security risks detected! Waiting for approval from "
         +:+ py_str (if truthy approver then approver else VStr "[not specified]") +:+ "." in
  exists tr,
    handle_pull_request_block environ host
      [ADict args; AVal (VStr workflow); AVal should_block_pr; AVal security_findings_found;
       AVal (VStr github_repository); AVal pr_number] s
    = (Ok tt, wrote s tr) /\
    status_checks tr
    = if String.eqb (environ_get_or environ "GITHUB_EVENT_NAME" "") "pull_request"
         && py_eq should_block_pr (VBool true) && String.eqb workflow "risk_flagger"
         && truthy security_findings_found
      then status_checks
             (trace (snd (create_status_check environ host state description
                            github_repository ("fraim/" +:+ workflow) (initial []))))
      else [].
Proof.
  intros Htoken approver approved state description.
  change (handle_pull_request_block environ host _)
    with (handle_pull_request_block_body environ host args workflow should_block_pr
            security_findings_found github_repository pr_number).
  unfold handle_pull_request_block_body.
  destruct (String.eqb (environ_get_or environ "GITHUB_EVENT_NAME" "") "pull_request");
    cbn [andb]; [|exists []; rewrite wrote_nil; split; reflexivity].
  destruct (py_eq should_block_pr (VBool true));
    cbn [andb]; [|exists []; rewrite wrote_nil; split; reflexivity].
  destruct (String.eqb workflow "risk_flagger");
    cbn [andb]; [|exists []; rewrite wrote_nil; split; reflexivity].
  destruct (truthy security_findings_found);
    [|exists [EPrint "No security risks found, allowing PR to proceed"]; split; reflexivity].
  fold approver.
  destruct (check_approver_approval_at environ host approver github_repository pr_number s s
              Htoken) as (tr1 & E1 & Q1).
  erewrite bind_run by exact E1. fold approved. subst state description.
  destruct approved.
  - rewrite bind_print.
    match goal with |- context [create_status_check _ _ ?st ?d ?r ?c ?s0] =>
      destruct (create_status_check_same_status environ host st d r c s0)
        as (tr3 & E3 & H3)
    end.
    rewrite E3, !wrote_wrote. eexists. split; [reflexivity|].
    rewrite !status_checks_app, (quiet_no_status _ Q1). exact H3.
  - rewrite !bind_print.
    match goal with |- context [create_status_check _ _ ?st ?d ?r ?c ?s0] =>
      destruct (create_status_check_same_status environ host st d r c s0)
        as (tr3 & E3 & H3)
    end.
    rewrite E3, !wrote_wrote. eexists. split; [reflexivity|].
    rewrite !status_checks_app, (quiet_no_status _ Q1). exact H3.
Qed.

Lemma block_gate_status_check_witness :
  exists tr,
    handle_pull_request_block (environ_pr "base" "head") (host_with [])
      [ADict (list_to_map [("approver", VStr "alice")]); AVal (VStr "risk_flagger");
       AVal (VBool true); AVal (VBool true); AVal (VStr "octo/app"); AVal (VInt 7)]
      (initial [])
    = (Ok tt, wrote (initial []) tr) /\
    status_checks tr
    = [EStatus "octo/app" "head" "failure"
         "Security risks detected! Waiting for approval from alice." "fraim/risk_flagger"].
Proof.
  destruct (block_gate_status_check (environ_pr "base" "head") (host_with [])
              (list_to_map [("approver", VStr "alice")]) "risk_flagger" (VBool true)
              (VBool true) "octo/app" (VInt 7) (initial []))
    as (tr & E & H); [reflexivity |].
  exists tr. split; [exact E|]. rewrite H. reflexivity.
Defined.

(** ** The results document and its rendering *)

(** The count [main] reports as [results-count] is the number of findings
    the parser returns for the same document. *)
Theorem results_count_is_number_of_findings (data : SarifData) :
  count_results data = Z.of_nat (length (get_results data)).
Proof.
  unfold count_results, get_results.
  induction (default [] (Sarif_runs data)) as [|run runs IH]; [reflexivity|].
  cbn [map fold_right concat]. rewrite length_app, Nat2Z.inj_add, IH. f_equal.
  unfold results_of_run. now rewrite length_map.
Qed.

Lemma find_snoc {A} (f : A -> bool) l a :
  List.find f (l ++ [a])
  = match List.find f l with
    | Some b => Some b
    | None => if f a then Some a else None
    end.
Proof.
  induction l as [|b l IH]; cbn [app List.find]; [reflexivity|].
  now destruct (f b).
Qed.

Lemma rules_map_fold (rules : list Rule) (acc : gmap string Rule) (n : string) :
  n <> "" ->
  fold_left
    (fun rules_map rule =>
       match Rule_name rule with
       | Some rule_name =>
           if truthy (VStr rule_name) then <[rule_name := rule]> rules_map else rules_map
       | None => rules_map
       end)
    rules acc !! n
  = match List.find (fun rule => match Rule_name rule with
                                 | Some m => String.eqb m n
                                 | None => false
                                 end) (rev rules) with
    | Some rule => Some rule
    | None => acc !! n
    end.
Proof.
  intros Hn. revert acc. induction rules as [|rule rules IH]; intros acc; [reflexivity|].
  cbn [fold_left rev]. rewrite IH, find_snoc.
  destruct (List.find _ (rev rules)); [reflexivity|].
  destruct (Rule_name rule) as [m|]; [|reflexivity].
  destruct (String.eqb m n) eqn:Emn.
  - apply String.eqb_eq in Emn. subst m. rewrite (truthy_VStr _ Hn).
    apply lookup_insert_eq.
  - apply String.eqb_neq in Emn. destruct (truthy (VStr m)); [|reflexivity].
    now apply lookup_insert_ne.
Qed.

(** Each result of a run gets the rule of that run whose name is the
    result's [ruleName]: the last one when several rules have the name, and
    no rule (so the rule name "unknown-rule" and no help text) when the
    result names none, names the empty string, or names a rule the run
    does not declare. *)
Theorem result_rule_is_last_of_that_name (run : Run) :
  let rules :=
    default [] (Driver_rules (default no_driver (Tool_driver (default no_tool (Run_tool run))))) in
  results_of_run run
  = map (fun result_data =>
           {| result_data := result_data;
              rule_data :=
                match Result_ruleName result_data with
                | Some n =>
                    if String.eqb n "" then no_rule
                    else default no_rule
                           (List.find (fun rule => match Rule_name rule with
                                                   | Some m => String.eqb m n
                                                   | None => false
                                                   end) (rev rules))
                | None => no_rule
                end |})
        (default [] (Run_results run)).
Proof.
  intros rules. unfold results_of_run. apply map_ext. intros result_data.
  unfold SarifResult_init. f_equal.
  destruct (Result_ruleName result_data) as [n|]; [|reflexivity].
  change (truthy (VStr n)) with (negb (String.eqb n "")).
  destruct (String.eqb n "") eqn:En; cbn [negb]; [reflexivity|].
  apply String.eqb_neq in En. unfold rules_map_of. fold rules.
  rewrite (rules_map_fold rules ∅ n En).
  destruct (List.find _ (rev rules)); [reflexivity|].
  now rewrite lookup_empty.
Qed.

(** *** The files-with-issues summary *)

Lemma files_add_keys file_path result files :
  map fst (files_add file_path result files)
  = if existsb (fun k => String.eqb k file_path) (map fst files)
    then map fst files else map fst files ++ [file_path].
Proof.
  induction files as [|[k rs] rest IH]; [reflexivity|].
  cbn [files_add map fst existsb]. destruct (String.eqb k file_path); [reflexivity|].
  cbn [map fst orb]. rewrite IH. now destruct (existsb _ (map fst rest)).
Qed.

Lemma existsb_eqb_In (k : string) (keys : list string) :
  existsb (fun k0 => String.eqb k0 k) keys = true <-> In k keys.
Proof.
  rewrite existsb_exists. split.
  - intros (k0 & Hin & E). apply String.eqb_eq in E. now subst k0.
  - intros Hin. exists k. split; [exact Hin|apply String.eqb_refl].
Qed.

Lemma files_add_In file_path result files k rs :
  List.NoDup (map fst files) ->
  In (k, rs) (files_add file_path result files) ->
  (k <> file_path /\ In (k, rs) files) \/
  (k = file_path /\
   ((exists rs0, In (k, rs0) files /\ rs = rs0 ++ [result]) \/
    (~ In k (map fst files) /\ rs = [result]))).
Proof.
  induction files as [|[k0 rs0] rest IH]; intros Hnodup Hin.
  - destruct Hin as [[= <- <-]|[]]. right. split; [reflexivity|]. right. now split.
  - cbn [map fst] in Hnodup. apply List.NoDup_cons_iff in Hnodup as [Hfresh Hnodup].
    cbn [files_add] in Hin. destruct (String.eqb k0 file_path) eqn:E.
    + apply String.eqb_eq in E. subst k0. destruct Hin as [[= <- <-]|Hin].
      * right. split; [reflexivity|]. left. exists rs0. split; [now left|reflexivity].
      * left. split; [|now right]. intros ->. apply Hfresh.
        change file_path with (fst (file_path, rs)). now apply in_map.
    + apply String.eqb_neq in E. destruct Hin as [[= <- <-]|Hin].
      * left. split; [exact E|now left].
      * destruct (IH Hnodup Hin) as [[Hne Hin']|[-> [(rs1 & Hin' & ->)|[Hfresh' ->]]]].
        -- left. split; [exact Hne|now right].
        -- right. split; [reflexivity|]. left. exists rs1. split; [now right|reflexivity].
        -- right. split; [reflexivity|]. right. split; [|reflexivity].
           cbn [map fst]. intros [Heq|Hin']; [now apply E|now apply Hfresh'].
Qed.

Lemma filter_none {A} (f : A -> bool) l :
  (forall a, In a l -> f a = false) -> List.filter f l = [].
Proof.
  induction l as [|a l IH]; intros H; [reflexivity|].
  cbn [List.filter]. rewrite (H a) by now left. apply IH. intros b Hb. apply H. now right.
Qed.

Lemma files_with_issues_fold results files seen :
  List.NoDup (map fst files) ->
  (forall k rs, In (k, rs) files ->
                rs <> [] /\ rs = List.filter (fun r => String.eqb (file_key r) k) seen) ->
  (forall r, In r seen -> In (file_key r) (map fst files)) ->
  let files' := fold_left (fun files result => files_add (file_key result) result files)
                          results files in
  List.NoDup (map fst files') /\
  (forall k rs, In (k, rs) files' ->
                rs <> [] /\
                rs = List.filter (fun r => String.eqb (file_key r) k) (seen ++ results)) /\
  (forall r, In r (seen ++ results) -> In (file_key r) (map fst files')).
Proof.
  revert files seen. induction results as [|result results IH]; intros files seen Hnodup Hgroups Hkeys.
  - cbv zeta. cbn [fold_left]. rewrite app_nil_r. split; [|split]; assumption.
  - cbv zeta. cbn [fold_left].
    replace (seen ++ result :: results) with ((seen ++ [result]) ++ results)
      by now rewrite <- app_assoc.
    apply IH.
    + rewrite files_add_keys.
      destruct (existsb _ (map fst files)) eqn:E; [exact Hnodup|].
      apply List.NoDup_app; [exact Hnodup|repeat constructor; intros []|].
      intros k Hin [<-|[]].
      apply existsb_eqb_In in Hin. congruence.
    + intros k rs Hin.
      rewrite List.filter_app. cbn [List.filter].
      destruct (files_add_In _ _ _ _ _ Hnodup Hin)
        as [[Hne Hin']|[-> [(rs0 & Hin' & ->)|[Hfresh ->]]]].
      * destruct (Hgroups _ _ Hin') as [Hrs ->].
        apply not_eq_sym, String.eqb_neq in Hne. rewrite Hne, app_nil_r. now split.
      * destruct (Hgroups _ _ Hin') as [Hrs ->].
        rewrite String.eqb_refl. split; [|reflexivity]. now destruct (List.filter _ seen).
      * rewrite String.eqb_refl. split; [discriminate|].
        rewrite filter_none; [reflexivity|].
        intros r Hr. apply String.eqb_neq. intros E. apply Hfresh. rewrite <- E.
        now apply Hkeys.
    + intros r Hr. rewrite files_add_keys.
      apply in_app_or in Hr as [Hr|[<-|[]]].
      * specialize (Hkeys r Hr).
        destruct (existsb _ (map fst files)); [exact Hkeys|].
        apply in_or_app. now left.
      * destruct (existsb _ (map fst files)) eqn:E.
        -- now apply existsb_eqb_In.
        -- apply in_or_app. right. now left.
Qed.

(** The summary by file groups the findings by the path of their first
    location ("Unknown file" when there is none): no path is listed twice,
    each path is listed with all the findings of that path and no other, in
    the order of the document, and every finding is listed under its
    path. *)
Theorem files_with_issues_groups (results : list SarifResult) :
  List.NoDup (map fst (files_with_issues results)) /\
  (forall k rs, In (k, rs) (files_with_issues results) ->
                rs <> [] /\ rs = List.filter (fun r => String.eqb (file_key r) k) results) /\
  (forall r, In r results -> In (file_key r) (map fst (files_with_issues results))).
Proof.
  unfold files_with_issues.
  apply (files_with_issues_fold results [] []).
  - constructor.
  - intros k rs [].
  - intros r [].
Qed.

(** *** The order of the summary *)





(** *** Annotations *)

Lemma annotate_value dry_run result s :
  let located := truthy_str (file_path result) && truthy_int (start_line result) in
  annotate dry_run result s
  = (Ok (if negb dry_run && located then 1%nat else 0%nat),
     wrote s (trace (snd (annotate dry_run result (initial []))))) /\
  length (trace (snd (annotate dry_run result (initial []))))
  = if dry_run && located then 5%nat else 1%nat.
Proof.
  unfold annotate.
  destruct (truthy_str (file_path result)), (truthy_int (start_line result)), dry_run;
    cbn [negb orb andb]; rewrite ?bind_print, ?wrote_wrote; split; reflexivity.
Qed.

Lemma annotate_all_value dry_run results annotations_created s :
  let located :=
    List.filter (fun r => truthy_str (file_path r) && truthy_int (start_line r)) results in
  let written :=
    concat (map (fun result => trace (snd (annotate dry_run result (initial [])))) results) in
  annotate_all dry_run results annotations_created s
  = (Ok (annotations_created + (if dry_run then 0 else length located))%nat, wrote s written) /\
  length written = (length results + (if dry_run then 4 * length located else 0))%nat.
Proof.
  revert annotations_created s.
  induction results as [|result rest IH]; intros annotations_created s; cbv zeta.
  - cbn [annotate_all List.filter map concat length]. rewrite wrote_nil.
    split; [|now destruct dry_run]. unfold ret. repeat f_equal. destruct dry_run; lia.
  - cbn [annotate_all List.filter map concat].
    destruct (annotate_value dry_run result s) as [Hrun Hlen]. cbv zeta in Hrun, Hlen.
    erewrite bind_run by exact Hrun.
    destruct (IH (annotations_created
                  + (if negb dry_run
                        && (truthy_str (file_path result) && truthy_int (start_line result))
                     then 1 else 0))%nat
                 (wrote s (trace (snd (annotate dry_run result (initial []))))))
      as [IHrun IHlen].
    cbv zeta in IHrun, IHlen. rewrite IHrun, wrote_wrote, length_app, Hlen, IHlen.
    destruct dry_run, (truthy_str (file_path result) && truthy_int (start_line result));
      cbn [negb andb length]; (split; [do 2 f_equal; lia | lia]).
Qed.

(** With findings in the document [create_annotations] writes one line for
    each of them (five in a dry run for a finding with a file and a line),
    then the count of the annotations it created: the number of findings
    that have a file path and a non-zero start line, and 0 in a dry
    run. *)
Theorem annotations_created_count
    (self : SarifToCommentProcessor) (dry_run : bool) (s : State) :
  let results := get_results (parser self) in
  let located :=
    List.filter (fun r => truthy_str (file_path r) && truthy_int (start_line r)) results in
  exists tr,
    create_annotations self dry_run s
    = (Ok tt,
       wrote s (match results with
                | [] => [EPrint "::debug::No security findings to annotate"]
                | _ => tr ++ [EPrint ("::debug::Created "
                                      +:+ str_of_nat (if dry_run then 0 else length located)
                                      +:+ " annotations")]
                end)) /\
    length tr = (length results + (if dry_run then 4 * length located else 0))%nat.
Proof.
  intros results located. unfold create_annotations. fold results.
  destruct (annotate_all_value dry_run results 0 s) as [Hrun Hlen].
  cbv zeta in Hrun, Hlen. fold located in Hrun, Hlen.
  eexists. split; [|exact Hlen].
  destruct results as [|result rest] eqn:E; [reflexivity|].
  erewrite bind_run by exact Hrun. cbn [Nat.add]. now rewrite log_run, wrote_wrote.
Qed.

(** *** Posting the comment *)

Ltac nothing_posted :=
  intros [= <- <-]; unfold wrote; cbn [trace comments]; rewrite <- ?app_assoc;
  eexists; split; [reflexivity | split; [repeat constructor | reflexivity]].

Lemma create_pr_comment_raise_inv environ host self dry_run s s' e :
  create_pr_comment environ host self dry_run s = (Raise e, s') ->
  exists tr, s' = wrote s tr /\ Forall quiet tr /\ is_Exception e = true.
Proof.
  unfold create_pr_comment.
  destruct (get_results (parser self)) as [|result rest]; [discriminate|].
  destruct dry_run; [discriminate|].
  destruct (truthy (github_token environ)) eqn:Htoken.
  2:{ erewrite try_except_Raise by (apply bind_fail, get_github_client_fail, Htoken).
      cbn [no_token is_GithubException is_Exception]. rewrite bind_log. nothing_posted. }
  erewrite try_except_bind_run by (apply get_github_client_run, Htoken).
  destruct (get_repo host (repository self)) as [f|].
  { erewrite try_except_Raise by reflexivity.
    destruct f; cbn [exn_of is_GithubException is_Exception]; rewrite bind_log;
      nothing_posted. }
  destruct (get_pull host (repository self) (VInt (SarifToComment.pr_number self))) as [f|].
  { erewrite try_except_Raise by reflexivity.
    destruct f; cbn [exn_of is_GithubException is_Exception]; rewrite bind_log;
      nothing_posted. }
  destruct (get_issue_comments_error host) as [f|].
  { erewrite try_except_Raise by reflexivity.
    destruct f; cbn [exn_of is_GithubException is_Exception]; rewrite bind_log;
      nothing_posted. }
  do 4 (erewrite try_except_bind_run by reflexivity).
  destruct (List.find _ (comments s)) as [existing|].
  - destruct (edit_error host) as [f|].
    + erewrite try_except_Raise by reflexivity.
      destruct f; cbn [exn_of is_GithubException is_Exception]; rewrite bind_log;
        nothing_posted.
    + erewrite try_except_Ok by reflexivity. discriminate.
  - destruct (create_issue_comment_error host) as [f|].
    + erewrite try_except_Raise by reflexivity.
      destruct f; cbn [exn_of is_GithubException is_Exception]; rewrite bind_log;
        nothing_posted.
    + erewrite try_except_Ok by reflexivity. discriminate.
Qed.

(** When [create_pr_comment] raises, nothing was posted: the comments of
    the pull request are as they were and only lines of output were
    written.  The exception is one of class [Exception], logged before it
    is raised again. *)
Theorem create_pr_comment_raises_nothing_posted
    (environ : gmap string string) (host : Host) (self : SarifToCommentProcessor)
    (dry_run : bool) (s s' : State) (e : exn) :
  create_pr_comment environ host self dry_run s = (Raise e, s') ->
  exists tr, s' = wrote s tr /\ Forall quiet tr.
Proof.
  intros H. destruct (create_pr_comment_raise_inv _ _ _ _ _ _ _ H) as (tr & Hs & Hquiet & _).
  now exists tr.
Qed.

Lemma create_pr_comment_raises_nothing_posted_witness :
  exists tr,
    snd (create_pr_comment (environ_pr "base" "head") host_down
           (processor (document "fraim"
                         [result_at (Some "sql-injection") (Some "error") "app.py" 10 12 None]))
           false (initial [risk_comment]))
    = wrote (initial [risk_comment]) tr /\
    Forall quiet tr.
Proof.
  apply (create_pr_comment_raises_nothing_posted (environ_pr "base" "head") host_down
           (processor (document "fraim"
                         [result_at (Some "sql-injection") (Some "error") "app.py" 10 12 None]))
           false (initial [risk_comment]) _ (GithubException 500 "500 Server Error")).
  vm_compute. reflexivity.
Defined.

Lemma edit_first_split heading body cs existing :
  List.find (fun c => startswith (comment_body c) heading) cs = Some existing ->
  exists pre post,
    cs = pre ++ existing :: post /\
    Forall (fun c => startswith (comment_body c) heading = false) pre /\
    edit_first heading body cs
    = pre ++ {| comment_id := comment_id existing; comment_body := body |} :: post.
Proof.
  induction cs as [|c cs IH]; [discriminate|].
  cbn [List.find edit_first]. destruct (startswith (comment_body c) heading) eqn:E.
  - intros [= <-]. exists [], cs. repeat split. constructor.
  - intros Hfind. destruct (IH Hfind) as (pre & post & -> & Hpre & Hedit).
    exists (c :: pre), post. rewrite Hedit. repeat split. now constructor.
Qed.

(** When a comment of the pull request starts with the heading, a
    successful [create_pr_comment] rewrites the first such comment and
    nothing else: the comments before it (none of which starts with the
    heading) and all the comments after it are as they were, and the
    rewritten comment keeps its id. *)
Theorem update_rewrites_first_comment_only
    (environ : gmap string string) (host : Host) (self : SarifToCommentProcessor)
    (s : State) (existing : Comment) :
  get_results (parser self) <> [] ->
  truthy (github_token environ) = true ->
  get_repo host (repository self) = None ->
  get_pull host (repository self) (VInt (SarifToComment.pr_number self)) = None ->
  get_issue_comments_error host = None ->
  edit_error host = None ->
  List.find (fun c => startswith (comment_body c) ("## " +:+ title self)) (comments s)
  = Some existing ->
  exists pre post,
    comments s = pre ++ existing :: post /\
    Forall (fun c => startswith (comment_body c) ("## " +:+ title self) = false) pre /\
    comments (snd (create_pr_comment environ host self false s))
    = pre ++ {| comment_id := comment_id existing;
                comment_body := _build_comment_body self (get_results (parser self)) |}
          :: post.
Proof.
  intros Hresults Htoken Hrepo Hpull Hcomments Hedit Hfind.
  destruct (edit_first_split _ (_build_comment_body self (get_results (parser self))) _ _ Hfind)
    as (pre & post & Hsplit & Hpre & Hedited).
  exists pre, post. split; [exact Hsplit|]. split; [exact Hpre|].
  rewrite <- Hedited. unfold create_pr_comment.
  destruct (get_results (parser self)) as [|result rest] eqn:E; [contradiction|].
  erewrite try_except_bind_run by (apply get_github_client_run, Htoken).
  rewrite Hrepo, Hpull, Hcomments.
  do 4 (erewrite try_except_bind_run by reflexivity).
  rewrite Hfind, Hedit.
  erewrite try_except_Ok by reflexivity. reflexivity.
Qed.

Lemma update_rewrites_first_comment_only_witness :
  let self := processor (document "fraim"
                [result_at (Some "sql-injection") (Some "error") "app.py" 10 12 None]) in
  let ours := {| comment_id := 2; comment_body := "## Security Findings (earlier run)" |} in
  let later := {| comment_id := 3; comment_body := "## Security Findings (older run)" |} in
  exists pre post,
    [risk_comment; ours; later] = pre ++ ours :: post /\
    Forall (fun c => startswith (comment_body c) ("## " +:+ title self) = false) pre /\
    comments (snd (create_pr_comment (environ_pr "base" "head") (host_with []) self false
                     (initial [risk_comment; ours; later])))
    = pre ++ {| comment_id := 2;
                comment_body := _build_comment_body self (get_results (parser self)) |}
          :: post.
Proof.
  intros self ours later.
  apply (update_rewrites_first_comment_only (environ_pr "base" "head") (host_with []) self
           (initial [risk_comment; ours; later]) ours);
    first [discriminate | reflexivity].
Defined.

(** *** Dry runs *)

Lemma annotate_all_writes dry_run results annotations_created :
  writes quiet (fun _ => False) (annotate_all dry_run results annotations_created).
Proof.
  revert annotations_created.
  induction results as [|result rest IH]; intros annotations_created; cbn [annotate_all].
  - apply writes_ret.
  - apply writes_bind; [|intros n; apply IH].
    unfold annotate. writes_auto.
Qed.

(** A dry run of [process_sarif_file] reads the results file and nothing
    else: what it does is the same for every environment and every answer
    of the host (so no token is needed); it leaves the comments of the
    pull request as they are and writes lines of output only. *)
Theorem dry_run_posts_nothing
    (environ environ' : gmap string string) (host host' : Host)
    (files : string -> option (answer SarifData))
    (sarif_file_path repository : string) (pr_number : Z) (title : string) (s : State) :
  process_sarif_file environ host files sarif_file_path repository pr_number title true s
  = process_sarif_file environ' host' files sarif_file_path repository pr_number title true s
  /\
  exists tr,
    snd (process_sarif_file environ host files sarif_file_path repository pr_number title
           true s)
    = wrote s tr /\
    Forall quiet tr.
Proof.
  split; [reflexivity|].
  assert (H : writes quiet (fun _ => True)
                (process_sarif_file environ host files sarif_file_path repository pr_number
                   title true)).
  { unfold process_sarif_file.
    destruct (files sarif_file_path) as [read|] eqn:Efile; [|now writes_step].
    do 4 (writes_step; [now writes_step|]).
    writes_step.
    - unfold _load_sarif_file. rewrite Efile. cbn [default].
      apply writes_try_except with (R1 := fun _ => True); [writes_auto|].
      intros e _. destruct (is_Exception e); writes_auto.
    - apply writes_try_except with (R1 := fun _ => True).
      + unfold create_pr_comment, create_annotations.
        repeat first [ apply annotate_all_writes
                     | eapply writes_weaken; [| |apply annotate_all_writes]
                     | writes_step ]; simpl; auto.
      + intros e _. destruct (is_Exception e); writes_auto. }
  destruct (process_sarif_file environ host files sarif_file_path repository pr_number title
              true s) as [o s'] eqn:E.
  destruct (writes_run _ _ _ _ _ _ H E) as (tr & -> & Hquiet & _).
  now exists tr.
Qed.

(** ** The invocation up to the scan *)

Lemma join_items_Ok i items s l s' :
  join_items i items s = (Ok l, s') -> items = map VStr l /\ s' = s.
Proof.
  revert i l. induction items as [|v rest IH]; intros i l; cbn [join_items].
  - intros [= <- <-]. now split.
  - destruct v; try discriminate. intros H.
    apply bind_Ok_inv in H as (l0 & st & Hrest & H). injection H as <- <-.
    destruct (IH _ _ Hrest) as [-> ->]. now split.
Qed.

Lemma parse_workflow_args_Ok w s args s' :
  parse_workflow_args w s = (Ok args, s') ->
  json_loads w (environ_get_or (environ w) "WORKFLOW_ARGS" "") = Answer args /\ s' = s.
Proof.
  unfold parse_workflow_args, try_except.
  destruct (json_loads w (environ_get_or (environ w) "WORKFLOW_ARGS" "")) as [a|f];
    cbn [ask ret raise].
  - intros [= <- <-]. now split.
  - now destruct f.
Qed.

Lemma get_github_context_Ok w s github_repository pr_number s' :
  get_github_context w s = (Ok (github_repository, pr_number), s') ->
  github_repository = environ_get_or (environ w) "GITHUB_REPOSITORY" "" /\
  exists path, environ w !! "GITHUB_EVENT_PATH" = Some path /\ path <> "" /\
               event_files w path = Some (Answer pr_number).
Proof.
  unfold get_github_context, environ_get.
  destruct (environ w !! "GITHUB_EVENT_PATH") as [path|]; [|discriminate].
  change (truthy (VStr path)) with (negb (String.eqb path "")).
  destruct (String.eqb path "") eqn:Epath; cbn [negb]; [discriminate|].
  apply String.eqb_neq in Epath. cbn [py_str].
  destruct (event_files w path) as [[n|f]|] eqn:Efile; [| |discriminate].
  - erewrite bind_run by reflexivity. intros [= <- <- <-].
    split; [reflexivity|]. exists path. now repeat split.
  - erewrite bind_run by (unfold try_except; destruct f; reflexivity). discriminate.
Qed.

Lemma add_global_args_value environ host workflow args github_repository s g s' :
  add_global_args environ host workflow args github_repository s = (Ok g, s') ->
  g = (if String.eqb workflow "code" || String.eqb workflow "iac"
       then [VStr "--output"; VStr "fraim_outputs"] else [])
      ++ (if truthy (dict_get args "confidence")
          then [VStr "--confidence"; dict_get args "confidence"] else [])
      ++ (if truthy (dict_get args "temperature")
          then [VStr "--temperature"; dict_get args "temperature"] else [])
      ++ (if negb (String.eqb (environ_get_or environ "INPUT_MODEL" "") "")
          then [VStr "--model"; VStr (environ_get_or environ "INPUT_MODEL" "")] else [])
      ++ [VStr "--location"; VStr "./"]
      ++ (if String.eqb (environ_get_or environ "GITHUB_EVENT_NAME" "") "pull_request"
          then [VStr "--diff"; VStr "--base"; VStr (environ_get_or environ "GITHUB_BASE_SHA" "");
                VStr "--head"; VStr (environ_get_or environ "GITHUB_SHA" "")]
          else []).
Proof.
  unfold add_global_args, extend_if.
  change (truthy (VStr (environ_get_or environ "INPUT_MODEL" "")))
    with (negb (String.eqb (environ_get_or environ "INPUT_MODEL" "") "")).
  destruct (String.eqb (environ_get_or environ "GITHUB_EVENT_NAME" "") "pull_request").
  - rewrite bind_print.
    destruct (negb (truthy (VStr (environ_get_or environ "GITHUB_BASE_SHA" "")))
              || negb (truthy (VStr (environ_get_or environ "GITHUB_SHA" "")))).
    + rewrite bind_print. intros H. apply bind_Ok_inv in H as (? & ? & _ & H). discriminate.
    + rewrite !bind_print. intros [= <- <-].
      destruct (String.eqb workflow "code" || String.eqb workflow "iac"),
        (truthy (dict_get args "confidence")), (truthy (dict_get args "temperature")),
        (negb (String.eqb (environ_get_or environ "INPUT_MODEL" "") ""));
        reflexivity.
  - rewrite bind_print. intros [= <- <-].
    destruct (String.eqb workflow "code" || String.eqb workflow "iac"),
      (truthy (dict_get args "confidence")), (truthy (dict_get args "temperature")),
      (negb (String.eqb (environ_get_or environ "INPUT_MODEL" "") ""));
      reflexivity.
Qed.

(** What [main] has read and built when it reaches the scan. *)
Lemma main_until_scan_inv w s l s1 :
  main_until_scan w s = (Ok l, s1) ->
  json_loads w (environ_get_or (environ w) "WORKFLOW_ARGS" "") = Answer (args l) /\
  (exists path, environ w !! "GITHUB_EVENT_PATH" = Some path /\ path <> "" /\
                event_files w path = Some (Answer (pr_number l))) /\
  github_repository l = environ_get_or (environ w) "GITHUB_REPOSITORY" "" /\
  should_block_pr l = dict_get (args l) "should-block-pull-request" /\
  workflow l = environ_get_or (environ w) "INPUT_WORKFLOW" "" /\
  workflow l <> "" /\
  exists g cli s2 s3,
    add_global_args (environ w) (host w) (workflow l) (args l) (github_repository l) s2
    = (Ok g, s3) /\
    (workflow l <> "risk_flagger" -> cli = []) /\
    map VStr (cmd l)
    = [VStr "uv"; VStr "run"; VStr "fraim"; VStr "run"; VStr (workflow l)] ++ g ++ cli.
Proof.
  unfold main_until_scan. rewrite bind_log, bind_print, wrote_wrote. intros H.
  apply bind_Ok_inv in H as (args & s2 & Hargs & H).
  apply parse_workflow_args_Ok in Hargs as [Hargs ->].
  apply bind_Ok_inv in H as ([github_repository pr_number] & s3 & Hcontext & H).
  apply get_github_context_Ok in Hcontext as [Hrepo Hevent].
  rewrite bind_log in H.
  change (truthy (VStr (environ_get_or (environ w) "INPUT_WORKFLOW" "")))
    with (negb (String.eqb (environ_get_or (environ w) "INPUT_WORKFLOW" "") "")) in H.
  destruct (String.eqb (environ_get_or (environ w) "INPUT_WORKFLOW" "") "") eqn:Eworkflow;
    cbn [negb] in H.
  { rewrite bind_print in H. discriminate. }
  apply String.eqb_neq in Eworkflow.
  apply bind_Ok_inv in H as (? & s4 & Hreview & H).
  apply bind_Ok_inv in H as (global_args & s5 & Hglobal & H).
  apply bind_Ok_inv in H as (workflow_cli_args & s6 & Hcli & H).
  rewrite bind_print in H.
  apply bind_Ok_inv in H as (cmd & s7 & Hcmd & H).
  rewrite bind_print in H. injection H as <- <-. cbn [Fraim.args Fraim.workflow
    Fraim.should_block_pr Fraim.github_repository Fraim.pr_number Fraim.cmd].
  apply join_items_Ok in Hcmd as [Hcmd _].
  repeat (split; [assumption || reflexivity|]).
  exists global_args, workflow_cli_args, s4, s5. split; [exact Hglobal|]. split.
  - intros Hne. apply eqb_false_of_ne in Hne. rewrite Hne in Hcli. now injection Hcli as <- _.
  - now rewrite <- Hcmd.
Qed.

(** [main] reaches the scan only after it has parsed the workflow
    arguments, read the pull request number from the event file and found
    a workflow name, on an event that is no pull_request_review, with both
    revisions on a pull_request event; up to there it has written lines of
    output only. *)
Theorem scan_preconditions (w : World) (s s1 : State) (l : Locals) :
  main_until_scan w s = (Ok l, s1) ->
  json_loads w (environ_get_or (environ w) "WORKFLOW_ARGS" "") = Answer (args l) /\
  (exists path, environ w !! "GITHUB_EVENT_PATH" = Some path /\ path <> "" /\
                event_files w path = Some (Answer (pr_number l))) /\
  workflow l = environ_get_or (environ w) "INPUT_WORKFLOW" "" /\
  workflow l <> "" /\
  environ_get_or (environ w) "GITHUB_EVENT_NAME" "" <> "pull_request_review" /\
  (environ_get_or (environ w) "GITHUB_EVENT_NAME" "" = "pull_request" ->
   environ_get_or (environ w) "GITHUB_BASE_SHA" "" <> "" /\
   environ_get_or (environ w) "GITHUB_SHA" "" <> "") /\
  exists tr, s1 = wrote s tr /\ Forall quiet tr.
Proof.
  intros H.
  destruct (main_until_scan_inv _ _ _ _ H) as (Hargs & Hfile & _ & _ & Hw & Hne & _).
  destruct (main_until_scan_Ok _ _ _ _ H) as (Hstep & Hevent & Hsha).
  repeat (split; [assumption|]). exact Hstep.
Qed.

Lemma scan_preconditions_witness :
  json_loads scenario_B (environ_get_or (environ scenario_B) "WORKFLOW_ARGS" "")
  = Answer (args scenario_B_locals) /\
  (exists path, environ scenario_B !! "GITHUB_EVENT_PATH" = Some path /\ path <> "" /\
                event_files scenario_B path = Some (Answer (pr_number scenario_B_locals))) /\
  workflow scenario_B_locals = environ_get_or (environ scenario_B) "INPUT_WORKFLOW" "" /\
  workflow scenario_B_locals <> "" /\
  environ_get_or (environ scenario_B) "GITHUB_EVENT_NAME" "" <> "pull_request_review" /\
  (environ_get_or (environ scenario_B) "GITHUB_EVENT_NAME" "" = "pull_request" ->
   environ_get_or (environ scenario_B) "GITHUB_BASE_SHA" "" <> "" /\
   environ_get_or (environ scenario_B) "GITHUB_SHA" "" <> "") /\
  exists tr, snd (main_until_scan scenario_B (initial [])) = wrote (initial []) tr /\
             Forall quiet tr.
Proof.
  apply (scan_preconditions scenario_B (initial [])
           (snd (main_until_scan scenario_B (initial []))) scenario_B_locals).
  vm_compute. reflexivity.
Defined.

Lemma map_VStr_inj (a b : list string) : map VStr a = map VStr b -> a = b.
Proof.
  revert b. induction a as [|x a IH]; intros [|y b]; try discriminate; [reflexivity|].
  cbn [map]. intros [= -> H]. f_equal. now apply IH.
Qed.

(** The command line of the scan is [uv run fraim run] and the workflow
    name, then [--output fraim_outputs] for the workflows code and iac
    only, then the confidence, the temperature and the model that are set,
    each after its flag and each a string, then [--location ./], then on a
    pull_request event [--diff --base] and [--head] with the two
    revisions, then the arguments of the risk_flagger workflow, which other
    workflows do not get. *)
Theorem scan_command_line (w : World) (s s1 : State) (l : Locals) :
  main_until_scan w s = (Ok l, s1) ->
  exists options cli : list string,
    cmd l
    = ["uv"; "run"; "fraim"; "run"; workflow l]
      ++ (if String.eqb (workflow l) "code" || String.eqb (workflow l) "iac"
          then ["--output"; "fraim_outputs"] else [])
      ++ options
      ++ ["--location"; "./"]
      ++ (if String.eqb (environ_get_or (environ w) "GITHUB_EVENT_NAME" "") "pull_request"
          then ["--diff"; "--base"; environ_get_or (environ w) "GITHUB_BASE_SHA" "";
                "--head"; environ_get_or (environ w) "GITHUB_SHA" ""]
          else [])
      ++ cli /\
    map VStr options
    = (if truthy (dict_get (args l) "confidence")
       then [VStr "--confidence"; dict_get (args l) "confidence"] else [])
      ++ (if truthy (dict_get (args l) "temperature")
          then [VStr "--temperature"; dict_get (args l) "temperature"] else [])
      ++ (if negb (String.eqb (environ_get_or (environ w) "INPUT_MODEL" "") "")
          then [VStr "--model"; VStr (environ_get_or (environ w) "INPUT_MODEL" "")] else []) /\
    (workflow l <> "risk_flagger" -> cli = []).
Proof.
  intros H.
  destruct (main_until_scan_inv _ _ _ _ H)
    as (_ & _ & _ & _ & _ & _ & g & cli & s2 & s3 & Hg & Hcli & Hcmd).
  apply add_global_args_value in Hg.
  apply List.map_eq_app in Hcmd as (c1 & c2 & Hc & H1 & H2).
  apply List.map_eq_app in H2 as (c3 & c4 & -> & H3 & H4).
  rewrite Hg in H3.
  apply List.map_eq_app in H3 as (c5 & c6 & -> & H5 & H6).
  rewrite !app_assoc in H6. rewrite <- (app_assoc _ [VStr "--location"; VStr "./"]) in H6.
  apply List.map_eq_app in H6 as (c7 & c8 & -> & H7 & H8).
  apply List.map_eq_app in H8 as (c9 & c10 & -> & H9 & H10).
  exists c7, c4. rewrite Hc. split; [|split].
  - rewrite <- !app_assoc. f_equal; [now apply map_VStr_inj|].
    f_equal; [apply map_VStr_inj; rewrite H5; now destruct (_ || _)|].
    f_equal. f_equal; [now apply map_VStr_inj|].
    f_equal. apply map_VStr_inj. rewrite H10. now destruct (String.eqb _ "pull_request").
  - now rewrite H7, <- !app_assoc.
  - intros Hne. specialize (Hcli Hne). subst cli. now destruct c4.
Qed.

Lemma scan_command_line_witness :
  exists options cli : list string,
    cmd scenario_B_locals
    = ["uv"; "run"; "fraim"; "run"; workflow scenario_B_locals]
      ++ (if String.eqb (workflow scenario_B_locals) "code"
             || String.eqb (workflow scenario_B_locals) "iac"
          then ["--output"; "fraim_outputs"] else [])
      ++ options
      ++ ["--location"; "./"]
      ++ (if String.eqb (environ_get_or (environ scenario_B) "GITHUB_EVENT_NAME" "")
                        "pull_request"
          then ["--diff"; "--base"; environ_get_or (environ scenario_B) "GITHUB_BASE_SHA" "";
                "--head"; environ_get_or (environ scenario_B) "GITHUB_SHA" ""]
          else [])
      ++ cli /\
    map VStr options
    = (if truthy (dict_get (args scenario_B_locals) "confidence")
       then [VStr "--confidence"; dict_get (args scenario_B_locals) "confidence"] else [])
      ++ (if truthy (dict_get (args scenario_B_locals) "temperature")
          then [VStr "--temperature"; dict_get (args scenario_B_locals) "temperature"]
          else [])
      ++ (if negb (String.eqb (environ_get_or (environ scenario_B) "INPUT_MODEL" "") "")
          then [VStr "--model"; VStr (environ_get_or (environ scenario_B) "INPUT_MODEL" "")]
          else []) /\
    (workflow scenario_B_locals <> "risk_flagger" -> cli = []).
Proof.
  apply (scan_command_line scenario_B (initial [])
           (snd (main_until_scan scenario_B (initial []))) scenario_B_locals).
  vm_compute. reflexivity.
Defined.

Lemma dict_get_Some (args : gmap string pyval) key v :
  args !! key = Some v -> dict_get args key = v.
Proof. unfold dict_get. now intros ->. Qed.

(** When [main] stops before the scan, the scan is not run. *)
Lemma main_stops_before_scan w s e s1 :
  main_until_scan w s = (Raise e, s1) ->
  main w s = (Raise e, s1) /\ scans (trace s1) = scans (trace s).
Proof.
  intros H. split; [unfold main; now apply bind_fail|].
  destruct (writes_run _ _ _ _ _ _ (main_until_scan_writes w) H) as (tr & -> & Hok & _).
  cbn [wrote trace]. rewrite scans_app, (event_ok_no_scan _ _ Hok). apply app_nil_r.
Qed.

(** A confidence or a temperature that the workflow arguments give as a
    value that is not a string (a JSON number, or [true]) stops the
    invocation before the scan: [main] ends with an exception and the scan
    is never run. *)
Theorem non_string_option_never_scans
    (w : World) (s : State) (args : gmap string pyval) (key : string) (v : pyval) :
  json_loads w (environ_get_or (environ w) "WORKFLOW_ARGS" "") = Answer args ->
  key = "confidence" \/ key = "temperature" ->
  args !! key = Some v ->
  truthy v = true ->
  (forall x, v <> VStr x) ->
  (exists e, fst (main w s) = Raise e) /\
  scans (trace (snd (main w s))) = scans (trace s).
Proof.
  intros Hargs Hkey Hv Htruthy Hstr.
  destruct (main_until_scan w s) as [[l|e] s1] eqn:E.
  - exfalso.
    destruct (main_until_scan_inv _ _ _ _ E)
      as (Hargs' & _ & _ & _ & _ & _ & g & cli & s2 & s3 & Hg & _ & Hcmd).
    rewrite Hargs in Hargs'. injection Hargs' as Heq.
    apply add_global_args_value in Hg. rewrite <- Heq in Hg.
    assert (Hin : In v (map VStr (cmd l))).
    { rewrite Hcmd, Hg. apply in_or_app. right. apply in_or_app. left.
      apply in_or_app. right.
      destruct Hkey as [-> | ->].
      - apply in_or_app. left. rewrite (dict_get_Some _ _ _ Hv), Htruthy. right. now left.
      - apply in_or_app. right. apply in_or_app. left.
        rewrite (dict_get_Some _ _ _ Hv), Htruthy. right. now left. }
    apply in_map_iff in Hin as (x & Hx & _). exact (Hstr x (eq_sym Hx)).
  - destruct (main_stops_before_scan _ _ _ _ E) as [-> Hscans]. split; [now exists e|].
    exact Hscans.
Qed.

Lemma non_string_option_never_scans_witness :
  (exists e, fst (main scenario_numeric_confidence (initial [])) = Raise e) /\
  scans (trace (snd (main scenario_numeric_confidence (initial [])))) = scans (trace (initial [])).
Proof.
  apply (non_string_option_never_scans scenario_numeric_confidence (initial [])
           (list_to_map [("confidence", VInt 8)]) "confidence" (VInt 8)).
  - reflexivity.
  - now left.
  - reflexivity.
  - reflexivity.
  - intros x. discriminate.
Defined.

(** A pull_request_review event never runs the scan: [main] ends with an
    exception (the [SystemExit] of the review handler, or an error before
    it) and no scan is run. *)
Theorem review_event_never_scans (w : World) (s : State) :
  environ_get_or (environ w) "GITHUB_EVENT_NAME" "" = "pull_request_review" ->
  (exists e, fst (main w s) = Raise e) /\
  scans (trace (snd (main w s))) = scans (trace s).
Proof.
  intros Hevent.
  destruct (main_until_scan w s) as [[l|e] s1] eqn:E.
  - destruct (main_until_scan_Ok _ _ _ _ E) as (_ & Hne & _). contradiction.
  - destruct (main_stops_before_scan _ _ _ _ E) as [-> Hscans]. split; [now exists e|].
    exact Hscans.
Qed.

Lemma review_event_never_scans_witness :
  (exists e, fst (main scenario_review (initial [risk_comment])) = Raise e) /\
  scans (trace (snd (main scenario_review (initial [risk_comment]))))
  = scans (trace (initial [risk_comment])).
Proof.
  apply (review_event_never_scans scenario_review (initial [risk_comment])).
  reflexivity.
Defined.

Lemma run_scan_fails w l s :
  match run w (cmd l) with
  | Answer (0%Z, _) => False
  | _ => True
  end ->
  exists e tr,
    run_scan w l s = (Raise e, wrote s tr) /\
    is_Exception e = true /\
    scans tr = [ERun (cmd l)] /\ status_checks tr = [].
Proof.
  intros Hrun. unfold run_scan.
  destruct (run w (cmd l)) as [[code output_content]|f] eqn:Erun.
  - destruct (code =? 0)%Z eqn:Ecode.
    { apply Z.eqb_eq in Ecode. subst code. contradiction. }
    erewrite try_except_Raise
      by (rewrite bind_print, bind_emit; cbn [ask]; rewrite bind_ret; cbv iota beta;
          rewrite !bind_print, Ecode; cbn [negb]; rewrite !bind_print, !wrote_wrote;
          reflexivity).
    cbn [is_Exception]. rewrite bind_print, wrote_wrote.
    eexists _, _. split; [reflexivity|]. now repeat split.
  - erewrite try_except_Raise
      by (rewrite bind_print, bind_emit; cbn [ask]; rewrite bind_raise, !wrote_wrote;
          reflexivity).
    replace (is_Exception (exn_of f)) with true by now destruct f.
    rewrite bind_print, wrote_wrote.
    eexists _, _. split; [reflexivity|]. split; [now destruct f|]. now split.
Qed.

(** A scan that cannot be run, or that exits with a status other than 0,
    fails the invocation: [main] ends with exit status 1 after that one
    scan, and writes no status check. *)
Theorem failed_scan_is_fatal (w : World) (s s1 : State) (l : Locals) :
  main_until_scan w s = (Ok l, s1) ->
  match run w (cmd l) with
  | Answer (0%Z, _) => False
  | _ => True
  end ->
  exit_status (main w) s = 1%Z /\
  scans (trace (snd (main w s))) = scans (trace s) ++ [ERun (cmd l)] /\
  status_checks (trace (snd (main w s))) = status_checks (trace s).
Proof.
  intros E Hrun.
  destruct (main_until_scan_Ok _ _ _ _ E) as ((tr & -> & Hquiet) & _).
  destruct (run_scan_fails w l (wrote s tr) Hrun) as (e & tr1 & Hscan & He & Hscans & Hstatus).
  assert (Hmain : main w s = (Raise e, wrote (wrote s tr) tr1)).
  { unfold main. erewrite bind_run by exact E. now apply bind_fail. }
  unfold exit_status. rewrite Hmain. cbn [fst snd wrote trace].
  split; [now apply is_Exception_exit_status|].
  rewrite !scans_app, !status_checks_app, Hscans, Hstatus,
    (event_ok_no_scan _ _ Hquiet), (quiet_no_status _ Hquiet), !app_nil_r.
  now split.
Qed.

Lemma failed_scan_is_fatal_witness :
  exit_status (main scenario_scan_fails) (initial []) = 1%Z /\
  scans (trace (snd (main scenario_scan_fails (initial []))))
  = scans (trace (initial [])) ++ [ERun (cmd scenario_B_locals)] /\
  status_checks (trace (snd (main scenario_scan_fails (initial []))))
  = status_checks (trace (initial [])).
Proof.
  apply (failed_scan_is_fatal scenario_scan_fails (initial [])
           (snd (main_until_scan scenario_scan_fails (initial []))) scenario_B_locals).
  - vm_compute. reflexivity.
  - exact I.
Defined.

(** Workflow arguments that are no JSON, an event file that is not named,
    not there or not readable, or a missing workflow name each end the
    invocation with exit status 1 before the review handler: [main] has
    then written lines of output only, so no scan was run and no status
    check or comment was written. *)
Theorem unusable_inputs_exit_1 (w : World) (s : State) :
  (exists f, json_loads w (environ_get_or (environ w) "WORKFLOW_ARGS" "") = Failure f) \/
  match environ w !! "GITHUB_EVENT_PATH" with
  | Some path => path = "" \/
                 match event_files w path with Some (Answer _) => False | _ => True end
  | None => True
  end \/
  environ_get_or (environ w) "INPUT_WORKFLOW" "" = "" ->
  exit_status (main w) s = 1%Z /\
  exists tr, snd (main w s) = wrote s tr /\ Forall quiet tr.
Proof.
  intros Hcase.
  assert (H : exists e tr, main_until_scan w s = (Raise e, wrote s tr)
                           /\ Forall quiet tr /\ exit_status_of_exn e = 1%Z).
  { unfold main_until_scan. rewrite bind_log, bind_print, wrote_wrote.
    match goal with |- context [bind (parse_workflow_args w) _ ?s0] =>
      destruct (parse_workflow_args w s0) as [[args|e] s2] eqn:Eparse;
      destruct (writes_run _ _ _ _ _ _ (parse_workflow_args_writes w) Eparse)
        as (tr1 & -> & Hq1 & He1)
    end.
    2:{ erewrite bind_fail by exact Eparse. rewrite wrote_wrote.
        do 2 eexists. split; [reflexivity|].
        split; [apply Forall_app; split; [repeat constructor|exact Hq1]|].
        now apply is_Exception_exit_status, He1. }
    erewrite bind_run by exact Eparse.
    apply parse_workflow_args_Ok in Eparse as [Hargs _].
    match goal with |- context [bind (get_github_context w) _ ?s0] =>
      destruct (get_github_context w s0) as [[[github_repository pr_number]|e] s3] eqn:Econtext;
      destruct (writes_run _ _ _ _ _ _ (get_github_context_writes w) Econtext)
        as (tr2 & -> & Hq2 & He2)
    end.
    2:{ erewrite bind_fail by exact Econtext. rewrite !wrote_wrote.
        do 2 eexists. split; [reflexivity|].
        split; [repeat (apply Forall_app; split); try assumption; repeat constructor|].
        now apply is_Exception_exit_status, He2. }
    erewrite bind_run by exact Econtext.
    apply get_github_context_Ok in Econtext as [_ (path & Hpath & Hne & Hfile)].
    destruct Hcase as [[f Hf]|[Hevent|Hworkflow]].
    - congruence.
    - rewrite Hpath in Hevent. destruct Hevent as [->|Hevent]; [contradiction|].
      now rewrite Hfile in Hevent.
    - rewrite bind_log, Hworkflow. cbn [truthy String.eqb negb].
      rewrite bind_print, !wrote_wrote.
      do 2 eexists. split; [reflexivity|]. split; [|reflexivity].
      repeat (apply Forall_app; split); try assumption; repeat constructor. }
  destruct H as (e & tr & Hrun & Hquiet & Hexit).
  destruct (main_stops_before_scan _ _ _ _ Hrun) as [Hmain _].
  unfold exit_status. rewrite Hmain. cbn [fst snd]. split; [exact Hexit|]. now exists tr.
Qed.

Lemma unusable_inputs_exit_1_witness :
  exit_status (main scenario_no_workflow) (initial []) = 1%Z /\
  exists tr, snd (main scenario_no_workflow (initial [])) = wrote (initial []) tr /\
             Forall quiet tr.
Proof.
  apply (unusable_inputs_exit_1 scenario_no_workflow (initial [])).
  right. right. reflexivity.
Defined.

(** *** A comment that cannot be posted *)

(** When the results file is read and [create_pr_comment] raises (no
    token, or the host refuses a call), [process_sarif_file] creates no
    annotation: it logs the error and raises it again, and
    [create_annotations] is not run. *)
Theorem comment_failure_skips_annotations
    (environ : gmap string string) (host : Host)
    (files : string -> option (answer SarifData))
    (sarif_file_path repository : string) (pr_number : Z) (title : string)
    (data : SarifData) (s s1 : State) (e : exn) :
  files sarif_file_path = Some (Answer data) ->
  create_pr_comment environ host
    {| sarif_file_path := sarif_file_path; repository := repository;
       SarifToComment.pr_number := pr_number; title := title; parser := data |}
    false
    (wrote s [EPrint ("::debug::Processing SARIF file: " +:+ sarif_file_path);
              EPrint ("::debug::Repository: " +:+ repository);
              EPrint ("::debug::PR Number: " +:+ str_of_Z pr_number);
              EPrint "::debug::Dry Run: False"])
  = (Raise e, s1) ->
  process_sarif_file environ host files sarif_file_path repository pr_number title false s
  = (Raise e,
     wrote s1 [EPrint ("::debug::Error processing SARIF file: " +:+ exn_str e)]).
Proof.
  intros Hfile Hcomment.
  destruct (create_pr_comment_raise_inv _ _ _ _ _ _ _ Hcomment) as (tr & _ & _ & He).
  unfold process_sarif_file. rewrite Hfile. rewrite !bind_log, !wrote_wrote.
  erewrite bind_run
    by (unfold _load_sarif_file; rewrite Hfile; apply try_except_Ok; reflexivity).
  erewrite try_except_Raise by (apply bind_fail; exact Hcomment).
  rewrite He. now rewrite bind_log.
Qed.

Lemma comment_failure_skips_annotations_witness :
  let data := document "fraim"
                [result_at (Some "sql-injection") (Some "error") "app.py" 10 12 None] in
  let files := fun _ : string => Some (Answer data) in
  process_sarif_file environ_no_token (host_with []) files "fraim_outputs/results.sarif"
    "octo/app" 7 "Fraim Security Alert" false (initial [])
  = (Raise (ValueError "No GitHub token available"),
     wrote
       (wrote (initial [])
          [EPrint "::debug::Processing SARIF file: fraim_outputs/results.sarif";
           EPrint "::debug::Repository: octo/app";
           EPrint "::debug::PR Number: 7";
           EPrint "::debug::Dry Run: False";
           EPrint "::debug::Error creating PR comment: No GitHub token available"])
       [EPrint "::debug::Error processing SARIF file: No GitHub token available"]).
Proof.
  intros data files.
  apply (comment_failure_skips_annotations environ_no_token (host_with []) files
           "fraim_outputs/results.sarif" "octo/app" 7 "Fraim Security Alert" data
           (initial []) _ (ValueError "No GitHub token available")).
  - reflexivity.
  - vm_compute. reflexivity.
Defined.
